(** * AgriProfit: the profitability calculator and the persistent store

    A shallow embedding of [js/calculator.js] (module [Calculator]) and of
    the storage module (module [StorageManager]) of the AgriProfit single
    page application, and the properties of the two that the specification
    states; then more of the behaviour of the two, and of two actions of
    the application that call the storage module.

    Conventions of the embedding.

    - A JavaScript number is an IEEE 754 binary64 value: Rocq's primitive
      [float], with the language's [===], [<], [<=] as [PrimFloat.eqb],
      [PrimFloat.ltb], [PrimFloat.leb].
    - A JavaScript string is a [string] holding its text in UTF-8, one
      byte to a character of the [string]: a string of Unicode characters,
      without lone surrogates. White space is all the white space of the
      language; of the letters, [toLowerCase] is modelled on the ASCII ones,
      and what is proved of it is proved of ASCII text.
    - A function of the source that can end in an exception returns a
      [completion]; [try]/[catch] is a match on it.
    - A plain object used as a dictionary is a [gmap string _]; an absent
      property and a property holding [undefined] are the same thing.
    - The clock and the random source are explicit inputs. *)

From Stdlib Require Import ZArith Floats String Ascii List Bool Lia.
From stdpp Require Import base option list strings gmap fin_maps pretty.
Import ListNotations.

Local Open Scope string_scope.
Local Open Scope list_scope.

(** ** JavaScript numbers and the builtins the calculator calls *)

Module JS.

Inductive jsval : Type :=
  | JUndefined
  | JNull
  | JStr (s : string)
  | JNum (x : float).

(** Outcome of running a function body. *)
Inductive completion (A : Type) : Type :=
  | Returns (a : A)
  | Throws (what : string).
Arguments Returns {A} a.
Arguments Throws {A} what.

Definition bind {A B} (c : completion A) (k : A -> completion B) : completion B :=
  match c with
  | Returns a => k a
  | Throws e => Throws e
  end.

(** [isNaN x] on a number. *)
Definition isNaN (x : float) : bool := PrimFloat.is_nan x.

(** Truthiness of a number: everything but [+0], [-0] and [NaN]. *)
Definition truthy_num (x : float) : bool :=
  negb (PrimFloat.eqb x 0%float) && negb (isNaN x).

(** [x || 0] on a number. *)
Definition or_zero (x : float) : float := if truthy_num x then x else 0%float.

(** [!v]. *)
Definition falsy (v : jsval) : bool :=
  match v with
  | JUndefined | JNull => true
  | JStr s => String.eqb s ""
  | JNum x => negb (truthy_num x)
  end.

(** [v === undefined || v === null || v === '']: a form field left out. *)
Definition is_blank (v : jsval) : bool :=
  match v with
  | JUndefined | JNull => true
  | JStr s => String.eqb s ""
  | JNum _ => false
  end.

(** *** White space and [String.prototype.trim]

    The white space and line terminators of the language, which [trim] and
    [parseFloat] strip, by their UTF-8 bytes: U+0009 to U+000D and U+0020
    in one byte; U+00A0 in two; U+1680, U+2000 to U+200A, U+2028, U+2029,
    U+202F, U+205F, U+3000 and U+FEFF in three. *)

Definition ws_byte (c : ascii) : bool :=
  let n := N_of_ascii c in
  ((9 <=? n) && (n <=? 13) || (n =? 32))%N.

Definition ws_two_bytes (c1 c2 : ascii) : bool :=
  ((N_of_ascii c1 =? 194) && (N_of_ascii c2 =? 160))%N.

Definition ws_three_bytes (c1 c2 c3 : ascii) : bool :=
  let n1 := N_of_ascii c1 in
  let n2 := N_of_ascii c2 in
  let n3 := N_of_ascii c3 in
  ((n1 =? 225) && (n2 =? 154) && (n3 =? 128)
   || (n1 =? 226) && (n2 =? 128)
      && ((128 <=? n3) && (n3 <=? 138) || (n3 =? 168) || (n3 =? 169) || (n3 =? 175))
   || (n1 =? 226) && (n2 =? 129) && (n3 =? 159)
   || (n1 =? 227) && (n2 =? 128) && (n3 =? 128)
   || (n1 =? 239) && (n2 =? 187) && (n3 =? 191))%N.

Fixpoint trim_start (s : string) : string :=
  match s with
  | String c1 r1 =>
      if ws_byte c1 then trim_start r1
      else
        match r1 with
        | String c2 r2 =>
            if ws_two_bytes c1 c2 then trim_start r2
            else
              match r2 with
              | String c3 r3 => if ws_three_bytes c1 c2 c3 then trim_start r3 else s
              | EmptyString => s
              end
        | EmptyString => s
        end
  | EmptyString => EmptyString
  end.

(** [s.trim() === '']: nothing but white space. *)
Definition trims_to_empty (s : string) : bool :=
  String.eqb (trim_start s) "".

(** *** [parseFloat] *)

Definition digit_of (c : ascii) : option Z :=
  let n := N_of_ascii c in
  if ((48 <=? n) && (n <=? 57))%N then Some (Z.of_N n - 48)%Z else None.

(** Reads the longest run of decimal digits at the head of [s], on top of
    the digits already read into [acc]; also counts the digits read. *)
Fixpoint read_digits (s : string) (acc : Z) (n : nat) : Z * nat * string :=
  match s with
  | String c r =>
      match digit_of c with
      | Some d => read_digits r (10 * acc + d)%Z (S n)
      | None => (acc, n, s)
      end
  | EmptyString => (acc, n, s)
  end.

(** The exponent part [e[+-]digits], 0 when [s] does not start with one. *)
Definition read_exponent (s : string) : Z :=
  match s with
  | String c r =>
      if (Ascii.eqb c "e" || Ascii.eqb c "E")%bool then
        let '(neg, r') :=
          match r with
          | String "+" t => (false, t)
          | String "-" t => (true, t)
          | _ => (false, r)
          end in
        let '(v, n, _) := read_digits r' 0%Z 0 in
        match n with
        | O => 0%Z
        | S _ => if neg then (- v)%Z else v
        end
      else 0%Z
  | EmptyString => 0%Z
  end.

(** The binary64 nearest to [m * 10^e], for [m >= 0] (ties to even). *)
Definition decimal_to_float (m e : Z) : float :=
  match m with
  | Zpos p =>
      match e with
      | Zneg k =>
          SF2Prim (SFdiv prec emax (S754_finite false p 0)
                                   (S754_finite false (Pos.pow 10 k) 0))
      | _ => SF2Prim (binary_normalize prec emax (m * 10 ^ e)%Z 0 false)
      end
  | _ => 0%float
  end.

(** [StrUnsignedDecimalLiteral]: the value of its longest prefix of [s]. *)
Definition parse_unsigned (s : string) : float :=
  if String.prefix "Infinity" s then infinity
  else
    let '(i, ni, r1) := read_digits s 0%Z 0 in
    match r1 with
    | String "." r2 =>
        let '(m, nf, r3) := read_digits r2 i 0 in
        match ni, nf with
        | O, O => nan
        | _, _ => decimal_to_float m (read_exponent r3 - Z.of_nat nf)
        end
    | _ =>
        match ni with
        | O => nan
        | S _ => decimal_to_float i (read_exponent r1)
        end
    end.

(** [parseFloat] on a string: leading white space is skipped, then the
    longest prefix that is a [StrDecimalLiteral] is read; [NaN] when there
    is none. *)
Definition parseFloat_string (s : string) : float :=
  match trim_start s with
  | String "-" r => (- parse_unsigned r)%float
  | String "+" r => parse_unsigned r
  | r => parse_unsigned r
  end.

(** [parseFloat] on a number goes through [ToString]: every number comes
    back as itself, except [-0], which prints as ["0"]. *)
Definition parseFloat_number (x : float) : float :=
  if PrimFloat.eqb x 0%float then 0%float else x.

(** [parseFloat(v)]. [undefined] and [null] print as words that are not
    numbers. *)
Definition parseFloat (v : jsval) : float :=
  match v with
  | JUndefined | JNull => nan
  | JStr s => parseFloat_string s
  | JNum x => parseFloat_number x
  end.

End JS.

Import JS.

(** ** The calculator: [js/calculator.js] *)

Module Calculator.

Local Open Scope float_scope.

(** The object handed to [validateInputs] and [calculateProfitability]:
    the ten form fields, as strings when they come from the form and as
    numbers when they come from [whatIfPriceChange]. *)
Record Inputs : Type := {
  cropType : jsval;
  acreage : jsval;
  yieldPerAcre : jsval;
  marketPrice : jsval;
  seedCost : jsval;
  fertilizerCost : jsval;
  chemicalCost : jsval;
  laborCost : jsval;
  equipmentCost : jsval;
  miscCost : jsval
}.

Record Validation : Type := { isValid : bool; errors : list string }.

Definition costFields : list string :=
  ["seedCost"; "fertilizerCost"; "chemicalCost"; "laborCost";
   "equipmentCost"; "miscCost"]%string.

(** [inputs[field]] for the names of [costFields]. *)
Definition cost_input (inputs : Inputs) (field : string) : jsval :=
  if String.eqb field "seedCost" then seedCost inputs
  else if String.eqb field "fertilizerCost" then fertilizerCost inputs
  else if String.eqb field "chemicalCost" then chemicalCost inputs
  else if String.eqb field "laborCost" then laborCost inputs
  else if String.eqb field "equipmentCost" then equipmentCost inputs
  else if String.eqb field "miscCost" then miscCost inputs
  else JUndefined.

(** [errors.push(msg)]. *)
Definition push (errors : list string) (msg : string) : list string :=
  errors ++ [msg].

(** The test on the crop type. [.trim] exists on strings only: calling it
    on a truthy value of another type is a [TypeError]. *)
Definition crop_missing (v : jsval) : completion bool :=
  if falsy v then Returns true
  else match v with
       | JStr s => Returns (trims_to_empty s)
       | _ => Throws "TypeError: inputs.cropType.trim is not a function"
       end.

Definition validateInputs (inputs : Inputs) : completion Validation :=
  let errors := [] in
  (* crop type *)
  bind (crop_missing (cropType inputs)) (fun missing =>
  let errors := if missing then push errors "Crop type is required" else errors in
  (* acreage *)
  let errors :=
    if is_blank (acreage inputs) then push errors "Acres planted is required"
    else if isNaN (parseFloat (acreage inputs)) || (parseFloat (acreage inputs) <=? 0)
         then push errors "Acres planted must be greater than 0"
         else errors in
  (* yield *)
  let errors :=
    if is_blank (yieldPerAcre inputs) then push errors "Expected yield is required"
    else if isNaN (parseFloat (yieldPerAcre inputs)) || (parseFloat (yieldPerAcre inputs) <? 0)
         then push errors "Expected yield cannot be negative"
         else errors in
  (* market price *)
  let errors :=
    if is_blank (marketPrice inputs) then push errors "Market price is required"
    else if isNaN (parseFloat (marketPrice inputs)) || (parseFloat (marketPrice inputs) <? 0)
         then push errors "Market price cannot be negative"
         else errors in
  (* costs: optional, but non-negative when given *)
  let errors :=
    fold_left (fun errors field =>
      if negb (is_blank (cost_input inputs field)) then
        if isNaN (parseFloat (cost_input inputs field))
           || (parseFloat (cost_input inputs field) <? 0)
        then push errors (field ++ " cannot be negative")%string
        else errors
      else errors) costFields errors in
  Returns {| isValid := Nat.eqb (length errors) 0; errors := errors |}).

(** *** The arithmetic helpers *)

Definition calculateProduction (acres yieldPerAcre : jsval) : float :=
  let acresNum := parseFloat acres in
  let yieldNum := parseFloat yieldPerAcre in
  acresNum * yieldNum.

Definition calculateRevenue (production marketPrice : jsval) : float :=
  let prodNum := parseFloat production in
  let priceNum := parseFloat marketPrice in
  prodNum * priceNum.

(** [costs] is any object: its own properties in insertion order. *)
Definition calculateTotalCost (acres : jsval) (costs : list (string * jsval)) : float :=
  let acresNum := parseFloat acres in
  let costPerAcre :=
    fold_left (fun sum kv =>
      let costValue := or_zero (parseFloat (snd kv)) in
      sum + (if 0 <=? costValue then costValue else 0)) costs 0 in
  acresNum * costPerAcre.

Definition calculateNetProfit (revenue totalCost : jsval) : float :=
  let revNum := parseFloat revenue in
  let costNum := parseFloat totalCost in
  revNum - costNum.

Definition calculateProfitPerAcre (netProfit acres : jsval) : float :=
  let profitNum := parseFloat netProfit in
  let acresNum := parseFloat acres in
  if acresNum =? 0 then 0 else profitNum / acresNum.

Definition calculateProfitMargin (netProfit revenue : jsval) : float :=
  let profitNum := parseFloat netProfit in
  let revNum := parseFloat revenue in
  if revNum =? 0 then 0 else (profitNum / revNum) * 100.

Definition calculateCostPerUnit (totalCost production : jsval) : float :=
  let costNum := parseFloat totalCost in
  let prodNum := parseFloat production in
  if prodNum =? 0 then 0 else costNum / prodNum.

(** *** The calculation result *)

Module Costs.
Record t : Type := {
  seedCost : float;
  fertilizerCost : float;
  chemicalCost : float;
  laborCost : float;
  equipmentCost : float;
  miscCost : float
}.

(** The object's properties, in the order the literal lists them. *)
Definition entries (c : t) : list (string * jsval) :=
  [("seedCost", JNum (seedCost c)); ("fertilizerCost", JNum (fertilizerCost c));
   ("chemicalCost", JNum (chemicalCost c)); ("laborCost", JNum (laborCost c));
   ("equipmentCost", JNum (equipmentCost c)); ("miscCost", JNum (miscCost c))]%string.
End Costs.

Module Data.
Record t : Type := {
  cropType : jsval;
  acres : float;
  yieldPerAcre : float;
  marketPrice : float;
  production : float;
  revenue : float;
  totalCost : float;
  costBreakdown : Costs.t;
  costPerAcre : float;
  costPerUnit : float;
  netProfit : float;
  profitPerAcre : float;
  profitMargin : float;
  calculatedAt : string
}.
End Data.

(** [{success: true, data}] or [{success: false, errors}]. *)
Inductive Result : Type :=
  | Success (data : Data.t)
  | Failure (errors : list string).

(** The body of the [try] block. [now] is [new Date().toISOString()]. *)
Definition calculate (now : string) (inputs : Inputs) : completion Data.t :=
  let acres := parseFloat (acreage inputs) in
  let yieldPerAcre := parseFloat (yieldPerAcre inputs) in
  let marketPrice := parseFloat (marketPrice inputs) in
  let costs :=
    {| Costs.seedCost := or_zero (parseFloat (seedCost inputs));
       Costs.fertilizerCost := or_zero (parseFloat (fertilizerCost inputs));
       Costs.chemicalCost := or_zero (parseFloat (chemicalCost inputs));
       Costs.laborCost := or_zero (parseFloat (laborCost inputs));
       Costs.equipmentCost := or_zero (parseFloat (equipmentCost inputs));
       Costs.miscCost := or_zero (parseFloat (miscCost inputs)) |} in
  let production := calculateProduction (JNum acres) (JNum yieldPerAcre) in
  let revenue := calculateRevenue (JNum production) (JNum marketPrice) in
  let totalCost := calculateTotalCost (JNum acres) (Costs.entries costs) in
  let netProfit := calculateNetProfit (JNum revenue) (JNum totalCost) in
  let profitPerAcre := calculateProfitPerAcre (JNum netProfit) (JNum acres) in
  let profitMargin := calculateProfitMargin (JNum netProfit) (JNum revenue) in
  let costPerUnit := calculateCostPerUnit (JNum totalCost) (JNum production) in
  Returns
    {| Data.cropType := cropType inputs;
       Data.acres := acres;
       Data.yieldPerAcre := yieldPerAcre;
       Data.marketPrice := marketPrice;
       Data.production := production;
       Data.revenue := revenue;
       Data.totalCost := totalCost;
       Data.costBreakdown := costs;
       Data.costPerAcre := totalCost / acres;
       Data.costPerUnit := costPerUnit;
       Data.netProfit := netProfit;
       Data.profitPerAcre := profitPerAcre;
       Data.profitMargin := profitMargin;
       Data.calculatedAt := now |}.

Definition calculateProfitability (now : string) (inputs : Inputs)
  : completion Result :=
  bind (validateInputs inputs) (fun validation =>
  if negb (isValid validation) then Returns (Failure (errors validation))
  else
    match calculate now inputs with
    | Returns data => Returns (Success data)
    | Throws _ =>
        Returns (Failure
          ["An error occurred during calculation. Please check your inputs."%string])
    end).

(** *** What-if analysis *)

Record PriceChange : Type := {
  originalPrice : float;
  newPrice : float;
  changePercent : float
}.

(** The returned object, less its display label [scenarioName]. *)
Record WhatIf : Type := {
  originalCalculation : Result;
  newCalculation : Result;
  priceChange : PriceChange
}.

(** [null] is [None]. *)
Definition whatIfPriceChange (now : string) (calculation : Result)
    (priceChangePercent : float) : completion (option WhatIf) :=
  match calculation with
  | Failure _ => Returns None
  | Success data =>
      let originalPrice := Data.marketPrice data in
      let newPrice := originalPrice * (1 + priceChangePercent / 100) in
      let modifiedInputs :=
        {| cropType := Data.cropType data;
           acreage := JNum (Data.acres data);
           yieldPerAcre := JNum (Data.yieldPerAcre data);
           marketPrice := JNum newPrice;
           seedCost := JNum (Costs.seedCost (Data.costBreakdown data));
           fertilizerCost := JNum (Costs.fertilizerCost (Data.costBreakdown data));
           chemicalCost := JNum (Costs.chemicalCost (Data.costBreakdown data));
           laborCost := JNum (Costs.laborCost (Data.costBreakdown data));
           equipmentCost := JNum (Costs.equipmentCost (Data.costBreakdown data));
           miscCost := JNum (Costs.miscCost (Data.costBreakdown data)) |} in
      bind (calculateProfitability now modifiedInputs) (fun newCalculation =>
      Returns (Some
        {| originalCalculation := calculation;
           newCalculation := newCalculation;
           priceChange :=
             {| originalPrice := originalPrice;
                newPrice := newPrice;
                changePercent := priceChangePercent |} |}))
  end.

(** *** Comparing scenarios *)

Record Scenario : Type := {
  name : string;
  calculation : option Result
}.

Record Comparison : Type := {
  totalRevenue : float;
  totalCost : float;
  totalProfit : float;
  averageProfitPerAcre : float
}.

(** A scenario that passed the filter, with the [data] of its calculation. *)
Definition Valid : Type := (Scenario * Data.t)%type.

Record Summary : Type := {
  totalScenarios : nat;
  bestProfit : Valid;
  bestProfitPerAcre : Valid;
  scenarios : list Valid;
  comparison : Comparison
}.

(** [scenarios.filter(s => s.calculation && s.calculation.success)]. *)
Fixpoint validScenarios (l : list Scenario) : list Valid :=
  match l with
  | [] => []
  | s :: r =>
      match calculation s with
      | Some (Success d) => (s, d) :: validScenarios r
      | _ => validScenarios r
      end
  end.

(** [reduce] without an initial value, on a list that is not empty. *)
Definition reduce1 {A} (f : A -> A -> A) (first : A) (rest : list A) : A :=
  fold_left f rest first.

(** A length as a number. *)
Definition number_of_nat (n : nat) : float :=
  SF2Prim (binary_normalize prec emax (Z.of_nat n) 0 false).

Definition compareScenarios (l : list Scenario) : option Summary :=
  match l with
  | [] => None
  | _ =>
      match validScenarios l with
      | [] => None
      | first :: rest =>
          let valid := first :: rest in
          let bestProfit :=
            reduce1 (fun best current =>
              if Data.netProfit (snd best) <? Data.netProfit (snd current)
              then current else best) first rest in
          let bestProfitPerAcre :=
            reduce1 (fun best current =>
              if Data.profitPerAcre (snd best) <? Data.profitPerAcre (snd current)
              then current else best) first rest in
          Some
            {| totalScenarios := length valid;
               bestProfit := bestProfit;
               bestProfitPerAcre := bestProfitPerAcre;
               scenarios := valid;
               comparison :=
                 {| totalRevenue :=
                      fold_left (fun sum s => sum + Data.revenue (snd s)) valid 0;
                    totalCost :=
                      fold_left (fun sum s => sum + Data.totalCost (snd s)) valid 0;
                    totalProfit :=
                      fold_left (fun sum s => sum + Data.netProfit (snd s)) valid 0;
                    averageProfitPerAcre :=
                      fold_left (fun sum s => sum + Data.profitPerAcre (snd s)) valid 0
                      / number_of_nat (length valid) |} |}
      end
  end.

End Calculator.

(** ** String builtins the store and the application call *)

Module JSString.


(** [String.prototype.toLowerCase], on ASCII text: there the letters that
    change are [A] to [Z]. Cased letters beyond ASCII are not modelled. *)
Definition lower_char (c : ascii) : ascii :=
  let n := N_of_ascii c in
  if ((65 <=? n) && (n <=? 90))%N then ascii_of_N (n + 32) else c.

Fixpoint toLowerCase (s : string) : string :=
  match s with
  | EmptyString => EmptyString
  | String c r => String (lower_char c) (toLowerCase r)
  end.

(** [s.includes(sub)]: [sub] occurs somewhere in [s]. *)
Fixpoint includes (s sub : string) : bool :=
  String.prefix sub s
  || match s with
     | EmptyString => false
     | String _ r => includes r sub
     end.

(** The text without the white space at its end: cut where what follows
    is nothing but white space. *)
Fixpoint trim_end (s : string) : string :=
  match s with
  | EmptyString => EmptyString
  | String c r => if trims_to_empty s then EmptyString else String c (trim_end r)
  end.

(** [String.prototype.trim]. *)
Definition trim (s : string) : string := trim_end (trim_start s).

End JSString.

(** ** The persistent store: the [StorageManager] module

    [localStorage] holds text. What is modelled of a key is what
    [JSON.parse] makes of its text: nothing there (or a falsy value), a value
    of the shape the module writes, or text that does not parse. Values are
    JSON values: no property holds [undefined] or a function. The writers
    of scenarios, history and settings are modelled on the values that
    [JSON.stringify] followed by [JSON.parse] gives back unchanged, those
    for which [carried] is the identity, and what is proved of a value read
    back is proved of such values. [saveLastCalculation] is
    handed the results of the calculator, which can hold [NaN] and
    infinities, and is modelled with the step through JSON. The medium is
    either available, and then every write goes through, or it is not. *)

Module StorageManager.

Local Open Scope float_scope.

#[warnings="-register-all"]
Inductive json : Type :=
  | JsNull
  | JsBool (b : bool)
  | JsNum (x : float)
  | JsStr (s : string)
  | JsArr (l : list json)
  | JsObj (o : gmap string json).

(** An object: its properties. A property that is not there reads as
    [undefined], which is [None]. *)
Abbreviation obj := (gmap string json).

(** [JSON.parse(JSON.stringify(v))]: [NaN] and the infinities are written
    as [null], a negative zero as [0]; everything else comes back as it
    was. *)
Fixpoint carried (v : json) : json :=
  match v with
  | JsNum x =>
      if is_nan x || is_infinity x then JsNull
      else if x =? 0 then JsNum 0 else JsNum x
  | JsArr l => JsArr (map carried l)
  | JsObj o => JsObj (carried <$> o)
  | JsNull | JsBool _ | JsStr _ => v
  end.

(** [!v] for a property read. *)
Definition falsy (v : option json) : bool :=
  match v with
  | None | Some JsNull => true
  | Some (JsBool b) => negb b
  | Some (JsNum x) => negb (truthy_num x)
  | Some (JsStr s) => String.eqb s ""
  | Some (JsArr _) | Some (JsObj _) => false
  end.

(** [a === b] for two property reads, one of them off an object that
    [JSON.parse] has just made: arrays and objects are then never the same
    reference. *)
Definition strict_eq (a b : option json) : bool :=
  match a, b with
  | None, None => true
  | Some JsNull, Some JsNull => true
  | Some (JsBool x), Some (JsBool y) => Bool.eqb x y
  | Some (JsNum x), Some (JsNum y) => x =? y
  | Some (JsStr x), Some (JsStr y) => String.eqb x y
  | _, _ => false
  end.

(** What a key of the medium holds. *)
Inductive slot (A : Type) : Type :=
  | Absent
  | Stored (a : A)
  | Corrupt.
Arguments Absent {A}.
Arguments Stored {A} a.
Arguments Corrupt {A}.

(** The medium with its four keys, and the count of the readings of the
    clock and of the random source made so far. *)
Record World : Type := {
  available : bool;
  scenarios : slot (list obj);
  history : slot (list obj);
  settings : slot obj;
  lastCalculation : slot json;
  tick : nat
}.

Definition set_scenarios (v : slot (list obj)) (w : World) : World :=
  {| available := available w; scenarios := v; history := history w;
     settings := settings w; lastCalculation := lastCalculation w; tick := tick w |}.

Definition set_history (v : slot (list obj)) (w : World) : World :=
  {| available := available w; scenarios := scenarios w; history := v;
     settings := settings w; lastCalculation := lastCalculation w; tick := tick w |}.

Definition set_settings (v : slot obj) (w : World) : World :=
  {| available := available w; scenarios := scenarios w; history := history w;
     settings := v; lastCalculation := lastCalculation w; tick := tick w |}.

Definition set_lastCalculation (v : slot json) (w : World) : World :=
  {| available := available w; scenarios := scenarios w; history := history w;
     settings := settings w; lastCalculation := v; tick := tick w |}.

Definition advance (w : World) : World :=
  {| available := available w; scenarios := scenarios w; history := history w;
     settings := settings w; lastCalculation := lastCalculation w;
     tick := S (tick w) |}.

(** An available medium with nothing in it. *)
Definition empty_store (t : nat) : World :=
  {| available := true; scenarios := Absent; history := Absent;
     settings := Absent; lastCalculation := Absent; tick := t |}.

Definition DEFAULT_SETTINGS : obj :=
  {[ "unitPreference" := JsStr "imperial";
     "currency" := JsStr "usd";
     "decimalPlaces" := JsNum 2;
     "refreshInterval" := JsNum 15;
     "cacheMode" := JsStr "smart";
     "autoSave" := JsBool true;
     "themeMode" := JsStr "auto" ]}.

(** [{...a, ...b}]: the properties of [b] win. *)
Definition spread (a b : obj) : obj := b ∪ a.

(** [JSON.parse(localStorage.getItem(key)) || []]. *)
Definition parse_list (s : slot (list obj)) : completion (list obj) :=
  match s with
  | Absent => Returns []
  | Stored l => Returns l
  | Corrupt => Throws "SyntaxError"
  end.

(** [array.findIndex(p)], [None] for -1. *)
Fixpoint findIndex {A : Type} (p : A -> bool) (l : list A) : option nat :=
  match l with
  | [] => None
  | x :: r => if p x then Some 0%nat else S <$> findIndex p r
  end.

Definition maxHistoryItems : nat := 100.

(** The readings of the clock and of the random source, by their number. *)
Record Env : Type := {
  stamp : nat -> string;
  random : nat -> string;
  iso : nat -> string
}.

Section Operations.

Variable env : Env.

Definition isStorageAvailable (w : World) : bool := available w.

(** [`${Date.now()}-${Math.random().toString(36).substr(2, 9)}`]. *)
Definition generateId (w : World) : string * World :=
  ((stamp env (tick w) ++ "-" ++ random env (tick w))%string, advance w).

(** [new Date().toISOString()]. *)
Definition isoNow (w : World) : string * World :=
  (iso env (tick w), advance w).

Definition addToHistory (calculation : obj) (w : World) : bool * World :=
  if negb (isStorageAvailable w) then (false, w)
  else
    match parse_list (history w) with
    | Throws _ => (false, w)
    | Returns history =>
        let '(id, w) := generateId w in
        let '(now, w) := isoNow w in
        let historyItem :=
          <["addedAt" := JsStr now]> (spread {[ "id" := JsStr id ]} calculation) in
        let history := historyItem :: history in
        let history := take maxHistoryItems history in
        (true, set_history (Stored history) w)
    end.

Definition saveScenario (scenario : obj) (w : World) : bool * World :=
  if negb (isStorageAvailable w) then (false, w)
  else
    match parse_list (scenarios w) with
    | Throws _ => (false, w)
    | Returns scenarios =>
        let '(scenario, w) :=
          if falsy (scenario !! "id") then
            let '(id, w) := generateId w in (<["id" := JsStr id]> scenario, w)
          else (scenario, w) in
        let '(scenario, w) :=
          if falsy (scenario !! "savedAt") then
            let '(now, w) := isoNow w in (<["savedAt" := JsStr now]> scenario, w)
          else (scenario, w) in
        let existingIndex :=
          findIndex (fun s : obj => strict_eq (s !! "id") (scenario !! "id")) scenarios in
        let scenarios :=
          match existingIndex with
          | Some i => <[i := scenario]> scenarios
          | None => scenarios ++ [scenario]
          end in
        let w := set_scenarios (Stored scenarios) w in
        let '(_, w) := addToHistory scenario w in
        (true, w)
    end.

Definition getScenarios (w : World) : list obj :=
  if negb (isStorageAvailable w) then []
  else
    match parse_list (scenarios w) with
    | Returns l => l
    | Throws _ => []
    end.

Definition getScenario (id : option json) (w : World) : option obj :=
  find (fun s : obj => strict_eq (s !! "id") id) (getScenarios w).

Definition updateScenario (id : option json) (updates : obj) (w : World)
  : bool * World :=
  let scenarios := getScenarios w in
  match findIndex (fun s : obj => strict_eq (s !! "id") id) scenarios with
  | None => (false, w)
  | Some index =>
      match scenarios !! index with
      | None => (false, w)
      | Some old =>
          let '(now, w) := isoNow w in
          let scenarios :=
            <[index := <["updatedAt" := JsStr now]> (spread old updates)]> scenarios in
          (true, set_scenarios (Stored scenarios) w)
      end
  end.

Definition renameScenario (id : option json) (newName : string) (w : World)
  : bool * World :=
  updateScenario id {[ "name" := JsStr newName ]} w.

Definition deleteScenario (id : option json) (w : World) : bool * World :=
  if negb (isStorageAvailable w) then (false, w)
  else
    let scenarios := getScenarios w in
    let scenarios :=
      List.filter (fun s : obj => negb (strict_eq (s !! "id") id)) scenarios in
    (true, set_scenarios (Stored scenarios) w).

Definition deleteAllScenarios (w : World) : bool * World :=
  if negb (isStorageAvailable w) then (false, w)
  else (true, set_scenarios Absent w).

(** [limit] is [None] for [null]; a limit of 0 is falsy and limits nothing. *)
Definition getHistory (limit : option nat) (w : World) : list obj :=
  if negb (isStorageAvailable w) then []
  else
    match parse_list (history w) with
    | Returns history =>
        match limit with
        | Some (S n) => take (S n) history
        | _ => history
        end
    | Throws _ => []
    end.

Definition clearHistory (w : World) : bool * World :=
  if negb (isStorageAvailable w) then (false, w)
  else (true, set_history Absent w).

Definition deleteHistoryItem (id : option json) (w : World) : bool * World :=
  if negb (isStorageAvailable w) then (false, w)
  else
    let history := getHistory None w in
    let history :=
      List.filter (fun item : obj => negb (strict_eq (item !! "id") id)) history in
    (true, set_history (Stored history) w).

(** [(v || '').toLowerCase()] for a property read: only a string has
    the method. *)
Definition lowered (v : option json) : completion string :=
  match v with
  | Some (JsStr s) => Returns (JSString.toLowerCase s)
  | _ =>
      if falsy v then Returns ""
      else Throws "TypeError: toLowerCase is not a function"
  end.

(** [v?.key] for the keys ["data"] and ["cropType"], which only an object
    can have. *)
Definition optional_member (v : option json) (key : string) : option json :=
  match v with
  | Some (JsObj o) => o !! key
  | _ => None
  end.

(** The test [searchHistory] filters the history with. *)
Definition search_match (lowerQuery : string) (item : obj) : completion bool :=
  bind (lowered (item !! "name")) (fun name =>
  bind (lowered (item !! "description")) (fun description =>
  bind (lowered (optional_member (optional_member (item !! "calculation") "data")
                   "cropType")) (fun cropType =>
  Returns (JSString.includes name lowerQuery
           || JSString.includes description lowerQuery
           || JSString.includes cropType lowerQuery)))).

(** [array.filter(p)] for a test that can throw: the first exception ends
    the call. *)
Fixpoint filter_throwing {A : Type} (p : A -> completion bool) (l : list A)
  : completion (list A) :=
  match l with
  | [] => Returns []
  | x :: r =>
      bind (p x) (fun keep =>
      bind (filter_throwing p r) (fun r' =>
      Returns (if keep then x :: r' else r')))
  end.

Definition searchHistory (query : string) (w : World) : completion (list obj) :=
  let history := getHistory None w in
  let lowerQuery := JSString.toLowerCase query in
  filter_throwing (search_match lowerQuery) history.

Definition getSettings (w : World) : obj :=
  if negb (isStorageAvailable w) then DEFAULT_SETTINGS
  else
    match settings w with
    | Absent => DEFAULT_SETTINGS
    | Stored stored => spread DEFAULT_SETTINGS stored
    | Corrupt => DEFAULT_SETTINGS
    end.

Definition saveSettings (patch : obj) (w : World) : bool * World :=
  if negb (isStorageAvailable w) then (false, w)
  else
    let mergedSettings := spread (spread DEFAULT_SETTINGS (getSettings w)) patch in
    (true, set_settings (Stored mergedSettings) w).

Definition getSetting (key : string) (w : World) : option json :=
  getSettings w !! key.

Definition resetSettings (w : World) : bool * World :=
  if negb (isStorageAvailable w) then (false, w)
  else (true, set_settings Absent w).

(** What is written is [JSON.stringify(calculation)], so what the key then
    holds is the calculation as JSON carries it. *)
Definition saveLastCalculation (calculation : json) (w : World) : bool * World :=
  if negb (isStorageAvailable w) then (false, w)
  else (true, set_lastCalculation (Stored (carried calculation)) w).

(** [None] is the [null] returned for a key that is empty or does not
    parse, and for a medium that is not available; [Some v] is the value
    parsed off the key. *)
Definition getLastCalculation (w : World) : option json :=
  if negb (isStorageAvailable w) then None
  else
    match lastCalculation w with
    | Stored v => Some v
    | _ => None
    end.

(** The object [exportData] serialises. *)
Record Snapshot : Type := {
  version : string;
  exportedAt : string;
  snap_scenarios : list obj;
  snap_history : list obj;
  snap_settings : obj
}.

Definition exportData (w : World) : Snapshot * World :=
  let '(now, w') := isoNow w in
  ({| version := "1.0";
      exportedAt := now;
      snap_scenarios := getScenarios w;
      snap_history := getHistory None w;
      snap_settings := getSettings w |}, w').

(** What [JSON.parse] makes of the text handed to [importData]: an object
    of which the four fields the import reads are kept. [has_version] and
    [has_history] say whether the field is there and truthy; a [scenarios]
    field is an array of objects, a [settings] field an object, and [None]
    when missing or falsy. *)
Record Document : Type := {
  has_version : bool;
  doc_scenarios : option (list obj);
  has_history : bool;
  doc_settings : option obj
}.

Inductive parsed : Type :=
  | Unparseable (message : string)
  | Parsed (data : Document).

Record ImportResult : Type := { success : bool; message : string }.

Definition importData (jsonString : parsed) (w : World) : ImportResult * World :=
  match jsonString with
  | Unparseable why =>
      ({| success := false; message := "Error importing data: " ++ why |}, w)
  | Parsed data =>
      match doc_scenarios data, doc_settings data with
      | Some scenarios, Some settings =>
          if has_version data && has_history data then
            let w := fold_left (fun w scenario => snd (saveScenario scenario w))
                       scenarios w in
            let w := snd (saveSettings settings w) in
            ({| success := true;
                message := "Successfully imported " ++ pretty (length scenarios)
                           ++ " scenarios and settings" |}, w)
          else
            ({| success := false;
                message := "Error importing data: Invalid import format" |}, w)
      | _, _ =>
          ({| success := false;
              message := "Error importing data: Invalid import format" |}, w)
      end
  end.

(** The text [exportData] returns, read back by [JSON.parse]. *)
Definition parse_snapshot (s : Snapshot) : parsed :=
  Parsed {| has_version := negb (String.eqb (version s) "");
            doc_scenarios := Some (snap_scenarios s);
            has_history := true;
            doc_settings := Some (snap_settings s) |}.

Definition clearAllData (w : World) : bool * World :=
  if negb (isStorageAvailable w) then (false, w)
  else
    (true,
     {| available := available w; scenarios := Absent; history := Absent;
        settings := Absent; lastCalculation := Absent; tick := tick w |}).

(** *** The operations that write, as commands *)

Inductive command : Type :=
  | SaveScenario (scenario : obj)
  | UpdateScenario (id : option json) (updates : obj)
  | RenameScenario (id : option json) (newName : string)
  | DeleteScenario (id : option json)
  | DeleteAllScenarios
  | AddToHistory (calculation : obj)
  | ClearHistory
  | DeleteHistoryItem (id : option json)
  | SaveSettings (patch : obj)
  | ResetSettings
  | SaveLastCalculation (calculation : json)
  | ExportData
  | ImportData (jsonString : parsed)
  | ClearAllData.

Definition run (c : command) (w : World) : World :=
  match c with
  | SaveScenario s => snd (saveScenario s w)
  | UpdateScenario id u => snd (updateScenario id u w)
  | RenameScenario id n => snd (renameScenario id n w)
  | DeleteScenario id => snd (deleteScenario id w)
  | DeleteAllScenarios => snd (deleteAllScenarios w)
  | AddToHistory c => snd (addToHistory c w)
  | ClearHistory => snd (clearHistory w)
  | DeleteHistoryItem id => snd (deleteHistoryItem id w)
  | SaveSettings p => snd (saveSettings p w)
  | ResetSettings => snd (resetSettings w)
  | SaveLastCalculation c => snd (saveLastCalculation c w)
  | ExportData => snd (exportData w)
  | ImportData j => snd (importData j w)
  | ClearAllData => snd (clearAllData w)
  end.

Definition run_all (cs : list command) (w : World) : World :=
  fold_left (fun w c => run c w) cs w.

End Operations.

(** The entries of the history key, none when the key is empty or does not
    parse. *)
Definition history_entries (w : World) : list obj :=
  match history w with
  | Stored l => l
  | _ => []
  end.

(** The [id] of each entry, as read by [item.id]. *)
Definition ids (l : list obj) : list (option json) := map (fun o : obj => o !! "id") l.

End StorageManager.

(** ** The application: a history action, and the settings it holds

    Of [renameHistoryItem] the effect on the store; [answer] is what
    [prompt] returned, [None] for a cancelled dialog. *)

Module App.

Import StorageManager.

(** *** The settings the application holds

    [getSettings] hands out the object [DEFAULT_SETTINGS] itself when the
    medium is unavailable or the settings key does not parse, and an object
    of its own otherwise. The application keeps what it got as
    [state.settings] and writes into it, so that the defaults are no
    constant here: [defaults] is what the object [DEFAULT_SETTINGS] holds
    at the time. *)

Inductive reference : Type :=
  | TheDefaults
  | Own (o : obj).

(** The properties of the object referred to. *)
Definition read (defaults : obj) (r : reference) : obj :=
  match r with
  | TheDefaults => defaults
  | Own o => o
  end.

(** [StorageManager.getSettings()], with the object it returns. *)
Definition getSettings_of (defaults : obj) (w : World) : reference :=
  if negb (isStorageAvailable w) then TheDefaults
  else
    match settings w with
    | Absent => Own defaults
    | Stored stored => Own (spread defaults stored)
    | Corrupt => TheDefaults
    end.

(** [StorageManager.saveSettings(patch)]. *)
Definition saveSettings_of (defaults : obj) (patch : obj) (w : World) : bool * World :=
  if negb (isStorageAvailable w) then (false, w)
  else
    let mergedSettings :=
      spread (spread defaults (read defaults (getSettings_of defaults w))) patch in
    (true, set_settings (Stored mergedSettings) w).

(** What the application and the storage module share: the object
    [DEFAULT_SETTINGS], [state.settings], and the medium. *)
Record State : Type := {
  defaults : obj;
  state_settings : reference;
  medium : World
}.

(** The page as loaded over the medium [w]. *)
Definition loaded (w : World) : State :=
  {| defaults := DEFAULT_SETTINGS;
     state_settings := getSettings_of DEFAULT_SETTINGS w;
     medium := w |}.

(** Of [loadInitialData] the settings. *)
Definition loadInitialData (s : State) : State :=
  {| defaults := defaults s;
     state_settings := getSettings_of (defaults s) (medium s);
     medium := medium s |}.

(** [key] is a key of the settings form, [value] the value of its field. *)
Definition updateSetting (key : string) (value : json) (s : State) : State :=
  let '(defaults, held) :=
    match state_settings s with
    | TheDefaults => (<[key := value]> (defaults s), TheDefaults)
    | Own o => (defaults s, Own (<[key := value]> o))
    end in
  {| defaults := defaults;
     state_settings := held;
     medium := snd (saveSettings_of defaults {[ key := value ]} (medium s)) |}.

Section Actions.

Variable env : Env.

Definition renameHistoryItem (id : option json) (answer : option string) (w : World)
  : World :=
  match find (fun h : obj => strict_eq (h !! "id") id) (getHistory None w) with
  | None => w
  | Some item =>
      match answer with
      | None => w
      | Some newName =>
          if negb (String.eqb newName "") && negb (String.eqb (JSString.trim newName) "")
          then snd (updateScenario env id {[ "name" := JsStr (JSString.trim newName) ]} w)
          else w
      end
  end.

End Actions.

End App.

(** ** Numbers by their sign, and the equality of numbers *)

Module Float64.

Local Open Scope float_scope.

(** Sign bit clear, or [NaN]. *)
Definition sf_nonneg (f : spec_float) : bool :=
  match f with
  | S754_zero s | S754_infinity s | S754_finite s _ _ => negb s
  | S754_nan => true
  end.

Definition nonneg (x : float) : Prop := sf_nonneg (Prim2SF x) = true.

(** [SameValueZero] of the language standard: [===], except that [NaN] is
    the same as [NaN]. The two zeros are the same number. *)
Definition same_value_zero (x y : float) : bool :=
  (x =? y) || (is_nan x && is_nan y).

Definition sf_is_zero (f : spec_float) : bool :=
  match f with S754_zero _ => true | _ => false end.

Definition sf_is_nan (f : spec_float) : bool :=
  match f with S754_nan => true | _ => false end.

Definition sf_has_sign (s : bool) (f : spec_float) : Prop :=
  match f with
  | S754_zero s' | S754_infinity s' | S754_finite s' _ _ => s' = s
  | S754_nan => True
  end.

Definition sf_same (f g : spec_float) : Prop :=
  f = g \/ (sf_is_zero f = true /\ sf_is_zero g = true).

End Float64.

(** ** The validation rules, as the specification words them *)

Module CalculatorSpec.

Import Calculator.
Local Open Scope float_scope.

(** The crop type is a string, or is left out. *)
Definition crop_is_text (v : jsval) : Prop :=
  match v with JNum _ => False | _ => True end.

(** Empty crop type: left out, or nothing but white space. *)
Definition crop_empty (v : jsval) : bool :=
  match v with
  | JStr s => trims_to_empty s
  | _ => true
  end.

Definition unparseable (v : jsval) : bool := isNaN (parseFloat v).

(** A required number: missing, unparseable, or below its bound. *)
Definition required_rule (v : jsval) (below : float -> bool)
    (if_missing if_bad : string) : bool * string :=
  (is_blank v || unparseable v || below (parseFloat v),
   if is_blank v then if_missing else if_bad).

(** An optional cost: present, and unparseable or negative. *)
Definition cost_rule (inputs : Inputs) (field : string) : bool * string :=
  (negb (is_blank (cost_input inputs field))
   && (unparseable (cost_input inputs field)
       || (parseFloat (cost_input inputs field) <? 0)),
   (field ++ " cannot be negative")%string).

(** The rules in the order the input declares its fields: whether each is
    violated, and its message. *)
Definition rules (inputs : Inputs) : list (bool * string) :=
  [ (crop_empty (cropType inputs), "Crop type is required"%string);
    required_rule (acreage inputs) (fun x => x <=? 0)
      "Acres planted is required" "Acres planted must be greater than 0";
    required_rule (yieldPerAcre inputs) (fun x => x <? 0)
      "Expected yield is required" "Expected yield cannot be negative";
    required_rule (marketPrice inputs) (fun x => x <? 0)
      "Market price is required" "Market price cannot be negative" ]
  ++ map (cost_rule inputs) costFields.

(** One message for each violated rule, in the order of the rules. *)
Definition violations (inputs : Inputs) : list string :=
  map snd (filter (fun r => fst r = true) (rules inputs)).

(** A scenario whose calculation succeeded. *)
Definition succeeded (s : Scenario) : bool :=
  match calculation s with
  | Some (Success _) => true
  | _ => false
  end.

(** [b] is the first of the entries of [l] with the largest key: it stands
    in [l], no entry before it has a key that reaches its key, no entry
    after it has a key above its key. *)
Definition first_maximal {A : Type} (key : A -> float) (l : list A) (b : A) : Prop :=
  exists before after,
    l = before ++ b :: after
    /\ (forall s, In s before -> (key b <=? key s) = false)
    /\ (forall s, In s after -> (key b <? key s) = false).


(** The messages one rule contributes: one when violated, none otherwise. *)
Definition messages (r : bool * string) : list string :=
  if fst r then [snd r] else [].

(** What a valid input guarantees about its fields. *)
Record valid_fields (inputs : Inputs) : Prop := {
  vf_crop : crop_is_text (cropType inputs);
  vf_acres_nan : is_nan (parseFloat (acreage inputs)) = false;
  vf_acres_pos : (parseFloat (acreage inputs) <=? 0) = false;
  vf_acres_given : is_blank (acreage inputs) = false;
  vf_yield_nan : is_nan (parseFloat (yieldPerAcre inputs)) = false;
  vf_yield_neg : (parseFloat (yieldPerAcre inputs) <? 0) = false;
  vf_yield_given : is_blank (yieldPerAcre inputs) = false;
  vf_price_nan : is_nan (parseFloat (marketPrice inputs)) = false;
  vf_price_neg : (parseFloat (marketPrice inputs) <? 0) = false;
  vf_price_given : is_blank (marketPrice inputs) = false;
  vf_costs : forall field, In field costFields ->
    is_blank (cost_input inputs field) = true
    \/ (is_nan (parseFloat (cost_input inputs field)) = false
        /\ (parseFloat (cost_input inputs field) <? 0) = false)
}.

(** The inputs [whatIfPriceChange] builds from a result. *)
Definition modified_inputs (d : Data.t) (newPrice : float) : Inputs :=
  {| cropType := Data.cropType d;
     acreage := JNum (Data.acres d);
     yieldPerAcre := JNum (Data.yieldPerAcre d);
     marketPrice := JNum newPrice;
     seedCost := JNum (Costs.seedCost (Data.costBreakdown d));
     fertilizerCost := JNum (Costs.fertilizerCost (Data.costBreakdown d));
     chemicalCost := JNum (Costs.chemicalCost (Data.costBreakdown d));
     laborCost := JNum (Costs.laborCost (Data.costBreakdown d));
     equipmentCost := JNum (Costs.equipmentCost (Data.costBreakdown d));
     miscCost := JNum (Costs.miscCost (Data.costBreakdown d)) |}.

(** The step of the two [reduce] calls that look for a best scenario. *)
Definition keep_larger {A : Type} (key : A -> float) (best current : A) : A :=
  if key best <? key current then current else best.

(** The inputs of the corn example with another market price. *)
Definition priced_result (price : jsval) : Inputs :=
  {| cropType := JStr "corn";
     acreage := JNum 100;
     yieldPerAcre := JNum 180;
     marketPrice := price;
     seedCost := JNum 60;
     fertilizerCost := JNum 80;
     chemicalCost := JNum 40;
     laborCost := JNum 50;
     equipmentCost := JNum 30;
     miscCost := JNum 10 |}.

(** The scenario a user saves under [name] for the calculation of
    [inputs]. *)
Definition scenario_of (name : string) (inputs : Inputs) : Scenario :=
  {| name := name;
     calculation :=
       match calculateProfitability "2024-05-01T12:00:00.000Z" inputs with
       | Returns r => Some r
       | Throws _ => None
       end |}.

(** The worked example of the specification. *)
Definition corn_example : Inputs :=
  {| cropType := JStr "corn";
     acreage := JNum 100;
     yieldPerAcre := JNum 180;
     marketPrice := JNum 4.5;
     seedCost := JNum 60;
     fertilizerCost := JNum 80;
     chemicalCost := JNum 40;
     laborCost := JNum 50;
     equipmentCost := JNum 30;
     miscCost := JNum 10 |}.

(** The same example as the form hands it over: every field a string. *)
Definition corn_form : Inputs :=
  {| cropType := JStr "corn";
     acreage := JStr "100";
     yieldPerAcre := JStr "180";
     marketPrice := JStr "4.50";
     seedCost := JStr "60";
     fertilizerCost := JStr "80";
     chemicalCost := JStr "40";
     laborCost := JStr "50";
     equipmentCost := JStr "30";
     miscCost := JStr "10" |}.

(** A form with four things wrong: no crop, no acres, a negative yield and
    a seed cost that is not a number. *)
Definition bad_form : Inputs :=
  {| cropType := JStr "  ";
     acreage := JStr "";
     yieldPerAcre := JStr "-3";
     marketPrice := JStr "4.50";
     seedCost := JStr "abc";
     fertilizerCost := JStr "";
     chemicalCost := JUndefined;
     laborCost := JNull;
     equipmentCost := JStr "30";
     miscCost := JNum 10 |}.

(** The corn example with a number where the name of the crop belongs. *)
Definition numbered_crop : Inputs :=
  {| cropType := JNum 7;
     acreage := JNum 100;
     yieldPerAcre := JNum 180;
     marketPrice := JNum 4.5;
     seedCost := JNum 60;
     fertilizerCost := JNum 80;
     chemicalCost := JNum 40;
     laborCost := JNum 50;
     equipmentCost := JNum 30;
     miscCost := JNum 10 |}.


(** The no-break space U+00A0, as the two bytes of its UTF-8 form. *)
Definition no_break_space : string :=
  String (ascii_of_N 194) (String (ascii_of_N 160) EmptyString).

(** The corn form with a crop type of one no-break space. *)
Definition spaced_crop : Inputs :=
  {| cropType := JStr no_break_space;
     acreage := JStr "100";
     yieldPerAcre := JStr "180";
     marketPrice := JStr "4.50";
     seedCost := JStr "60";
     fertilizerCost := JStr "80";
     chemicalCost := JStr "40";
     laborCost := JStr "50";
     equipmentCost := JStr "30";
     miscCost := JStr "10" |}.

(** The corn form with a no-break space before the acres. *)
Definition spaced_acres : Inputs :=
  {| cropType := JStr "corn";
     acreage := JStr (no_break_space ++ "100");
     yieldPerAcre := JStr "180";
     marketPrice := JStr "4.50";
     seedCost := JStr "60";
     fertilizerCost := JStr "80";
     chemicalCost := JStr "40";
     laborCost := JStr "50";
     equipmentCost := JStr "30";
     miscCost := JStr "10" |}.


(** Four scenarios: a cheap crop, the corn example twice, and a form that
    did not validate. *)
Definition four_scenarios : list Scenario :=
  [ scenario_of "cheap" (priced_result (JNum 2));
    scenario_of "corn A" corn_example;
    scenario_of "broken" bad_form;
    scenario_of "corn B" corn_form ].

End CalculatorSpec.

(** ** The store, as the specification words it *)

Module StorageSpec.

Import StorageManager.
Local Open Scope float_scope.

(** The settings that a store has persisted, none when the key is empty
    or does not parse. *)
Definition persisted_settings (w : World) : obj :=
  match settings w with
  | Stored o => o
  | _ => ∅
  end.

(** [defaults ⊕ a]: the entries of [a] laid over the defaults. *)
Definition over_defaults (a : obj) : obj := a ∪ DEFAULT_SETTINGS.

(** The entry [addToHistory] builds for [calculation] when the clock and
    the random source stand at reading [t]. *)
Definition history_item (env : Env) (t : nat) (calculation : obj) : obj :=
  <["addedAt" := JsStr (iso env (S t))]>
    (calculation ∪ {[ "id" := JsStr (stamp env t ++ "-" ++ random env t) ]}).

(** The entries of successive calls, the first call at reading [t]; each
    call takes two readings. *)
Fixpoint new_entries (env : Env) (t : nat) (calculations : list obj) : list obj :=
  match calculations with
  | [] => []
  | c :: r => history_item env t c :: new_entries env (2 + t) r
  end.

(** A scenario as [saveScenario] leaves it: with an id and a time of
    saving. *)
Definition keyed (s : obj) : Prop :=
  falsy (s !! "id") = false /\ falsy (s !! "savedAt") = false.

(** No scenario has the id of one before it. *)
Fixpoint distinct_ids (l : list obj) : Prop :=
  match l with
  | [] => True
  | s :: r =>
      (forall s' : obj, In s' r -> strict_eq (s !! "id") (s' !! "id") = false)
      /\ distinct_ids r
  end.

(** [addToHistory] called on each of [calculations] in turn. *)
Definition add_all (env : Env) (calculations : list obj) (w : World) : World :=
  fold_left (fun w c => snd (addToHistory env c w)) calculations w.

(** [exportData()], then [importData] of the text on an empty store whose
    clock stands at reading [t]. *)
Definition import_of_export (env : Env) (w : World) (t : nat) : ImportResult * World :=
  importData env (parse_snapshot (fst (exportData env w))) (empty_store t).

(** A clock and a random source for the examples. *)
Definition sample_env : Env :=
  {| stamp := fun n => ("17145648" ++ pretty n)%string;
     random := fun n => ("k3j9x" ++ pretty n)%string;
     iso := fun n => ("2024-05-01T12:00:00." ++ pretty n ++ "Z")%string |}.

(** A scenario as the application saves it: [id] is [null]. *)
Definition sample_scenario (name : string) : obj :=
  {[ "id" := JsNull; "name" := JsStr name; "description" := JsStr "";
     "savedAt" := JsStr "2024-05-01T11:59:00.000Z" ]}.

(** A scenario that comes with the id ["s1"], as an import or a second
    save of a loaded scenario hands it over. *)
Definition scenario_s1 (name : string) : obj :=
  <["id" := JsStr "s1"]> (sample_scenario name).

Definition scenario_s2 (name : string) : obj :=
  <["id" := JsStr "s2"]> (sample_scenario name).

(** A store with two saved scenarios, the history of their saving and one
    setting away from its default. *)
Definition saved_store : World :=
  {| available := true;
     scenarios := Stored [scenario_s1 "corn 2024"; scenario_s2 "soybeans 2024"];
     history := Stored [ <["addedAt" := JsStr "2024-05-01T12:00:03.000Z"]>
                           (scenario_s2 "soybeans 2024");
                         <["addedAt" := JsStr "2024-05-01T12:00:01.000Z"]>
                           (scenario_s1 "corn 2024") ];
     settings := Stored {[ "currency" := JsStr "eur" ]};
     lastCalculation := Absent;
     tick := 4 |}.

(** A calculation result added to the history by itself: it has no [id]. *)
Definition raw_calculation : obj :=
  {[ "success" := JsBool true; "data" := JsObj {[ "cropType" := JsStr "corn" ]} ]}.

End StorageSpec.

(** ** Notions for further properties of the store *)

Module StorageNotions.

Import StorageManager StorageSpec.

(** The scenarios of the scenarios key, none when the key is empty or does
    not parse. *)
Definition stored_scenarios (w : World) : list obj :=
  match scenarios w with
  | Stored l => l
  | _ => []
  end.

(** An id that [===] can find again: not an array and not an object. *)
Definition comparable (v : option json) : bool :=
  match v with
  | Some (JsArr _) | Some (JsObj _) => false
  | _ => true
  end.

(** The scenario [saveScenario] stores for [scenario]: with a generated id
    and the time of the clock where it came without. *)
Definition prepared (env : Env) (scenario : obj) (w : World) : obj :=
  let s1 :=
    if falsy (scenario !! "id")
    then <["id" := JsStr (stamp env (tick w) ++ "-" ++ random env (tick w))]> scenario
    else scenario in
  if falsy (s1 !! "savedAt")
  then <["savedAt" :=
          JsStr (iso env (if falsy (scenario !! "id") then S (tick w) else tick w))]> s1
  else s1.

(** [scenario] put in the place of the first scenario with its id, or at
    the end when there is none. *)
Definition upsert (scenario : obj) (l : list obj) : list obj :=
  match findIndex (fun e : obj => strict_eq (e !! "id") (scenario !! "id")) l with
  | Some i => <[i := scenario]> l
  | None => l ++ [scenario]
  end.

(** Every scenario has an id that is truthy, and no two share an id. *)
Definition ids_unique (l : list obj) : Prop :=
  distinct_ids l /\ forall s : obj, In s l -> falsy (s !! "id") = false.

(** The commands that cannot rewrite the id of a scenario: all but an
    update whose patch has an [id]. *)
Definition keeps_ids (c : command) : Prop :=
  match c with
  | UpdateScenario _ updates => updates !! "id" = None
  | _ => True
  end.

(** Whether a command can write a key of the medium. *)
Definition writes_scenarios (c : command) : bool :=
  match c with
  | SaveScenario _ | UpdateScenario _ _ | RenameScenario _ _ | DeleteScenario _
  | DeleteAllScenarios | ImportData _ | ClearAllData => true
  | _ => false
  end.

Definition writes_history (c : command) : bool :=
  match c with
  | SaveScenario _ | AddToHistory _ | ClearHistory | DeleteHistoryItem _
  | ImportData _ | ClearAllData => true
  | _ => false
  end.

Definition writes_settings (c : command) : bool :=
  match c with
  | SaveSettings _ | ResetSettings | ImportData _ | ClearAllData => true
  | _ => false
  end.

Definition writes_lastCalculation (c : command) : bool :=
  match c with
  | SaveLastCalculation _ | ClearAllData => true
  | _ => false
  end.

(** The three values [searchHistory] reads of an entry. *)
Definition searched_texts (item : obj) : list (option json) :=
  [ item !! "name"; item !! "description";
    optional_member (optional_member (item !! "calculation") "data") "cropType" ].

(** A value [(v || '').toLowerCase()] can be called on: a string, or a
    falsy value. *)
Definition readable (v : option json) : bool :=
  match v with
  | Some (JsStr _) => true
  | _ => falsy v
  end.

(** An entry [searchHistory] can read. *)
Definition searchable (item : obj) : bool := forallb readable (searched_texts item).

(** The text searched for a value: the string in lower case, nothing for a
    falsy value. *)
Definition text_of (v : option json) : string :=
  match v with
  | Some (JsStr s) => JSString.toLowerCase s
  | _ => ""
  end.

(** One of the three texts of the entry contains [lowerQuery]. *)
Definition matches (lowerQuery : string) (item : obj) : bool :=
  existsb (fun v => JSString.includes (text_of v) lowerQuery) (searched_texts item).

(** An object that [JSON.stringify] and [JSON.parse] hand back as it was:
    it holds no [NaN], no infinity and no negative zero, at any depth. *)
Definition kept_by_json (o : obj) : Prop := carried <$> o = o.

(** The commands whose scenarios the medium hands back as they were handed
    over. *)
Definition sends_kept (c : command) : Prop :=
  match c with
  | SaveScenario scenario => kept_by_json scenario
  | UpdateScenario _ updates => kept_by_json updates
  | ImportData (Parsed data) => Forall kept_by_json (default [] (doc_scenarios data))
  | _ => True
  end.



(** A document [importData] accepts. *)
Definition well_formed (d : Document) : bool :=
  has_version d && has_history d
  && match doc_scenarios d with Some _ => true | None => false end
  && match doc_settings d with Some _ => true | None => false end.

(** The number of scenarios a document brings, for the message. *)
Definition brought (d : Document) : nat :=
  match doc_scenarios d with Some l => length l | None => 0 end.

End StorageNotions.


(** ** Facts about binary64 numbers

    All of them are read off the specification of the primitive operations
    ([Prim2SF] and the [SF] functions of [SpecFloat]): signs and
    comparisons only, no rounding error is ever estimated. *)

Module Float64Facts.

Import Float64.
Local Open Scope float_scope.

Ltac cmp_cases :=
  repeat match goal with
    | |- context [Pos.compare_cont Eq ?a ?b] =>
        change (Pos.compare_cont Eq a b) with (Pos.compare a b)
    | H : context [Pos.compare_cont Eq ?a ?b] |- _ =>
        change (Pos.compare_cont Eq a b) with (Pos.compare a b) in H
    end;
  repeat match goal with
    | |- context [Z.compare ?a ?b] => destruct (Z.compare_spec a b)
    | H : context [Z.compare ?a ?b] |- _ => destruct (Z.compare_spec a b)
    | |- context [Pos.compare ?a ?b] => destruct (Pos.compare_spec a b)
    | H : context [Pos.compare ?a ?b] |- _ => destruct (Pos.compare_spec a b)
    end;
  simpl in *; subst; try discriminate; try reflexivity; try lia.

Lemma SFcompare_refl f :
  SFcompare f f = if sf_is_nan f then None else Some Eq.
Proof.
  destruct f as [s|s| |s m e]; simpl; try reflexivity.
  - destruct s; reflexivity.
  - destruct s; cmp_cases.
Qed.

Lemma is_nan_SF x : is_nan x = sf_is_nan (Prim2SF x).
Proof.
  unfold is_nan. rewrite FloatAxioms.eqb_spec. unfold SFeqb. rewrite SFcompare_refl.
  destruct (sf_is_nan (Prim2SF x)); reflexivity.
Qed.

Lemma eqb_zero_SF x : (x =? 0) = sf_is_zero (Prim2SF x).
Proof.
  rewrite FloatAxioms.eqb_spec. change (Prim2SF 0) with (S754_zero false).
  destruct (Prim2SF x) as [s|s| |s m e]; try reflexivity; destruct s; reflexivity.
Qed.

Lemma ltb_zero_SF x :
  (x <? 0) = negb (sf_nonneg (Prim2SF x)) && negb (sf_is_zero (Prim2SF x)).
Proof.
  rewrite FloatAxioms.ltb_spec. change (Prim2SF 0) with (S754_zero false).
  destruct (Prim2SF x) as [s|s| |s m e]; try reflexivity; destruct s; reflexivity.
Qed.

Lemma leb_zero_SF x :
  (x <=? 0) = negb (sf_is_nan (Prim2SF x))
              && (sf_is_zero (Prim2SF x) || negb (sf_nonneg (Prim2SF x))).
Proof.
  rewrite FloatAxioms.leb_spec. change (Prim2SF 0) with (S754_zero false).
  destruct (Prim2SF x) as [s|s| |s m e]; try reflexivity; destruct s; reflexivity.
Qed.

Lemma zero_leb_SF x :
  (0 <=? x) = negb (sf_is_nan (Prim2SF x))
              && (sf_is_zero (Prim2SF x) || sf_nonneg (Prim2SF x)).
Proof.
  rewrite FloatAxioms.leb_spec. change (Prim2SF 0) with (S754_zero false).
  destruct (Prim2SF x) as [s|s| |s m e]; try reflexivity; destruct s; reflexivity.
Qed.

(** *** Rounding keeps the sign it is given *)

Lemma binary_round_aux_sign s m e l :
  sf_has_sign s (binary_round_aux prec emax s m e l).
Proof.
  unfold binary_round_aux.
  destruct (shr_fexp prec emax m e l) as [mrs' e'].
  destruct (shr_fexp prec emax _ e' loc_Exact) as [mrs'' e''].
  destruct (shr_m mrs''); [reflexivity | | exact I].
  destruct (Z.leb e'' (emax - prec)); reflexivity.
Qed.

Lemma binary_round_sign s m e : sf_has_sign s (binary_round prec emax s m e).
Proof.
  unfold binary_round. destruct (shl_align _ _ _) as [mz ez].
  apply binary_round_aux_sign.
Qed.

Lemma has_sign_nonneg f : sf_has_sign false f -> sf_nonneg f = true.
Proof. destruct f; simpl; intros; subst; reflexivity. Qed.

Lemma nonneg_mul x y : nonneg x -> nonneg y -> nonneg (x * y).
Proof.
  unfold nonneg. rewrite FloatAxioms.mul_spec. unfold SF64mul.
  destruct (Prim2SF x) as [s|s| |s m e], (Prim2SF y) as [t|t| |t n k];
    simpl; intros Hx Hy; try reflexivity;
    try (destruct s; try discriminate; destruct t; try discriminate; reflexivity).
  destruct s; try discriminate. destruct t; try discriminate.
  apply has_sign_nonneg, binary_round_aux_sign.
Qed.

Lemma nonneg_add x y : nonneg x -> nonneg y -> nonneg (x + y).
Proof.
  unfold nonneg. rewrite FloatAxioms.add_spec. unfold SF64add.
  destruct (Prim2SF x) as [s|s| |s m e], (Prim2SF y) as [t|t| |t n k];
    simpl; intros Hx Hy; try reflexivity;
    try (destruct s; try discriminate; destruct t; try discriminate; reflexivity).
  destruct s; try discriminate. destruct t; try discriminate.
  apply has_sign_nonneg. simpl. apply binary_round_sign.
Qed.

Lemma nonneg_zero : nonneg 0.
Proof. reflexivity. Qed.

(** *** Equality of numbers *)

Lemma SFcompare_Eq f g : SFcompare f g = Some Eq -> sf_same f g.
Proof.
  unfold sf_same.
  destruct f as [s|s| |s m e], g as [t|t| |t n k]; simpl; intros H;
    try discriminate; try (right; split; reflexivity);
    try (destruct s; discriminate); try (destruct t; discriminate).
  - destruct s, t; try discriminate; left; reflexivity.
  - left. destruct s, t; try discriminate; cmp_cases.
Qed.

Lemma same_value_zero_SF x y :
  same_value_zero x y = true <-> sf_same (Prim2SF x) (Prim2SF y).
Proof.
  unfold same_value_zero. rewrite !is_nan_SF, FloatAxioms.eqb_spec. unfold SFeqb.
  split.
  - intros H. apply orb_true_iff in H as [H|H].
    + apply SFcompare_Eq. destruct (SFcompare _ _) as [[]|]; try discriminate.
      reflexivity.
    + apply andb_true_iff in H as [H1 H2]. left.
      destruct (Prim2SF x), (Prim2SF y); try discriminate. reflexivity.
  - intros [H|[H1 H2]].
    + rewrite H, SFcompare_refl. destruct (sf_is_nan (Prim2SF y)); reflexivity.
    + destruct (Prim2SF x), (Prim2SF y); try discriminate. reflexivity.
Qed.

Lemma same_value_zero_refl x : same_value_zero x x = true.
Proof. apply same_value_zero_SF. left. reflexivity. Qed.

Lemma same_value_zero_trans x y z :
  same_value_zero x y = true -> same_value_zero y z = true ->
  same_value_zero x z = true.
Proof.
  rewrite !same_value_zero_SF. unfold sf_same.
  intros [H1|[H1 H1']] [H2|[H2 H2']]; try (left; congruence).
  - right. rewrite H1. auto.
  - right. rewrite <- H2. auto.
  - right. auto.
Qed.

Lemma SFmul_same f f' g g' :
  sf_same f f' -> sf_same g g' ->
  sf_same (SFmul prec emax f g) (SFmul prec emax f' g').
Proof.
  unfold sf_same.
  intros [->|[Hf Hf']] [->|[Hg Hg']]; [left; reflexivity | | |].
  - destruct g, g'; try discriminate. destruct f'; simpl; auto.
  - destruct f, f'; try discriminate. destruct g'; simpl; auto.
  - destruct f, f'; try discriminate. destruct g, g'; try discriminate.
    simpl. auto.
Qed.

Lemma same_value_zero_mul x x' y y' :
  same_value_zero x x' = true -> same_value_zero y y' = true ->
  same_value_zero (x * y) (x' * y') = true.
Proof.
  rewrite !same_value_zero_SF, !FloatAxioms.mul_spec. apply SFmul_same.
Qed.

(** *** [parseFloat] on a string *)

Example parseFloat_decimal : parseFloat_string "4.50" = 4.5.
Proof. vm_compute. reflexivity. Qed.

Example parseFloat_prefix : parseFloat_string "  180 bu" = 180.
Proof. vm_compute. reflexivity. Qed.

Example parseFloat_exponent : parseFloat_string ".25e3" = 250.
Proof. vm_compute. reflexivity. Qed.

Example parseFloat_negative_zero : parseFloat_string "-0" = neg_zero.
Proof. vm_compute. reflexivity. Qed.

Example parseFloat_overflow : parseFloat_string "1e999" = infinity.
Proof. vm_compute. reflexivity. Qed.

Example parseFloat_rounds_to_nearest :
  parseFloat_string "9007199254740993" = 9007199254740992
  /\ parseFloat_string "9007199254740995" = 9007199254740996.
Proof. split; vm_compute; reflexivity. Qed.

Example parseFloat_not_a_number :
  is_nan (parseFloat_string "abc") = true /\ is_nan (parseFloat_string "") = true
  /\ is_nan (parseFloat_string ".") = true /\ is_nan (parseFloat (JNum nan)) = true.
Proof. repeat split. Qed.

(** *** [parseFloat] on a number *)

Lemma parseFloat_number_zero : parseFloat_number 0 = 0.
Proof. reflexivity. Qed.

Lemma parseFloat_number_nonzero x :
  (x =? 0) = false -> parseFloat_number x = x.
Proof. unfold parseFloat_number. intros ->. reflexivity. Qed.

Lemma parseFloat_number_nonneg x : nonneg x -> parseFloat_number x = x.
Proof.
  unfold nonneg, parseFloat_number. rewrite eqb_zero_SF. intros H.
  destruct (Prim2SF x) as [s|s| |s m e] eqn:E; try reflexivity.
  destruct s; try discriminate.
  apply Prim2SF_inj. rewrite E. reflexivity.
Qed.

Lemma parseFloat_number_same x : same_value_zero (parseFloat_number x) x = true.
Proof.
  unfold parseFloat_number. destruct (x =? 0) eqn:E.
  - unfold same_value_zero.
    rewrite FloatAxioms.eqb_spec in *. change (Prim2SF 0) with (S754_zero false) in *.
    unfold SFeqb in *. destruct (Prim2SF x) as [s|s| |s m e]; try discriminate.
    + reflexivity.
    + destruct s; discriminate.
    + destruct s; discriminate.
  - apply same_value_zero_refl.
Qed.

Lemma parseFloat_number_idem x :
  parseFloat_number (parseFloat_number x) = parseFloat_number x.
Proof.
  unfold parseFloat_number. destruct (x =? 0) eqn:E; [reflexivity|].
  rewrite E. reflexivity.
Qed.

Lemma is_nan_parseFloat_number x : is_nan (parseFloat_number x) = is_nan x.
Proof.
  unfold parseFloat_number. destruct (x =? 0) eqn:E; [|reflexivity].
  rewrite eqb_zero_SF in E. rewrite (is_nan_SF x).
  destruct (Prim2SF x); try discriminate. reflexivity.
Qed.

Lemma ltb_zero_parseFloat_number x : (parseFloat_number x <? 0) = (x <? 0).
Proof.
  unfold parseFloat_number. destruct (x =? 0) eqn:E; [|reflexivity].
  rewrite eqb_zero_SF in E. rewrite (ltb_zero_SF x).
  destruct (Prim2SF x); try discriminate. rewrite andb_false_r. reflexivity.
Qed.

(** A number that passed [isNaN(x) || x < 0] has its sign bit clear once
    [parseFloat] has read it again. *)
Lemma nonneg_parseFloat_number x :
  is_nan x = false -> (x <? 0) = false -> nonneg (parseFloat_number x).
Proof.
  unfold parseFloat_number, nonneg. rewrite is_nan_SF, ltb_zero_SF, eqb_zero_SF.
  destruct (Prim2SF x) as [s|s| |s m e] eqn:E; simpl; try discriminate.
  - reflexivity.
  - rewrite E. simpl. destruct s; [discriminate | reflexivity].
  - rewrite E. simpl. destruct s; [discriminate | reflexivity].
Qed.

Lemma leb_zero_false_nonzero x : (x <=? 0) = false -> (x =? 0) = false.
Proof.
  rewrite leb_zero_SF, eqb_zero_SF.
  destruct (Prim2SF x) as [s|s| |s m e]; simpl; congruence.
Qed.

Lemma nonneg_of_positive x :
  is_nan x = false -> (x <=? 0) = false -> nonneg x.
Proof.
  unfold nonneg. rewrite is_nan_SF, leb_zero_SF.
  destruct (Prim2SF x) as [s|s| |s m e]; simpl; try discriminate;
    destruct s; simpl; congruence.
Qed.

(** *** [x || 0] *)

Lemma or_zero_cases x :
  (truthy_num x = true /\ or_zero x = x) \/ (truthy_num x = false /\ or_zero x = 0).
Proof. unfold or_zero. destruct (truthy_num x); auto. Qed.

Lemma truthy_num_nonzero x : truthy_num x = true -> (x =? 0) = false.
Proof.
  unfold truthy_num. intros H. apply andb_true_iff in H as [H _].
  destruct (x =? 0); [discriminate | reflexivity].
Qed.

Lemma truthy_num_not_nan x : truthy_num x = true -> is_nan x = false.
Proof.
  unfold truthy_num, isNaN. intros H. apply andb_true_iff in H as [_ H].
  destruct (is_nan x); [discriminate | reflexivity].
Qed.

Lemma parseFloat_number_or_zero x : parseFloat_number (or_zero x) = or_zero x.
Proof.
  destruct (or_zero_cases x) as [[H ->]|[H ->]]; [|reflexivity].
  apply parseFloat_number_nonzero, truthy_num_nonzero, H.
Qed.

Lemma or_zero_idem x : or_zero (or_zero x) = or_zero x.
Proof.
  destruct (or_zero_cases x) as [[H E]|[H E]]; rewrite E.
  - exact E.
  - reflexivity.
Qed.

Lemma is_nan_or_zero x : is_nan (or_zero x) = false.
Proof.
  destruct (or_zero_cases x) as [[H ->]|[H ->]]; [|reflexivity].
  apply truthy_num_not_nan, H.
Qed.

(** The term that [calculateTotalCost] adds for one cost never has its sign
    bit set. *)
Lemma nonneg_cost_term x :
  nonneg (if 0 <=? or_zero x then or_zero x else 0).
Proof.
  destruct (or_zero_cases x) as [[H ->]|[H ->]]; [|reflexivity].
  destruct (0 <=? x) eqn:E; [|reflexivity].
  apply truthy_num_nonzero in H. unfold nonneg.
  rewrite zero_leb_SF in E. rewrite eqb_zero_SF in H.
  destruct (Prim2SF x) as [s|s| |s m e]; simpl in *; try discriminate; try reflexivity;
    destruct s; simpl in *; congruence.
Qed.

(** *** The order on numbers *)

Lemma SFcompare_Lt_trans f g h c :
  SFcompare f g = Some Lt -> SFcompare g h = Some c -> c <> Gt ->
  SFcompare f h = Some Lt.
Proof.
  destruct f as [s|s| |s m e], g as [t|t| |t n k], h as [u|u| |u p q];
    simpl; intros H1 H2 Hc; try discriminate;
    try (destruct s); try (destruct t); try (destruct u);
    try discriminate; try reflexivity;
    try (injection H2 as <-; congruence);
    f_equal; injection H1 as H1; injection H2 as H2; subst c;
    cmp_cases; congruence.
Qed.

Lemma SFcompare_antisym f g :
  SFcompare f g = Some Lt -> SFcompare g f = Some Gt.
Proof.
  destruct f as [s|s| |s m e], g as [t|t| |t n k];
    simpl; intros H1; try discriminate;
    try (destruct s); try (destruct t);
    try discriminate; try reflexivity;
    f_equal; injection H1 as H1; cmp_cases.
Qed.

Lemma SFcompare_total f g :
  sf_is_nan f = false -> sf_is_nan g = false ->
  exists c, SFcompare f g = Some c /\ SFcompare g f = Some (CompOpp c).
Proof.
  destruct f as [s|s| |s m e], g as [t|t| |t n k];
    simpl; intros H1 H2; try discriminate;
    try (destruct s); try (destruct t);
    try (eexists; split; reflexivity).
  - change (Pos.compare_cont Eq m n) with (Pos.compare m n).
    change (Pos.compare_cont Eq n m) with (Pos.compare n m).
    rewrite (Z.compare_antisym e k), (Pos.compare_antisym m n).
    destruct (Z.compare e k); simpl; eexists; split; reflexivity.
  - change (Pos.compare_cont Eq m n) with (Pos.compare m n).
    change (Pos.compare_cont Eq n m) with (Pos.compare n m).
    rewrite (Z.compare_antisym e k), (Pos.compare_antisym m n).
    destruct (Z.compare e k); simpl; eexists; split; reflexivity.
Qed.

Lemma ltb_leb_trans x y z :
  (x <? y) = true -> (y <=? z) = true -> (x <? z) = true.
Proof.
  rewrite !FloatAxioms.ltb_spec, FloatAxioms.leb_spec. unfold SFltb, SFleb.
  intros H1 H2.
  destruct (SFcompare (Prim2SF x) (Prim2SF y)) as [[]|] eqn:E1; try discriminate.
  destruct (SFcompare (Prim2SF y) (Prim2SF z)) as [c|] eqn:E2; try discriminate.
  rewrite (SFcompare_Lt_trans _ _ _ c E1 E2); [reflexivity|].
  destruct c; congruence.
Qed.

Lemma ltb_leb x y : (x <? y) = true -> (x <=? y) = true.
Proof.
  rewrite FloatAxioms.ltb_spec, FloatAxioms.leb_spec. unfold SFltb, SFleb.
  destruct (SFcompare (Prim2SF x) (Prim2SF y)) as [[]|]; congruence.
Qed.

Lemma ltb_trans x y z : (x <? y) = true -> (y <? z) = true -> (x <? z) = true.
Proof. intros H1 H2. eapply ltb_leb_trans; [exact H1 | apply ltb_leb, H2]. Qed.

Lemma ltb_not_geb x y : (x <? y) = true -> (y <=? x) = false.
Proof.
  rewrite FloatAxioms.ltb_spec, FloatAxioms.leb_spec. unfold SFltb, SFleb.
  intros H.
  destruct (SFcompare (Prim2SF x) (Prim2SF y)) as [[]|] eqn:E; try discriminate.
  rewrite (SFcompare_antisym _ _ E). reflexivity.
Qed.

(** Numbers that are not [NaN] are totally ordered. *)
Lemma ltb_false_geb x y :
  is_nan x = false -> is_nan y = false -> (x <? y) = false -> (y <=? x) = true.
Proof.
  rewrite !is_nan_SF, FloatAxioms.ltb_spec, FloatAxioms.leb_spec.
  unfold SFltb, SFleb. intros Hx Hy.
  destruct (SFcompare_total _ _ Hx Hy) as (c & -> & ->).
  destruct c; simpl; congruence.
Qed.

Lemma leb_false_ltb x y :
  is_nan x = false -> is_nan y = false -> (x <=? y) = false -> (y <? x) = true.
Proof.
  rewrite !is_nan_SF, FloatAxioms.ltb_spec, FloatAxioms.leb_spec.
  unfold SFltb, SFleb. intros Hx Hy.
  destruct (SFcompare_total _ _ Hx Hy) as (c & -> & ->).
  destruct c; simpl; congruence.
Qed.


Lemma zero_leb_not_neg x : (0 <=? x) = true -> (x <? 0) = false.
Proof.
  rewrite zero_leb_SF, ltb_zero_SF.
  destruct (Prim2SF x) as [s|s| |s m e]; simpl; try reflexivity;
    destruct s; simpl; congruence.
Qed.

Lemma leb_not_nan_r x y : (x <=? y) = true -> is_nan y = false.
Proof.
  rewrite is_nan_SF, FloatAxioms.leb_spec. unfold SFleb.
  destruct (Prim2SF x), (Prim2SF y); simpl; congruence.
Qed.

End Float64Facts.

Module CalculatorProofs.

Import Calculator CalculatorSpec Float64 Float64Facts.
Local Open Scope float_scope.

(** Closes a conjunction of equations between closed terms. *)
Ltac by_computation :=
  repeat match goal with |- _ /\ _ => split end; vm_compute; reflexivity.

Lemma violations_concat (l : list (bool * string)) :
  map snd (filter (fun r : bool * string => fst r = true) l)
  = concat (map messages l).
Proof.
  induction l as [|[b m] l IH]; [reflexivity|].
  destruct b; simpl; rewrite <- IH; reflexivity.
Qed.

Lemma required_step (v : jsval) (below : float -> bool) (m1 m2 : string)
    (errors : list string) :
  (if is_blank v then push errors m1
   else if isNaN (parseFloat v) || below (parseFloat v) then push errors m2
        else errors)
  = errors ++ messages (required_rule v below m1 m2).
Proof.
  unfold messages, required_rule, unparseable, push. simpl.
  destruct (is_blank v); simpl; [reflexivity|].
  destruct (isNaN (parseFloat v) || below (parseFloat v));
    [reflexivity | symmetry; apply app_nil_r].
Qed.

Lemma cost_step (inputs : Inputs) (field : string) (errors : list string) :
  (if negb (is_blank (cost_input inputs field)) then
     if isNaN (parseFloat (cost_input inputs field))
        || (parseFloat (cost_input inputs field) <? 0)
     then push errors (field ++ " cannot be negative")%string
     else errors
   else errors)
  = errors ++ messages (cost_rule inputs field).
Proof.
  unfold messages, cost_rule, unparseable, push. simpl.
  destruct (is_blank (cost_input inputs field)); simpl;
    [symmetry; apply app_nil_r|].
  destruct (isNaN _ || _); [reflexivity | symmetry; apply app_nil_r].
Qed.

Lemma cost_loop (inputs : Inputs) (fields : list string) (errors : list string) :
  fold_left (fun errors field =>
      if negb (is_blank (cost_input inputs field)) then
        if isNaN (parseFloat (cost_input inputs field))
           || (parseFloat (cost_input inputs field) <? 0)
        then push errors (field ++ " cannot be negative")%string
        else errors
      else errors) fields errors
  = errors ++ concat (map (fun f => messages (cost_rule inputs f)) fields).
Proof.
  revert errors. induction fields as [|f fields IH]; intros errors.
  - symmetry. apply app_nil_r.
  - cbn [fold_left map concat]. rewrite cost_step, IH, <- app_assoc. reflexivity.
Qed.

Lemma crop_missing_text (v : jsval) :
  crop_is_text v -> crop_missing v = Returns (crop_empty v).
Proof.
  unfold crop_missing, crop_empty, falsy.
  destruct v as [| |s|x]; try reflexivity; [|intros []].
  intros _. destruct (String.eqb_spec s ""); [subst|]; reflexivity.
Qed.

Lemma validateInputs_text (inputs : Inputs) :
  crop_is_text (cropType inputs) ->
  validateInputs inputs =
    Returns {| isValid := Nat.eqb (length (violations inputs)) 0;
               errors := violations inputs |}.
Proof.
  intros Htext. unfold validateInputs.
  rewrite (crop_missing_text _ Htext). cbn [bind]. cbv zeta.
  replace (if crop_empty (cropType inputs)
           then push [] "Crop type is required"%string else [])
    with (messages (crop_empty (cropType inputs), "Crop type is required"%string))
    by (unfold messages; destruct (crop_empty _); reflexivity).
  pose proof (required_step (acreage inputs) (fun x => x <=? 0)) as Ha.
  pose proof (required_step (yieldPerAcre inputs) (fun x => x <? 0)) as Hy.
  pose proof (required_step (marketPrice inputs) (fun x => x <? 0)) as Hp.
  cbv beta in Ha, Hy, Hp.
  rewrite Ha, Hy, Hp, cost_loop.
  assert (E : violations inputs =
    (((messages (crop_empty (cropType inputs), "Crop type is required"%string)
       ++ messages (required_rule (acreage inputs) (fun x => x <=? 0)
            "Acres planted is required" "Acres planted must be greater than 0"))
      ++ messages (required_rule (yieldPerAcre inputs) (fun x => x <? 0)
            "Expected yield is required" "Expected yield cannot be negative"))
     ++ messages (required_rule (marketPrice inputs) (fun x => x <? 0)
            "Market price is required" "Market price cannot be negative"))
    ++ concat (map (fun f => messages (cost_rule inputs f)) costFields)).
  { unfold violations, rules. rewrite violations_concat, map_app, concat_app, map_map.
    cbn [map concat]. rewrite app_nil_r, <- !app_assoc. reflexivity. }
  rewrite <- E. reflexivity.
Qed.

Lemma crop_missing_returns (v : jsval) (b : bool) :
  crop_missing v = Returns b -> b = crop_empty v /\ (b = false -> crop_is_text v).
Proof.
  unfold crop_missing, crop_empty, falsy.
  destruct v as [| |s|x]; simpl.
  - intros [= <-]. split; [reflexivity | discriminate].
  - intros [= <-]. split; [reflexivity | discriminate].
  - destruct (String.eqb_spec s ""); intros [= <-]; [subst|]; split; try reflexivity;
      intros _; exact I.
  - destruct (truthy_num x); simpl; [discriminate|].
    intros [= <-]. split; [reflexivity | discriminate].
Qed.

(** Whenever [validateInputs] returns, it returns the violations. *)
Lemma validateInputs_returns (inputs : Inputs) (v : Validation) :
  validateInputs inputs = Returns v ->
  v = {| isValid := Nat.eqb (length (violations inputs)) 0;
         errors := violations inputs |}.
Proof.
  intros H.
  destruct (crop_missing (cropType inputs)) as [b|e] eqn:Hc.
  - destruct (crop_missing_returns _ _ Hc) as [-> _].
    destruct (cropType inputs) as [| |s|x] eqn:Ht.
    1-3: rewrite validateInputs_text in H by (rewrite Ht; exact I); congruence.
    (* a falsy number: the crop type counts as left out *)
    revert H. unfold validateInputs. rewrite Ht, Hc. cbn [bind]. cbv zeta.
    replace (if crop_empty (JNum x)
             then push [] "Crop type is required"%string else [])
      with (messages (crop_empty (JNum x), "Crop type is required"%string))
      by reflexivity.
    pose proof (required_step (acreage inputs) (fun x => x <=? 0)) as Ha.
    pose proof (required_step (yieldPerAcre inputs) (fun x => x <? 0)) as Hy.
    pose proof (required_step (marketPrice inputs) (fun x => x <? 0)) as Hp.
    cbv beta in Ha, Hy, Hp.
    rewrite Ha, Hy, Hp, cost_loop.
    unfold violations, rules. rewrite violations_concat, map_app, concat_app, map_map.
    rewrite Ht. cbn [map concat]. rewrite app_nil_r, <- !app_assoc.
    intros [= <-]. reflexivity.
  - unfold validateInputs in H. rewrite Hc in H. discriminate.
Qed.

Lemma violations_nil (inputs : Inputs) (r : bool * string) :
  violations inputs = [] -> In r (rules inputs) -> fst r = false.
Proof.
  unfold violations. rewrite violations_concat.
  induction (rules inputs) as [|r' l IH]; [intros _ []|].
  cbn [map concat]. intros H [->|Hin].
  - unfold messages in H. destruct (fst r); [discriminate | reflexivity].
  - apply IH; [|exact Hin]. destruct (messages r'); [exact H | discriminate].
Qed.

Lemma required_rule_holds (v : jsval) (below : float -> bool) (m1 m2 : string) :
  fst (required_rule v below m1 m2) = false ->
  is_blank v = false /\ is_nan (parseFloat v) = false /\ below (parseFloat v) = false.
Proof.
  unfold required_rule, unparseable, isNaN. cbn [fst]. intros H.
  apply orb_false_iff in H as [H H3]. apply orb_false_iff in H as [H1 H2]. auto.
Qed.

Lemma valid_inputs (inputs : Inputs) (v : Validation) :
  validateInputs inputs = Returns v -> isValid v = true -> valid_fields inputs.
Proof.
  intros H Hv.
  assert (Ht : crop_is_text (cropType inputs)).
  { destruct (crop_missing (cropType inputs)) as [b|e] eqn:Hc;
      [|unfold validateInputs in H; rewrite Hc in H; discriminate].
    destruct (crop_missing_returns _ _ Hc) as [Hb Htext].
    destruct b; [|auto].
    apply validateInputs_returns in H. subst v. cbn [isValid] in Hv.
    unfold violations, rules in Hv. rewrite violations_concat, <- Hb in Hv.
    discriminate. }
  apply validateInputs_returns in H. subst v. cbn [isValid] in Hv.
  apply Nat.eqb_eq in Hv. apply length_zero_iff_nil in Hv.
  pose proof (fun r => violations_nil inputs r Hv) as N.
  destruct (required_rule_holds _ _ _ _
    (N (required_rule (acreage inputs) (fun x => x <=? 0) _ _)
       ltac:(unfold rules; cbn; auto))) as (? & ? & ?).
  destruct (required_rule_holds _ _ _ _
    (N (required_rule (yieldPerAcre inputs) (fun x => x <? 0) _ _)
       ltac:(unfold rules; cbn; auto))) as (? & ? & ?).
  destruct (required_rule_holds _ _ _ _
    (N (required_rule (marketPrice inputs) (fun x => x <? 0) _ _)
       ltac:(unfold rules; cbn; auto))) as (? & ? & ?).
  split; try assumption.
  intros field Hin.
  assert (Hr : fst (cost_rule inputs field) = false).
  { apply N. unfold rules. apply in_or_app. right. apply in_map, Hin. }
  unfold cost_rule, unparseable, isNaN in Hr. cbn [fst] in Hr.
  destruct (is_blank (cost_input inputs field)); [left; reflexivity | right].
  cbn in Hr. apply orb_false_iff in Hr. exact Hr.
Qed.

Lemma total_cost_loop_nonneg (costs : list (string * jsval)) (sum : float) :
  nonneg sum ->
  nonneg (fold_left (fun sum kv =>
            let costValue := or_zero (parseFloat (snd kv)) in
            sum + (if 0 <=? costValue then costValue else 0)) costs sum).
Proof.
  revert sum. induction costs as [|kv costs IH]; intros sum Hs; [exact Hs|].
  cbn [fold_left]. apply IH. apply nonneg_add; [exact Hs | apply nonneg_cost_term].
Qed.

(** The test on a numeric crop type: a truthy number has no [trim]. *)
Example validateInputs_numeric_crop :
  validateInputs {| cropType := JNum 5; acreage := JNum 1; yieldPerAcre := JNum 1;
                    marketPrice := JNum 1; seedCost := JUndefined;
                    fertilizerCost := JUndefined; chemicalCost := JUndefined;
                    laborCost := JUndefined; equipmentCost := JUndefined;
                    miscCost := JUndefined |}
  = Throws "TypeError: inputs.cropType.trim is not a function".
Proof. reflexivity. Qed.

Example validateInputs_bad_form :
  validateInputs bad_form =
    Returns {| isValid := false;
               errors := ["Crop type is required"; "Acres planted is required";
                          "Expected yield cannot be negative";
                          "seedCost cannot be negative"]%string |}.
Proof. vm_compute. reflexivity. Qed.

(** White space is all the white space of the language: a crop type of one
    no-break space is empty after [trim], and a no-break space before the
    acres is skipped by [parseFloat]. *)
Example validateInputs_no_break_space :
  validateInputs spaced_crop
  = Returns {| isValid := false; errors := ["Crop type is required"%string] |}
  /\ validateInputs spaced_acres = Returns {| isValid := true; errors := [] |}
  /\ parseFloat (acreage spaced_acres) = 100.
Proof. vm_compute. auto. Qed.

(** C4. For an input whose crop type is a string or is left out,
    [validateInputs] returns, and what it returns is fixed by the rules of
    the specification: the error list holds one message for each violated
    rule and nothing else, in the order the input declares its fields (crop
    type, acreage, yield, market price, then the six costs), so no violation
    hides another; [isValid] is false exactly when some rule is violated, and
    true with an empty list otherwise. *)
Theorem validateInputs_collects_violations (inputs : Inputs) :
  crop_is_text (cropType inputs) ->
  exists v, validateInputs inputs = Returns v
    /\ errors v = map snd (filter (fun r => fst r = true) (rules inputs))
    /\ length (errors v) = length (filter (fun r => fst r = true) (rules inputs))
    /\ isValid v = negb (existsb fst (rules inputs))
    /\ (isValid v = true -> errors v = []).
Proof.
  intros Ht. eexists. split; [apply validateInputs_text, Ht|].
  cbn [errors isValid]. fold (violations inputs).
  split; [reflexivity|]. split; [apply length_map|]. split.
  - unfold violations. rewrite length_map.
    induction (rules inputs) as [|[b m] l IH]; [reflexivity|].
    destruct b; [reflexivity|]. exact IH.
  - intros H. apply Nat.eqb_eq in H. apply length_zero_iff_nil, H.
Qed.

Lemma validateInputs_collects_violations_witness :
  exists v, validateInputs bad_form = Returns v
    /\ errors v = ["Crop type is required"; "Acres planted is required";
                   "Expected yield cannot be negative";
                   "seedCost cannot be negative"]%string
    /\ isValid v = false.
Proof.
  destruct (validateInputs_collects_violations bad_form I)
    as (v & Hv & He & _ & Hi & _).
  exists v. split; [exact Hv|]. split.
  - rewrite He. vm_compute. reflexivity.
  - rewrite Hi. vm_compute. reflexivity.
Defined.

(** C5. When [validateInputs] reports an input invalid,
    [calculateProfitability] returns (it does not throw) a failure that
    carries the very error list of [validateInputs]. *)
Theorem calculateProfitability_fails_closed
    (now : string) (inputs : Inputs) (v : Validation) :
  validateInputs inputs = Returns v ->
  isValid v = false ->
  calculateProfitability now inputs = Returns (Failure (errors v)).
Proof.
  intros H Hv. unfold calculateProfitability. rewrite H. cbn [bind].
  rewrite Hv. reflexivity.
Qed.

Lemma calculateProfitability_fails_closed_witness :
  calculateProfitability "2024-05-01T12:00:00.000Z" bad_form
  = Returns (Failure ["Crop type is required"; "Acres planted is required";
                      "Expected yield cannot be negative";
                      "seedCost cannot be negative"]%string).
Proof.
  exact (calculateProfitability_fails_closed _ bad_form _
           validateInputs_bad_form eq_refl).
Defined.

Lemma blank_parse_nan (v : jsval) : is_blank v = true -> parseFloat v = nan.
Proof.
  destruct v as [| |s|x]; try reflexivity; [|discriminate].
  cbn. intros H. apply String.eqb_eq in H. subst. reflexivity.
Qed.

(** A cost that passed validation is stored as a number that is not
    negative. *)
Lemma stored_cost_not_negative (v : jsval) :
  is_blank v = true
  \/ (is_nan (parseFloat v) = false /\ (parseFloat v <? 0) = false) ->
  (or_zero (parseFloat v) <? 0) = false.
Proof.
  intros H. destruct (or_zero_cases (parseFloat v)) as [[Ht ->]|[Ht ->]];
    [|reflexivity].
  destruct H as [H|[_ H]]; [|exact H].
  rewrite (blank_parse_nan _ H) in Ht. discriminate.
Qed.

(** What a successful calculation takes from the inputs: the crop type as
    it came, the acres, the yield and the price as [parseFloat] reads them,
    each cost as it reads it, with 0 for one that is missing; the production
    is their product and the total cost the acres times the sum of the six
    costs. *)
Lemma calculate_of_inputs (now : string) (inputs : Inputs) :
  valid_fields inputs ->
  exists d, calculate now inputs = Returns d
    /\ Data.cropType d = cropType inputs
    /\ Data.acres d = parseFloat (acreage inputs)
    /\ Data.yieldPerAcre d = parseFloat (yieldPerAcre inputs)
    /\ Data.marketPrice d = parseFloat (marketPrice inputs)
    /\ Data.costBreakdown d
       = {| Costs.seedCost := or_zero (parseFloat (seedCost inputs));
            Costs.fertilizerCost := or_zero (parseFloat (fertilizerCost inputs));
            Costs.chemicalCost := or_zero (parseFloat (chemicalCost inputs));
            Costs.laborCost := or_zero (parseFloat (laborCost inputs));
            Costs.equipmentCost := or_zero (parseFloat (equipmentCost inputs));
            Costs.miscCost := or_zero (parseFloat (miscCost inputs)) |}
    /\ Data.calculatedAt d = now
    /\ same_value_zero (Data.production d) (Data.acres d * Data.yieldPerAcre d) = true
    /\ Data.totalCost d
       = Data.acres d
         * (0 + Costs.seedCost (Data.costBreakdown d)
              + Costs.fertilizerCost (Data.costBreakdown d)
              + Costs.chemicalCost (Data.costBreakdown d)
              + Costs.laborCost (Data.costBreakdown d)
              + Costs.equipmentCost (Data.costBreakdown d)
              + Costs.miscCost (Data.costBreakdown d))
    /\ Data.production d
       = calculateProduction (JNum (Data.acres d)) (JNum (Data.yieldPerAcre d))
    /\ Data.revenue d
       = calculateRevenue (JNum (Data.production d)) (JNum (Data.marketPrice d))
    /\ Data.costPerAcre d = Data.totalCost d / Data.acres d
    /\ Data.costPerUnit d
       = calculateCostPerUnit (JNum (Data.totalCost d)) (JNum (Data.production d))
    /\ Data.profitPerAcre d
       = calculateProfitPerAcre (JNum (Data.netProfit d)) (JNum (Data.acres d))
    /\ Data.profitMargin d
       = calculateProfitMargin (JNum (Data.netProfit d)) (JNum (Data.revenue d)).
Proof.
  intros V. eexists. split; [reflexivity|].
  cbn [Data.cropType Data.acres Data.yieldPerAcre Data.marketPrice Data.costBreakdown
       Data.calculatedAt Data.production Data.totalCost Data.revenue Data.netProfit
       Data.costPerAcre Data.costPerUnit Data.profitPerAcre Data.profitMargin
       Costs.seedCost Costs.fertilizerCost Costs.chemicalCost Costs.laborCost
       Costs.equipmentCost Costs.miscCost].
  repeat (split; [reflexivity|]).
  assert (Ha : nonneg (parseFloat (acreage inputs)))
    by (apply nonneg_of_positive; apply V).
  assert (Ea : parseFloat_number (parseFloat (acreage inputs))
               = parseFloat (acreage inputs))
    by (apply parseFloat_number_nonneg, Ha).
  split; [|split; [|repeat split; reflexivity]].
  - unfold calculateProduction. cbn [parseFloat]. rewrite Ea.
    apply same_value_zero_mul; [apply same_value_zero_refl | apply parseFloat_number_same].
  - pose proof (vf_costs _ V) as C.
    assert (K : forall v,
      is_blank v = true
      \/ (is_nan (parseFloat v) = false /\ (parseFloat v <? 0) = false) ->
      (0 <=? or_zero (parseFloat v)) = true).
    { intros v Hv. apply ltb_false_geb; [apply is_nan_or_zero | reflexivity|].
      apply stored_cost_not_negative, Hv. }
    unfold calculateTotalCost.
    cbn [Costs.entries fold_left snd parseFloat
         Costs.seedCost Costs.fertilizerCost Costs.chemicalCost Costs.laborCost
         Costs.equipmentCost Costs.miscCost].
    rewrite Ea, !parseFloat_number_or_zero, !or_zero_idem.
    rewrite (K (seedCost inputs)) by (apply (C "seedCost"%string); cbn; auto 10).
    rewrite (K (fertilizerCost inputs))
      by (apply (C "fertilizerCost"%string); cbn; auto 10).
    rewrite (K (chemicalCost inputs)) by (apply (C "chemicalCost"%string); cbn; auto 10).
    rewrite (K (laborCost inputs)) by (apply (C "laborCost"%string); cbn; auto 10).
    rewrite (K (equipmentCost inputs))
      by (apply (C "equipmentCost"%string); cbn; auto 10).
    rewrite (K (miscCost inputs)) by (apply (C "miscCost"%string); cbn; auto 10).
    reflexivity.
Qed.

(** The three equations of a successful calculation. *)
Lemma calculate_equations (now : string) (inputs : Inputs) :
  valid_fields inputs ->
  exists d, calculate now inputs = Returns d
    /\ Data.netProfit d = Data.revenue d - Data.totalCost d
    /\ same_value_zero (Data.revenue d)
         (Data.acres d * Data.yieldPerAcre d * Data.marketPrice d) = true
    /\ Data.production d = Data.acres d * parseFloat_number (Data.yieldPerAcre d)
    /\ Data.revenue d
       = Data.acres d * parseFloat_number (Data.yieldPerAcre d)
         * parseFloat_number (Data.marketPrice d).
Proof.
  intros V. eexists. split; [reflexivity|].
  cbn [Data.netProfit Data.revenue Data.totalCost Data.acres Data.yieldPerAcre
       Data.marketPrice Data.production].
  unfold calculateNetProfit, calculateRevenue, calculateProduction, calculateTotalCost.
  cbn [parseFloat].
  set (a := parseFloat (acreage inputs)).
  set (y := parseFloat (yieldPerAcre inputs)).
  set (p := parseFloat (marketPrice inputs)).
  assert (Ha : nonneg a) by (apply nonneg_of_positive; apply V).
  assert (Ea : parseFloat_number a = a) by (apply parseFloat_number_nonneg, Ha).
  assert (Hy : nonneg (parseFloat_number y)) by (apply nonneg_parseFloat_number; apply V).
  assert (Hp : nonneg (parseFloat_number p)) by (apply nonneg_parseFloat_number; apply V).
  rewrite Ea.
  assert (Hprod : nonneg (a * parseFloat_number y)) by (apply nonneg_mul; assumption).
  rewrite (parseFloat_number_nonneg _ Hprod).
  assert (Hrev : nonneg (a * parseFloat_number y * parseFloat_number p))
    by (apply nonneg_mul; assumption).
  rewrite (parseFloat_number_nonneg _ Hrev).
  match goal with |- context [parseFloat_number (a * ?c)] =>
    assert (Hcost : nonneg (a * c))
      by (apply nonneg_mul; [exact Ha | apply total_cost_loop_nonneg, nonneg_zero]);
    rewrite (parseFloat_number_nonneg _ Hcost)
  end.
  split; [reflexivity|]. split; [|split; reflexivity].
  apply same_value_zero_mul; [|apply parseFloat_number_same].
  apply same_value_zero_mul; [apply same_value_zero_refl | apply parseFloat_number_same].
Qed.

(** C1. Every input that passes validation gets a success result. The
    result holds the crop type as it was entered; the acres, the yield and
    the price as [parseFloat] reads the entries; each cost as it reads it,
    with 0 for a cost left out; and the time of the call. Its production is
    the number [acres * yieldPerAcre], its total cost is [acres] times the
    sum of the six costs, its [netProfit] is [revenue - totalCost], bit for
    bit, and its [revenue] is the number [acres * yieldPerAcre *
    marketPrice]: the same number for [===] (or [NaN] on both sides), and
    the same bit for bit unless the yield or the price was entered as a
    negative zero, which [parseFloat] reads back as zero. The production,
    the revenue, the cost per unit, the profit per acre and the profit
    margin are what the helpers of the calculator return on the fields
    above, and the cost per acre is [totalCost / acres], so that the inputs
    and the time fix every field of the result. On the corn example
    of the specification the result holds production 18000, revenue 81000,
    total cost 27000, net profit 54000, profit per acre 540 and a profit
    margin within 0.005 of 66.67. *)
Theorem calculateProfitability_equations :
  (forall (now : string) (inputs : Inputs) (v : Validation),
     validateInputs inputs = Returns v ->
     isValid v = true ->
     exists d, calculateProfitability now inputs = Returns (Success d)
       /\ Data.netProfit d = Data.revenue d - Data.totalCost d
       /\ same_value_zero (Data.revenue d)
            (Data.acres d * Data.yieldPerAcre d * Data.marketPrice d) = true
       /\ (parseFloat_number (Data.yieldPerAcre d) = Data.yieldPerAcre d ->
           parseFloat_number (Data.marketPrice d) = Data.marketPrice d ->
           Data.revenue d
           = Data.acres d * Data.yieldPerAcre d * Data.marketPrice d)
       /\ Data.cropType d = cropType inputs
       /\ Data.acres d = parseFloat (acreage inputs)
       /\ Data.yieldPerAcre d = parseFloat (yieldPerAcre inputs)
       /\ Data.marketPrice d = parseFloat (marketPrice inputs)
       /\ Data.costBreakdown d
          = {| Costs.seedCost := or_zero (parseFloat (seedCost inputs));
               Costs.fertilizerCost := or_zero (parseFloat (fertilizerCost inputs));
               Costs.chemicalCost := or_zero (parseFloat (chemicalCost inputs));
               Costs.laborCost := or_zero (parseFloat (laborCost inputs));
               Costs.equipmentCost := or_zero (parseFloat (equipmentCost inputs));
               Costs.miscCost := or_zero (parseFloat (miscCost inputs)) |}
       /\ Data.calculatedAt d = now
       /\ same_value_zero (Data.production d)
            (Data.acres d * Data.yieldPerAcre d) = true
       /\ Data.totalCost d
          = Data.acres d
            * (0 + Costs.seedCost (Data.costBreakdown d)
                 + Costs.fertilizerCost (Data.costBreakdown d)
                 + Costs.chemicalCost (Data.costBreakdown d)
                 + Costs.laborCost (Data.costBreakdown d)
                 + Costs.equipmentCost (Data.costBreakdown d)
                 + Costs.miscCost (Data.costBreakdown d))
       /\ Data.production d
          = calculateProduction (JNum (Data.acres d)) (JNum (Data.yieldPerAcre d))
       /\ Data.revenue d
          = calculateRevenue (JNum (Data.production d)) (JNum (Data.marketPrice d))
       /\ Data.costPerAcre d = Data.totalCost d / Data.acres d
       /\ Data.costPerUnit d
          = calculateCostPerUnit (JNum (Data.totalCost d)) (JNum (Data.production d))
       /\ Data.profitPerAcre d
          = calculateProfitPerAcre (JNum (Data.netProfit d)) (JNum (Data.acres d))
       /\ Data.profitMargin d
          = calculateProfitMargin (JNum (Data.netProfit d)) (JNum (Data.revenue d)))
  /\ (forall now : string,
        exists d, calculateProfitability now corn_example = Returns (Success d)
          /\ Data.production d = 18000
          /\ Data.revenue d = 81000
          /\ Data.totalCost d = 27000
          /\ Data.netProfit d = 54000
          /\ Data.profitPerAcre d = 540
          /\ (abs (Data.profitMargin d - 6667 / 100) <? 5 / 1000) = true).
Proof.
  split.
  - intros now inputs v H Hv.
    pose proof (valid_inputs _ _ H Hv) as V.
    destruct (calculate_equations now inputs V) as (d & Hd & Hnet & Hrev & _ & Hexact).
    destruct (calculate_of_inputs now inputs V) as (d' & Hd' & Hin).
    assert (d' = d) by congruence. subst d'.
    exists d. split; [|split; [exact Hnet | split; [exact Hrev | split; [|exact Hin]]]].
    + unfold calculateProfitability. rewrite H. cbn [bind]. rewrite Hv, Hd.
      reflexivity.
    + intros Hy Hp. rewrite Hexact, Hy, Hp. reflexivity.
  - intros now. eexists. by_computation.
Qed.

Lemma calculateProfitability_equations_witness :
  exists d,
    calculateProfitability "2024-05-01T12:00:00.000Z" corn_form = Returns (Success d)
    /\ Data.netProfit d = Data.revenue d - Data.totalCost d
    /\ same_value_zero (Data.revenue d)
         (Data.acres d * Data.yieldPerAcre d * Data.marketPrice d) = true
    /\ Data.acres d = parseFloat (acreage corn_form)
    /\ Data.marketPrice d = parseFloat (marketPrice corn_form).
Proof.
  destruct (proj1 calculateProfitability_equations "2024-05-01T12:00:00.000Z"
              corn_form {| isValid := true; errors := [] |})
    as (d & Hd & Hnet & Hrev & _ & _ & Ha & _ & Hp & _).
  - vm_compute. reflexivity.
  - reflexivity.
  - exists d. repeat match goal with |- _ /\ _ => split end; assumption.
Defined.

(** C9. The three divisions are guarded: [calculateProfitPerAcre] is 0 when
    the acres are zero, [calculateProfitMargin] is 0 when the revenue is
    zero, [calculateCostPerUnit] is 0 when the production is zero, whatever
    the other argument; otherwise each is the quotient, and each returns a
    number on every pair of arguments. *)
Theorem guarded_divisions (x z : jsval) :
  calculateProfitPerAcre x z
    = (if parseFloat z =? 0 then 0 else parseFloat x / parseFloat z)
  /\ calculateProfitMargin x z
    = (if parseFloat z =? 0 then 0 else parseFloat x / parseFloat z * 100)
  /\ calculateCostPerUnit x z
    = (if parseFloat z =? 0 then 0 else parseFloat x / parseFloat z)
  /\ ((parseFloat z =? 0) = true ->
      calculateProfitPerAcre x z = 0 /\ calculateProfitMargin x z = 0
      /\ calculateCostPerUnit x z = 0).
Proof.
  unfold calculateProfitPerAcre, calculateProfitMargin, calculateCostPerUnit.
  repeat split; try reflexivity; rewrite H; reflexivity.
Qed.

Lemma guarded_divisions_witness :
  calculateProfitPerAcre (JNum 54000) (JStr "0") = 0
  /\ calculateProfitMargin (JNum 54000) (JStr "0") = 0
  /\ calculateCostPerUnit (JNum 54000) (JStr "0") = 0.
Proof.
  apply (proj2 (proj2 (proj2 (guarded_divisions (JNum 54000) (JStr "0"))))).
  vm_compute. reflexivity.
Defined.

(** *** What-if analysis *)

Lemma calculateProfitability_success (now : string) (inputs : Inputs) (d : Data.t) :
  calculateProfitability now inputs = Returns (Success d) ->
  valid_fields inputs /\ calculate now inputs = Returns d
  /\ crop_empty (cropType inputs) = false.
Proof.
  unfold calculateProfitability.
  destruct (validateInputs inputs) as [v|e] eqn:Hv; [|discriminate].
  cbn [bind]. destruct (isValid v) eqn:Hi; [|discriminate]. cbn [negb].
  destruct (calculate now inputs) as [d'|e] eqn:Hc; [|discriminate].
  intros [= ->]. split; [eapply valid_inputs; eassumption|]. split; [reflexivity|].
  apply validateInputs_returns in Hv. subst v. cbn [isValid] in Hi.
  apply Nat.eqb_eq, length_zero_iff_nil in Hi.
  apply (violations_nil inputs (crop_empty (cropType inputs), "Crop type is required"%string) Hi).
  unfold rules. cbn. auto.
Qed.

(** The stored number passes the validation of a cost again. *)
Lemma stored_cost_rule (v : jsval) :
  is_blank v = true
  \/ (is_nan (parseFloat v) = false /\ (parseFloat v <? 0) = false) ->
  negb (is_blank (JNum (or_zero (parseFloat v))))
  && (unparseable (JNum (or_zero (parseFloat v)))
      || (parseFloat (JNum (or_zero (parseFloat v))) <? 0)) = false.
Proof.
  intros H. unfold unparseable, isNaN. cbn [is_blank negb andb parseFloat].
  rewrite parseFloat_number_or_zero, is_nan_or_zero, (stored_cost_not_negative _ H).
  reflexivity.
Qed.

Lemma required_number_rule (x : float) (below : float -> bool) (m1 m2 : string) :
  is_nan (parseFloat_number x) = false ->
  below (parseFloat_number x) = false ->
  messages (required_rule (JNum x) below m1 m2) = [].
Proof.
  unfold messages, required_rule, unparseable, isNaN. cbn [fst is_blank parseFloat orb].
  intros -> ->. reflexivity.
Qed.

Lemma modified_inputs_valid (now : string) (inputs : Inputs) (d : Data.t)
    (newPrice : float) :
  valid_fields inputs -> calculate now inputs = Returns d ->
  crop_empty (cropType inputs) = false ->
  (0 <=? newPrice) = true ->
  validateInputs (modified_inputs d newPrice)
  = Returns {| isValid := true; errors := [] |}.
Proof.
  intros V Hd Hcrop Hp. unfold calculate in Hd. injection Hd as <-.
  rewrite validateInputs_text by (cbn; apply V).
  match goal with |- context [violations ?m] =>
    assert (E : violations m = []); [|rewrite E; reflexivity]
  end.
  unfold violations, rules. rewrite violations_concat, map_app, concat_app, map_map.
  unfold modified_inputs.
  cbn [map concat cropType acreage yieldPerAcre marketPrice Data.cropType
       Data.acres Data.yieldPerAcre costFields].
  assert (Ea : parseFloat_number (parseFloat (acreage inputs)) = parseFloat (acreage inputs)).
  { apply parseFloat_number_nonzero, leb_zero_false_nonzero, V. }
  rewrite !required_number_rule.
  2: { rewrite is_nan_parseFloat_number. eapply leb_not_nan_r, Hp. }
  2: { rewrite ltb_zero_parseFloat_number. apply zero_leb_not_neg, Hp. }
  2: { rewrite is_nan_parseFloat_number. apply V. }
  2: { rewrite ltb_zero_parseFloat_number. apply V. }
  2: { rewrite Ea. apply V. }
  2: { rewrite Ea. apply V. }
  unfold messages at 1. cbn [fst]. rewrite Hcrop.
  unfold messages, cost_rule. cbn [fst snd].
  unfold cost_input. cbn [String.eqb Ascii.eqb Bool.eqb seedCost fertilizerCost
    chemicalCost laborCost equipmentCost miscCost Data.costBreakdown
    Costs.seedCost Costs.fertilizerCost Costs.chemicalCost Costs.laborCost
    Costs.equipmentCost Costs.miscCost].
  pose proof (vf_costs _ V) as C.
  rewrite !stored_cost_rule.
  - reflexivity.
  - apply (C "miscCost"%string). cbn. auto 10.
  - apply (C "equipmentCost"%string). cbn. auto 10.
  - apply (C "laborCost"%string). cbn. auto 10.
  - apply (C "chemicalCost"%string). cbn. auto 10.
  - apply (C "fertilizerCost"%string). cbn. auto 10.
  - apply (C "seedCost"%string). cbn. auto 10.
Qed.

(** C10, as the code has it. For a result [d] that [calculateProfitability]
    returned and a percentage for which the scaled price
    [marketPrice * (1 + percent / 100)] is a number that is not negative,
    [whatIfPriceChange] returns a record whose new calculation succeeded and
    has the crop type, acres, production, cost breakdown, total cost and cost
    per acre of [d], the same yield as a number, and the scaled price as its
    market price. *)
Theorem whatIfPriceChange_preserves
    (now0 now : string) (inputs : Inputs) (d : Data.t) (percent : float) :
  calculateProfitability now0 inputs = Returns (Success d) ->
  (0 <=? Data.marketPrice d * (1 + percent / 100)) = true ->
  exists d',
    whatIfPriceChange now (Success d) percent
    = Returns (Some
        {| originalCalculation := Success d;
           newCalculation := Success d';
           priceChange :=
             {| originalPrice := Data.marketPrice d;
                newPrice := Data.marketPrice d * (1 + percent / 100);
                changePercent := percent |} |})
    /\ Data.cropType d' = Data.cropType d
    /\ Data.acres d' = Data.acres d
    /\ same_value_zero (Data.yieldPerAcre d') (Data.yieldPerAcre d) = true
    /\ Data.production d' = Data.production d
    /\ Data.costBreakdown d' = Data.costBreakdown d
    /\ Data.totalCost d' = Data.totalCost d
    /\ Data.costPerAcre d' = Data.costPerAcre d
    /\ same_value_zero (Data.marketPrice d')
         (Data.marketPrice d * (1 + percent / 100)) = true.
Proof.
  intros H Hp.
  destruct (calculateProfitability_success _ _ _ H) as (V & Hd & Hcrop).
  pose proof (modified_inputs_valid _ _ _ _ V Hd Hcrop Hp) as Hm.
  unfold whatIfPriceChange, calculateProfitability.
  change (validateInputs _) with
    (validateInputs (modified_inputs d (Data.marketPrice d * (1 + percent / 100)))).
  rewrite Hm. cbn [bind isValid negb]. unfold calculate at 1.
  eexists. split; [reflexivity|].
  unfold calculate in Hd. injection Hd as <-.
  cbn [Data.cropType Data.acres Data.yieldPerAcre Data.production Data.costBreakdown
       Data.totalCost Data.costPerAcre Data.marketPrice
       cropType acreage yieldPerAcre marketPrice seedCost fertilizerCost
       chemicalCost laborCost equipmentCost miscCost
       Costs.seedCost Costs.fertilizerCost Costs.chemicalCost Costs.laborCost
       Costs.equipmentCost Costs.miscCost].
  cbn [parseFloat].
  assert (Ea : parseFloat_number (parseFloat (acreage inputs)) = parseFloat (acreage inputs)).
  { apply parseFloat_number_nonzero, leb_zero_false_nonzero, V. }
  rewrite !parseFloat_number_or_zero, !or_zero_idem, !Ea.
  unfold calculateProduction. cbn [parseFloat].
  rewrite !parseFloat_number_idem, !Ea.
  repeat split; try reflexivity; apply parseFloat_number_same.
Qed.

Lemma whatIfPriceChange_preserves_witness :
  exists d d' w,
    calculateProfitability "2024-05-01T12:00:00.000Z" corn_form = Returns (Success d)
    /\ whatIfPriceChange "2024-05-02T08:00:00.000Z" (Success d) 10 = Returns (Some w)
    /\ newCalculation w = Success d'
    /\ Data.totalCost d' = Data.totalCost d
    /\ Data.production d' = Data.production d.
Proof.
  eexists.
  assert (H : calculateProfitability "2024-05-01T12:00:00.000Z" corn_form
              = Returns (Success _)) by (vm_compute; reflexivity).
  destruct (whatIfPriceChange_preserves _ "2024-05-02T08:00:00.000Z" _ _ 10 H)
    as (d' & Hw & _ & _ & _ & Hprod & _ & Hcost & _).
  - vm_compute. reflexivity.
  - exists d'. eexists. split; [exact H|]. split; [exact Hw|].
    repeat split; assumption.
Defined.

(** C10 as stated fails: a percentage of [+Infinity] is at least -100, and
    on a result with a market price of 0 it scales the price to [NaN]; a
    percentage of -100 does the same to an infinite market price. The new
    calculation is then a failure. *)
Lemma whatIfPriceChange_not_a_number :
  (exists d w,
     calculateProfitability "t0" (priced_result (JNum 0)) = Returns (Success d)
     /\ (-100 <=? infinity) = true
     /\ whatIfPriceChange "t1" (Success d) infinity = Returns (Some w)
     /\ newCalculation w = Failure ["Market price cannot be negative"%string])
  /\ (exists d w,
     calculateProfitability "t0" (priced_result (JStr "1e999")) = Returns (Success d)
     /\ (-100 <=? -100) = true
     /\ whatIfPriceChange "t1" (Success d) (-100) = Returns (Some w)
     /\ newCalculation w = Failure ["Market price cannot be negative"%string]).
Proof.
  split; do 2 eexists; by_computation.
Qed.

(** *** Comparing scenarios *)

Section Best.

Context {A : Type} (key : A -> float).

Lemma keep_larger_loop (rest before after : list A) (b : A) :
  (forall s, In s before -> (key b <=? key s) = false) ->
  (forall s, In s after -> (key b <? key s) = false) ->
  first_maximal key (before ++ b :: after ++ rest) (fold_left (keep_larger key) rest b).
Proof.
  revert before after b.
  induction rest as [|c rest IH]; intros before after b Hb Ha.
  - exists before, after. rewrite app_nil_r. auto.
  - cbn [fold_left]. unfold keep_larger at 2.
    destruct (key b <? key c) eqn:E.
    + replace (before ++ b :: after ++ c :: rest)
        with ((before ++ b :: after) ++ c :: [] ++ rest)
        by (rewrite <- app_assoc; reflexivity).
      apply IH; [|intros s []].
      intros s Hs. apply in_app_or in Hs as [Hs|[<-|Hs]].
      * destruct (key c <=? key s) eqn:F; [|reflexivity].
        rewrite <- (Hb s Hs). symmetry.
        apply ltb_leb. eapply ltb_leb_trans; eassumption.
      * apply ltb_not_geb, E.
      * destruct (key c <=? key s) eqn:F; [|reflexivity].
        rewrite <- (Ha s Hs). symmetry. eapply ltb_leb_trans; eassumption.
    + replace (before ++ b :: after ++ c :: rest)
        with (before ++ b :: (after ++ [c]) ++ rest)
        by (rewrite <- app_assoc; reflexivity).
      apply IH; [exact Hb|].
      intros s Hs. apply in_app_or in Hs as [Hs|[<-|[]]]; auto.
Qed.

Lemma reduce1_first_maximal (first : A) (rest : list A) :
  first_maximal key (first :: rest) (reduce1 (keep_larger key) first rest).
Proof.
  apply (keep_larger_loop rest [] [] first); intros s [].
Qed.


End Best.

Lemma validScenarios_filter (l : list Scenario) :
  map fst (validScenarios l) = List.filter succeeded l.
Proof.
  induction l as [|s l IH]; [reflexivity|].
  cbn [validScenarios List.filter]. unfold succeeded at 1.
  destruct (calculation s) as [[d|e]|]; cbn [map fst]; congruence.
Qed.

Lemma validScenarios_data (l : list Scenario) (s : Scenario) (d : Data.t) :
  In (s, d) (validScenarios l) -> In s l /\ calculation s = Some (Success d).
Proof.
  induction l as [|s' l IH]; [intros []|].
  cbn [validScenarios]. destruct (calculation s') as [[d'|e]|] eqn:E.
  - intros [[= -> ->]|H]; [split; [left; reflexivity | exact E]|].
    destruct (IH H). split; [right|]; assumption.
  - intros H. destruct (IH H). split; [right|]; assumption.
  - intros H. destruct (IH H). split; [right|]; assumption.
Qed.





End CalculatorProofs.

Module StorageProofs.

Import StorageManager StorageSpec.

Section WithEnv.

Variable env : Env.

(** *** Settings *)

Lemma getSettings_over_defaults (w : World) :
  getSettings w
  = if available w then over_defaults (persisted_settings w) else DEFAULT_SETTINGS.
Proof.
  unfold getSettings, isStorageAvailable, over_defaults, persisted_settings, spread.
  destruct (available w); cbn [negb]; [|reflexivity].
  destruct (settings w); reflexivity.
Qed.

Lemma over_defaults_idem (a : obj) : over_defaults a ∪ DEFAULT_SETTINGS = over_defaults a.
Proof.
  unfold over_defaults. rewrite <- (assoc_L (∪)). f_equal.
Qed.

Lemma saveSettings_available (patch : obj) (w : World) :
  available w = true ->
  saveSettings patch w
  = (true, set_settings
             (Stored (patch ∪ over_defaults (persisted_settings w))) w).
Proof.
  intros Ha. unfold saveSettings, isStorageAvailable, spread.
  rewrite getSettings_over_defaults, Ha. cbn [negb].
  rewrite over_defaults_idem. reflexivity.
Qed.



Example settings_after_save :
  let w := snd (saveSettings {[ "decimalPlaces" := JsNum 4%float ]} (empty_store 0)) in
  getSetting "decimalPlaces" w = Some (JsNum 4%float)
  /\ getSetting "currency" w = Some (JsStr "usd")
  /\ getSetting "autoSave" w = Some (JsBool true)
  /\ getSetting "refreshInterval" w = Some (JsNum 15%float).
Proof. repeat split; vm_compute; reflexivity. Qed.

(** *** The history *)

Lemma addToHistory_ok (c : obj) (w : World) :
  available w = true -> history w <> Corrupt ->
  addToHistory env c w
  = (true, set_history
             (Stored (take maxHistoryItems
                        (history_item env (tick w) c :: history_entries w)))
             (advance (advance w))).
Proof.
  intros Ha Hc. unfold addToHistory, isStorageAvailable, history_entries.
  rewrite Ha. cbn [negb].
  destruct (history w) as [|h|]; [reflexivity | reflexivity | congruence].
Qed.

(** What a call leaves of the world besides the history: nothing changes
    but the count of readings. *)
Lemma addToHistory_frame (c : obj) (w : World) :
  let w' := snd (addToHistory env c w) in
  available w' = available w /\ scenarios w' = scenarios w
  /\ settings w' = settings w /\ lastCalculation w' = lastCalculation w.
Proof.
  cbv zeta. unfold addToHistory, isStorageAvailable.
  destruct (available w) eqn:Ea; cbn [negb]; [|cbn; rewrite Ea; repeat split].
  destruct (history w); cbn; rewrite ?Ea; repeat split.
Qed.





Lemma take_app_take {A : Type} (n : nat) (a b : list A) :
  take n (a ++ take n b) = take n (a ++ b).
Proof.
  rewrite !take_app, take_take. f_equal. f_equal. lia.
Qed.




(** *** The id of a history entry *)

(** The entry takes the id of what it copies, when that has one: the
    properties of the copy are laid over the generated id. *)
Lemma history_item_id (t : nat) (c : obj) :
  history_item env t c !! "id"
  = match c !! "id" with
    | Some v => Some v
    | None => Some (JsStr (stamp env t ++ "-" ++ random env t))
    end.
Proof.
  unfold history_item. rewrite lookup_insert_ne by discriminate.
  rewrite lookup_union, lookup_singleton_eq.
  destruct (c !! "id"); reflexivity.
Qed.

Lemma addToHistory_copies_id (c : obj) (w : World) (v : json) :
  available w = true -> history w <> Corrupt ->
  c !! "id" = Some v ->
  exists item rest,
    history_entries (snd (addToHistory env c w)) = item :: rest
    /\ item !! "id" = Some v.
Proof.
  intros Ha Hc Hid. rewrite (addToHistory_ok _ _ Ha Hc).
  cbn [snd set_history history_entries history]. unfold maxHistoryItems.
  cbn [take]. do 2 eexists. split; [reflexivity|].
  rewrite history_item_id, Hid. reflexivity.
Qed.

(** *** Saving scenarios that come with their id *)

Lemma findIndex_none {A : Type} (p : A -> bool) (l : list A) :
  (forall x, In x l -> p x = false) -> findIndex p l = None.
Proof.
  induction l as [|x l IH]; intros H; [reflexivity|].
  cbn [findIndex]. rewrite (H x (or_introl eq_refl)), IH; [reflexivity|].
  intros y Hy. apply H. right. exact Hy.
Qed.

Lemma saveScenario_keyed (s : obj) (l : list obj) (w : World) :
  available w = true -> parse_list (scenarios w) = Returns l ->
  history w <> Corrupt ->
  keyed s ->
  (forall e : obj, In e l -> strict_eq (e !! "id") (s !! "id") = false) ->
  saveScenario env s w
  = (true,
     set_history
       (Stored (take maxHistoryItems
                  (history_item env (tick w) s :: history_entries w)))
       (advance (advance (set_scenarios (Stored (l ++ [s])) w)))).
Proof.
  intros Ha Hl Hc [Hid Hsaved] Hfresh.
  unfold saveScenario, isStorageAvailable. rewrite Ha, Hl. cbn [negb].
  rewrite Hid, Hsaved, (findIndex_none _ _ Hfresh).
  rewrite addToHistory_ok by (cbn; assumption). reflexivity.
Qed.

Lemma distinct_ids_app (done rest : list obj) :
  distinct_ids (done ++ rest) ->
  distinct_ids rest
  /\ forall e s : obj, In e done -> In s rest ->
       strict_eq (e !! "id") (s !! "id") = false.
Proof.
  induction done as [|d done IH]; cbn [app distinct_ids].
  - intros H. split; [exact H | intros e s []].
  - intros [Hd H]. destruct (IH H) as [Hr Hx]. split; [exact Hr|].
    intros e s [<-|He] Hs.
    + apply Hd, in_or_app. right. exact Hs.
    + apply Hx; assumption.
Qed.

Lemma save_all_keyed (rest done : list obj) (w : World) :
  available w = true -> parse_list (scenarios w) = Returns done ->
  history w <> Corrupt -> length (history_entries w) <= maxHistoryItems ->
  (forall s, In s rest -> keyed s) ->
  distinct_ids (done ++ rest) ->
  let w' := fold_left (fun w s => snd (saveScenario env s w)) rest w in
  available w' = true
  /\ scenarios w' = (match rest with [] => scenarios w | _ => Stored (done ++ rest) end)
  /\ settings w' = settings w
  /\ history_entries w'
     = take maxHistoryItems (rev (new_entries env (tick w) rest) ++ history_entries w).
Proof.
  revert done w. induction rest as [|s rest IH]; intros done w Ha Hl Hc Hn Hk Hd.
  - cbn. repeat split; try assumption. symmetry. apply take_ge, Hn.
  - cbn zeta. cbn [fold_left].
    destruct (distinct_ids_app _ _ Hd) as [_ Hx].
    rewrite (saveScenario_keyed s done w Ha Hl Hc (Hk s (or_introl eq_refl))).
    2: { intros e He. apply Hx; [exact He | left; reflexivity]. }
    cbn [snd].
    match goal with |- context [fold_left _ rest ?w1] =>
      destruct (IH (done ++ [s]) w1) as (Ha' & Hs' & Hset' & Hh')
    end.
    + exact Ha.
    + reflexivity.
    + cbn. congruence.
    + cbn [set_history history_entries history]. rewrite length_take. lia.
    + intros s' Hs'. apply Hk. right. exact Hs'.
    + rewrite <- app_assoc. exact Hd.
    + split; [exact Ha'|]. split; [|split; [exact Hset'|]].
      * rewrite Hs'. rewrite <- app_assoc. destruct rest; reflexivity.
      * rewrite Hh'.
        cbn [tick set_history advance set_scenarios history_entries history
             new_entries rev].
        rewrite take_app_take, <- app_assoc. reflexivity.
Qed.

Lemma getSettings_fixed (w : World) : getSettings w ∪ DEFAULT_SETTINGS = getSettings w.
Proof.
  rewrite getSettings_over_defaults.
  destruct (available w); [apply over_defaults_idem | reflexivity].
Qed.

(** C3, as the code has it. [exportData()] followed by [importData] of the
    text on an empty store succeeds and reproduces the scenarios, when each
    has an id and a time of saving and no two share an id, and the settings.
    The history of the snapshot is not imported: the import leaves one new
    entry for each imported scenario, the last imported first, 100 at
    most. *)
Theorem import_of_export_reproduces (w : World) (t : nat) :
  (forall s, In s (getScenarios w) -> keyed s) ->
  distinct_ids (getScenarios w) ->
  success (fst (import_of_export env w t)) = true
  /\ getScenarios (snd (import_of_export env w t)) = getScenarios w
  /\ getSettings (snd (import_of_export env w t)) = getSettings w
  /\ getHistory None (snd (import_of_export env w t))
     = take 100 (rev (new_entries env t (getScenarios w))).
Proof.
  intros Hk Hd.
  unfold import_of_export, exportData, parse_snapshot, importData.
  cbn [isoNow fst snd version snap_scenarios snap_settings has_version
       doc_scenarios has_history doc_settings String.eqb negb andb success].
  destruct (save_all_keyed (getScenarios w) [] (empty_store t))
    as (Ha & Hs & Hset & Hh); try reflexivity; try assumption;
    try discriminate; try (cbn; unfold maxHistoryItems; lia).
  cbn zeta in Ha, Hs, Hset, Hh.
  set (w1 := fold_left (fun w0 s => snd (saveScenario env s w0))
               (getScenarios w) (empty_store t)) in *.
  rewrite (saveSettings_available _ _ Ha). cbn [snd].
  split; [reflexivity|]. split; [|split].
  - unfold getScenarios at 1, isStorageAvailable.
    cbn [available set_settings scenarios]. rewrite Ha, Hs. cbn [negb].
    destruct (getScenarios w); reflexivity.
  - rewrite getSettings_over_defaults.
    cbn [available set_settings persisted_settings settings]. rewrite Ha.
    unfold persisted_settings. rewrite Hset. cbn [empty_store settings].
    unfold over_defaults.
    rewrite (left_id_L ∅ (∪)), <- !(assoc_L (∪)).
    replace (DEFAULT_SETTINGS ∪ DEFAULT_SETTINGS) with DEFAULT_SETTINGS by reflexivity.
    apply getSettings_fixed.
  - unfold getHistory, isStorageAvailable.
    cbn [available set_settings history]. rewrite Ha. cbn [negb].
    unfold history_entries in Hh. cbn [empty_store history tick] in Hh.
    rewrite app_nil_r in Hh.
    destruct (history w1); cbn [parse_list]; exact Hh.
Qed.

End WithEnv.

(** *** The properties on examples *)

Lemma import_of_export_reproduces_witness :
  getScenarios (snd (import_of_export sample_env saved_store 40))
  = [scenario_s1 "corn 2024"; scenario_s2 "soybeans 2024"]
  /\ getSettings (snd (import_of_export sample_env saved_store 40))
     = getSettings saved_store.
Proof.
  assert (Hk : forall s, In s (getScenarios saved_store) -> keyed s).
  { intros s [<-|[<-|[]]]; split; vm_compute; reflexivity. }
  assert (Hd : distinct_ids (getScenarios saved_store)).
  { split; [|split; [intros s' []|exact I]].
    intros s' [<-|[]]. vm_compute. reflexivity. }
  destruct (import_of_export_reproduces sample_env saved_store 40 Hk Hd)
    as (_ & Hs & Hset & _).
  split; [exact Hs | exact Hset].
Defined.

(** C3 as stated fails on the history. A store whose history holds a
    calculation that was never saved as a scenario comes back with an empty
    history; and the history of [saved_store] comes back with the times of
    the import, not those of the snapshot. *)
Lemma import_does_not_restore_history :
  (length (getHistory None (snd (addToHistory sample_env raw_calculation (empty_store 0))))
   = 1
   /\ getHistory None
        (snd (import_of_export sample_env
                (snd (addToHistory sample_env raw_calculation (empty_store 0))) 9))
      = [])
  /\ (map (fun e : obj => e !! "addedAt") (getHistory None saved_store)
      = [Some (JsStr "2024-05-01T12:00:03.000Z"); Some (JsStr "2024-05-01T12:00:01.000Z")]
      /\ map (fun e : obj => e !! "addedAt")
           (getHistory None (snd (import_of_export sample_env saved_store 40)))
         = [Some (JsStr "2024-05-01T12:00:00.43Z"); Some (JsStr "2024-05-01T12:00:00.41Z")]).
Proof.
  repeat match goal with |- _ /\ _ => split end; vm_compute; reflexivity.
Qed.

(** C2 on its failing input. Saving a scenario under the id ["s1"] twice
    leaves one scenario and two history entries, both with the id ["s1"]:
    the ids of the history are not unique. And a scenario saved from the
    application, with no id of its own, gets the first generated id, which
    its history entry carries too: the id generated for the entry is
    dropped. *)
Theorem history_ids_repeat :
  (ids (history_entries
          (run_all sample_env
             [SaveScenario (scenario_s1 "corn 2024");
              SaveScenario (scenario_s1 "corn 2024 revised")] (empty_store 0)))
   = [Some (JsStr "s1"); Some (JsStr "s1")]
   /\ ids (getScenarios
             (run_all sample_env
                [SaveScenario (scenario_s1 "corn 2024");
                 SaveScenario (scenario_s1 "corn 2024 revised")] (empty_store 0)))
      = [Some (JsStr "s1")]
   /\ ~ NoDup (ids (history_entries
          (run_all sample_env
             [SaveScenario (scenario_s1 "corn 2024");
              SaveScenario (scenario_s1 "corn 2024 revised")] (empty_store 0)))))
  /\ (ids (getScenarios (run sample_env (SaveScenario (sample_scenario "corn 2024"))
                           (empty_store 0)))
      = [Some (JsStr "171456480-k3j9x0")]
      /\ ids (history_entries (run sample_env (SaveScenario (sample_scenario "corn 2024"))
                                 (empty_store 0)))
         = [Some (JsStr "171456480-k3j9x0")]).
Proof.
  assert (E : ids (history_entries
          (run_all sample_env
             [SaveScenario (scenario_s1 "corn 2024");
              SaveScenario (scenario_s1 "corn 2024 revised")] (empty_store 0)))
          = [Some (JsStr "s1"); Some (JsStr "s1")]) by (vm_compute; reflexivity).
  split; [split; [exact E | split]|split].
  - vm_compute. reflexivity.
  - rewrite E. intros H. apply NoDup_cons_1_1 in H. apply H. left.
  - vm_compute. reflexivity.
  - vm_compute. reflexivity.
Qed.


Example newest_entry_first :
  ids (take 2 (history_entries
         (add_all sample_env (replicate 101 raw_calculation) (empty_store 0))))
  = [Some (JsStr "17145648200-k3j9x200"); Some (JsStr "17145648198-k3j9x198")].
Proof. vm_compute. reflexivity. Qed.

End StorageProofs.

(** ** More about the calculator *)

Module CalculatorFacts.

Import Calculator CalculatorSpec Float64 Float64Facts CalculatorProofs.
Local Open Scope float_scope.

Lemma nonneg_not_negative x : nonneg x -> (x <? 0) = false.
Proof.
  unfold nonneg. rewrite ltb_zero_SF. intros ->. reflexivity.
Qed.

Lemma SFdiv_same_numerator f f' g :
  sf_same f f' -> sf_same (SFdiv prec emax f g) (SFdiv prec emax f' g).
Proof.
  unfold sf_same. intros [->|[Hf Hf']]; [left; reflexivity|].
  destruct f, f'; try discriminate. destruct g; simpl; auto.
Qed.

Lemma same_value_zero_div x x' y :
  same_value_zero x x' = true -> same_value_zero (x / y) (x' / y) = true.
Proof.
  rewrite !same_value_zero_SF, !FloatAxioms.div_spec. apply SFdiv_same_numerator.
Qed.

(** X1. The numbers of a successful result: a cost of the breakdown is at
    least 0, the acres are above 0, and the yield, the price, the
    production, the revenue and the total cost are not below 0. *)
Theorem success_is_never_negative
    (now : string) (inputs : Inputs) (d : Data.t) :
  calculateProfitability now inputs = Returns (Success d) ->
  ((0 <=? Costs.seedCost (Data.costBreakdown d)) = true
   /\ (0 <=? Costs.fertilizerCost (Data.costBreakdown d)) = true
   /\ (0 <=? Costs.chemicalCost (Data.costBreakdown d)) = true
   /\ (0 <=? Costs.laborCost (Data.costBreakdown d)) = true
   /\ (0 <=? Costs.equipmentCost (Data.costBreakdown d)) = true
   /\ (0 <=? Costs.miscCost (Data.costBreakdown d)) = true)
  /\ (0 <? Data.acres d) = true
  /\ (Data.yieldPerAcre d <? 0) = false
  /\ (Data.marketPrice d <? 0) = false
  /\ (Data.production d <? 0) = false
  /\ (Data.revenue d <? 0) = false
  /\ (Data.totalCost d <? 0) = false.
Proof.
  intros H. destruct (calculateProfitability_success _ _ _ H) as (V & Hd & _).
  unfold calculate in Hd. injection Hd as <-.
  cbn [Data.costBreakdown Data.acres Data.yieldPerAcre Data.marketPrice
       Data.production Data.revenue Data.totalCost
       Costs.seedCost Costs.fertilizerCost Costs.chemicalCost Costs.laborCost
       Costs.equipmentCost Costs.miscCost].
  pose proof (vf_costs _ V) as C.
  assert (K : forall v,
    is_blank v = true
    \/ (is_nan (parseFloat v) = false /\ (parseFloat v <? 0) = false) ->
    (0 <=? or_zero (parseFloat v)) = true).
  { intros v Hv. apply ltb_false_geb; [apply is_nan_or_zero | reflexivity|].
    apply stored_cost_not_negative, Hv. }
  assert (Ha : nonneg (parseFloat (acreage inputs)))
    by (apply nonneg_of_positive; apply V).
  assert (Ea : parseFloat_number (parseFloat (acreage inputs))
               = parseFloat (acreage inputs))
    by (apply parseFloat_number_nonneg, Ha).
  assert (Hy : nonneg (parseFloat_number (parseFloat (yieldPerAcre inputs))))
    by (apply nonneg_parseFloat_number; apply V).
  assert (Hp : nonneg (parseFloat_number (parseFloat (marketPrice inputs))))
    by (apply nonneg_parseFloat_number; apply V).
  split.
  { repeat match goal with |- _ /\ _ => split end; apply K.
    - apply (C "seedCost"%string); cbn; auto 10.
    - apply (C "fertilizerCost"%string); cbn; auto 10.
    - apply (C "chemicalCost"%string); cbn; auto 10.
    - apply (C "laborCost"%string); cbn; auto 10.
    - apply (C "equipmentCost"%string); cbn; auto 10.
    - apply (C "miscCost"%string); cbn; auto 10. }
  split; [apply leb_false_ltb; [apply V | reflexivity | apply V]|].
  split; [apply V|]. split; [apply V|].
  unfold calculateRevenue, calculateProduction, calculateTotalCost.
  cbn [parseFloat]. rewrite Ea.
  assert (Hprod : nonneg (parseFloat (acreage inputs)
                          * parseFloat_number (parseFloat (yieldPerAcre inputs))))
    by (apply nonneg_mul; assumption).
  split; [apply nonneg_not_negative, Hprod|].
  split; apply nonneg_not_negative.
  - apply nonneg_mul; [|exact Hp].
    rewrite (parseFloat_number_nonneg _ Hprod). exact Hprod.
  - apply nonneg_mul; [exact Ha | apply total_cost_loop_nonneg, nonneg_zero].
Qed.

Lemma success_is_never_negative_witness :
  exists d,
    calculateProfitability "2024-05-01T12:00:00.000Z" corn_form = Returns (Success d)
    /\ (Data.revenue d <? 0) = false /\ (0 <? Data.acres d) = true.
Proof.
  eexists. 
  assert (H : calculateProfitability "2024-05-01T12:00:00.000Z" corn_form
              = Returns (Success _)) by (vm_compute; reflexivity).
  destruct (success_is_never_negative _ _ _ H) as (_ & Ha & _ & _ & _ & Hr & _).
  split; [exact H | split; assumption].
Defined.

(** X2. For every successful result the guard on zero acres never fires:
    [profitPerAcre] is the number [netProfit / acres], and [costPerAcre] is
    [totalCost / acres]. *)
Theorem per_acre_figures (now : string) (inputs : Inputs) (d : Data.t) :
  calculateProfitability now inputs = Returns (Success d) ->
  (Data.acres d =? 0) = false
  /\ same_value_zero (Data.profitPerAcre d) (Data.netProfit d / Data.acres d) = true
  /\ Data.costPerAcre d = Data.totalCost d / Data.acres d.
Proof.
  intros H. destruct (calculateProfitability_success _ _ _ H) as (V & Hd & _).
  unfold calculate in Hd. injection Hd as <-.
  cbn [Data.acres Data.profitPerAcre Data.netProfit Data.costPerAcre Data.totalCost].
  assert (Ez : (parseFloat (acreage inputs) =? 0) = false)
    by (apply leb_zero_false_nonzero, V).
  split; [exact Ez|]. split; [|reflexivity].
  unfold calculateProfitPerAcre. cbn [parseFloat].
  rewrite (parseFloat_number_nonzero _ Ez), Ez.
  apply same_value_zero_div, parseFloat_number_same.
Qed.

Lemma per_acre_figures_witness :
  exists d,
    calculateProfitability "2024-05-01T12:00:00.000Z" corn_form = Returns (Success d)
    /\ same_value_zero (Data.profitPerAcre d) (Data.netProfit d / Data.acres d) = true.
Proof.
  eexists.
  assert (H : calculateProfitability "2024-05-01T12:00:00.000Z" corn_form
              = Returns (Success _)) by (vm_compute; reflexivity).
  destruct (per_acre_figures _ _ _ H) as (_ & Hp & _).
  split; [exact H | exact Hp].
Defined.

(** *** Exceptions *)

(** X3. A crop type that is a number. With the crop type a number other
    than 0 and [NaN], which is truthy and has no [trim], [validateInputs]
    throws, and so does [calculateProfitability], which calls it outside its
    [try] block, whatever the other fields hold. With the crop type
    undefined, null, a string, 0 or [NaN], and each of the other fields
    undefined, null, a string or a number, both return. *)
Theorem numeric_crop_throws (now : string) (inputs : Inputs) :
  (forall x, cropType inputs = JNum x -> truthy_num x = true ->
     (exists e, validateInputs inputs = Throws e)
     /\ (exists e, calculateProfitability now inputs = Throws e))
  /\ (crop_is_text (cropType inputs)
      \/ (exists x, cropType inputs = JNum x /\ truthy_num x = false) ->
      (exists v, validateInputs inputs = Returns v)
      /\ (exists r, calculateProfitability now inputs = Returns r)).
Proof.
  assert (B : forall v, validateInputs inputs = Returns v ->
                exists r, calculateProfitability now inputs = Returns r).
  { intros v Hv. unfold calculateProfitability. rewrite Hv. cbn [bind].
    destruct (negb (isValid v)); [eexists; reflexivity|].
    destruct (calculate now inputs); eexists; reflexivity. }
  split.
  - intros x Hx Ht.
    assert (A : exists e, validateInputs inputs = Throws e).
    { unfold validateInputs, crop_missing, JS.falsy. rewrite Hx, Ht. cbn [negb bind].
      eexists. reflexivity. }
    split; [exact A|]. destruct A as [e He].
    unfold calculateProfitability. rewrite He. cbn [bind]. eexists. reflexivity.
  - intros H.
    assert (A : exists v, validateInputs inputs = Returns v).
    { unfold validateInputs, crop_missing, JS.falsy.
      destruct (cropType inputs) as [| |s|x]; cbn [bind].
      - eexists. reflexivity.
      - eexists. reflexivity.
      - destruct (String.eqb s ""); cbn [bind]; eexists; reflexivity.
      - destruct H as [[]|(y & [= <-] & Hy)]. rewrite Hy. cbn [negb bind].
        eexists. reflexivity. }
    split; [exact A|]. destruct A as [v Hv]. exact (B v Hv).
Qed.

Lemma numeric_crop_throws_witness :
  (exists e, calculateProfitability "2024-05-01T12:00:00.000Z" numbered_crop = Throws e)
  /\ (exists r, calculateProfitability "2024-05-01T12:00:00.000Z" corn_form = Returns r).
Proof.
  split.
  - exact (proj2 (proj1 (numeric_crop_throws "2024-05-01T12:00:00.000Z" numbered_crop)
                    7%float eq_refl eq_refl)).
  - exact (proj2 (proj2 (numeric_crop_throws "2024-05-01T12:00:00.000Z" corn_form)
                    (or_introl I))).
Defined.

(** *** Comparing scenarios *)

Lemma validScenarios_of_succeeded (l : list Scenario) :
  validScenarios (List.filter succeeded l) = validScenarios l.
Proof.
  induction l as [|s l IH]; [reflexivity|].
  cbn [List.filter validScenarios]. unfold succeeded at 1.
  destruct (calculation s) as [[d|e]|] eqn:E; [|exact IH|exact IH].
  cbn [validScenarios]. rewrite E, IH. reflexivity.
Qed.

Lemma compareScenarios_by_valid (l l' : list Scenario) :
  validScenarios l = validScenarios l' -> compareScenarios l = compareScenarios l'.
Proof.
  intros H. destruct l as [|s l], l' as [|s' l']; unfold compareScenarios.
  - reflexivity.
  - rewrite <- H. reflexivity.
  - rewrite H. reflexivity.
  - rewrite H. reflexivity.
Qed.

Lemma first_maximal_member {A : Type} (key : A -> float) (l : list A) (b : A) :
  first_maximal key l b -> In b l.
Proof. intros (before & after & -> & _). apply in_elt. Qed.

(** X4. [compareScenarios] does not see the scenarios without a successful
    calculation: dropping them from the input changes nothing. Of what it
    returns, the count is at most the length of the input, and each of the
    two best scenarios is a scenario of the input, returned with the data of
    its own successful calculation. *)
Theorem compareScenarios_ignores_failures (l : list Scenario) :
  compareScenarios (List.filter succeeded l) = compareScenarios l
  /\ forall r, compareScenarios l = Some r ->
       (totalScenarios r <= length l)%nat
       /\ In (fst (bestProfit r)) l
       /\ calculation (fst (bestProfit r)) = Some (Success (snd (bestProfit r)))
       /\ In (fst (bestProfitPerAcre r)) l
       /\ calculation (fst (bestProfitPerAcre r))
          = Some (Success (snd (bestProfitPerAcre r))).
Proof.
  split; [apply compareScenarios_by_valid, validScenarios_of_succeeded|].
  intros r Hr. unfold compareScenarios in Hr.
  destruct l as [|s0 l0]; [discriminate|].
  assert (Hlen : (length (validScenarios (s0 :: l0)) <= length (s0 :: l0))%nat).
  { replace (length (validScenarios (s0 :: l0)))
      with (length (List.filter succeeded (s0 :: l0)))
      by (rewrite <- validScenarios_filter; apply length_map).
    apply List.filter_length_le. }
  destruct (validScenarios (s0 :: l0)) as [|first rest] eqn:Ev; [discriminate|].
  injection Hr as <-.
  cbn [totalScenarios bestProfit bestProfitPerAcre].
  pose proof (first_maximal_member _ _ _
    (reduce1_first_maximal (fun v : Valid => Data.netProfit (snd v)) first rest)) as Hp.
  pose proof (first_maximal_member _ _ _
    (reduce1_first_maximal (fun v : Valid => Data.profitPerAcre (snd v)) first rest)) as Ha.
  rewrite <- Ev in Hp, Ha.
  split; [exact Hlen|].
  unfold keep_larger in Hp, Ha.
  split; [|split; [|split]].
  - eapply (validScenarios_data (s0 :: l0) _ _). rewrite <- surjective_pairing. exact Hp.
  - eapply (validScenarios_data (s0 :: l0) _ _). rewrite <- surjective_pairing. exact Hp.
  - eapply (validScenarios_data (s0 :: l0) _ _). rewrite <- surjective_pairing. exact Ha.
  - eapply (validScenarios_data (s0 :: l0) _ _). rewrite <- surjective_pairing. exact Ha.
Qed.

Lemma compareScenarios_ignores_failures_witness :
  exists r, compareScenarios four_scenarios = Some r
    /\ (totalScenarios r <= 4)%nat
    /\ In (fst (bestProfit r)) four_scenarios.
Proof.
  eexists. split; [vm_compute; reflexivity|].
  destruct (compareScenarios_ignores_failures four_scenarios) as (_ & H).
  destruct (H _ ltac:(vm_compute; reflexivity)) as (Hn & Hin & _).
  split; [exact Hn | exact Hin].
Defined.

(** *** What-if analysis *)

(** X5. In a what-if result the costs stay and the revenue moves with the
    price: for a result [d] of [calculateProfitability] and a scaled price
    that is a number not below 0, the new revenue is the number
    [production * scaled price] and the new net profit is the new revenue
    less the total cost of [d]. The original calculation is handed back as it
    came. *)
Theorem whatIf_profit_follows_revenue
    (now0 now : string) (inputs : Inputs) (d : Data.t) (percent : float) :
  calculateProfitability now0 inputs = Returns (Success d) ->
  (0 <=? Data.marketPrice d * (1 + percent / 100)) = true ->
  exists w d',
    whatIfPriceChange now (Success d) percent = Returns (Some w)
    /\ originalCalculation w = Success d
    /\ newCalculation w = Success d'
    /\ Data.netProfit d' = Data.revenue d' - Data.totalCost d
    /\ same_value_zero (Data.revenue d')
         (Data.production d * (Data.marketPrice d * (1 + percent / 100))) = true
    /\ Data.calculatedAt d' = now.
Proof.
  intros H Hp.
  destruct (calculateProfitability_success _ _ _ H) as (V & Hd & Hcrop).
  pose proof (modified_inputs_valid _ _ _ _ V Hd Hcrop Hp) as Hm.
  pose proof (valid_inputs _ _ Hm eq_refl) as Vm.
  destruct (calculate_equations now _ Vm) as (d' & Hd' & Hnet & _ & _ & Hrev).
  exists {| originalCalculation := Success d;
            newCalculation := Success d';
            priceChange :=
              {| originalPrice := Data.marketPrice d;
                 newPrice := Data.marketPrice d * (1 + percent / 100);
                 changePercent := percent |} |}, d'.
  split.
  { unfold whatIfPriceChange, calculateProfitability.
    change (validateInputs _) with
      (validateInputs (modified_inputs d (Data.marketPrice d * (1 + percent / 100)))).
    rewrite Hm. cbn [bind isValid negb].
    change (calculate now _) with
      (calculate now (modified_inputs d (Data.marketPrice d * (1 + percent / 100)))).
    rewrite Hd'. reflexivity. }
  split; [reflexivity|]. split; [reflexivity|].
  unfold calculate in Hd'. injection Hd' as <-.
  unfold calculate in Hd. injection Hd as <-.
  cbn [Data.netProfit Data.revenue Data.totalCost Data.acres Data.yieldPerAcre
       Data.marketPrice Data.production Data.calculatedAt Data.costBreakdown
       modified_inputs acreage yieldPerAcre marketPrice seedCost fertilizerCost
       chemicalCost laborCost equipmentCost miscCost
       Costs.seedCost Costs.fertilizerCost Costs.chemicalCost Costs.laborCost
       Costs.equipmentCost Costs.miscCost] in *.
  cbn [parseFloat] in *.
  assert (Ea : parseFloat_number (parseFloat (acreage inputs)) = parseFloat (acreage inputs)).
  { apply parseFloat_number_nonzero, leb_zero_false_nonzero, V. }
  split.
  { rewrite Hnet. f_equal.
    rewrite !parseFloat_number_or_zero, !or_zero_idem, !Ea. reflexivity. }
  split; [|reflexivity].
  rewrite Hrev. unfold calculateProduction. cbn [parseFloat].
  rewrite !parseFloat_number_idem, !Ea.
  apply same_value_zero_mul; [apply same_value_zero_refl | apply parseFloat_number_same].
Qed.

Lemma whatIf_profit_follows_revenue_witness :
  exists d w d',
    calculateProfitability "2024-05-01T12:00:00.000Z" corn_form = Returns (Success d)
    /\ whatIfPriceChange "2024-05-02T08:00:00.000Z" (Success d) (-20) = Returns (Some w)
    /\ newCalculation w = Success d'
    /\ Data.netProfit d' = Data.revenue d' - Data.totalCost d.
Proof.
  eexists.
  assert (H : calculateProfitability "2024-05-01T12:00:00.000Z" corn_form
              = Returns (Success _)) by (vm_compute; reflexivity).
  destruct (whatIf_profit_follows_revenue _ "2024-05-02T08:00:00.000Z" _ _ (-20) H)
    as (w & d' & Hw & _ & Hn & Hnet & _).
  - vm_compute. reflexivity.
  - exists w, d'. split; [exact H|]. split; [exact Hw|]. split; assumption.
Defined.

End CalculatorFacts.

(** ** More about the store *)

Module StorageFacts.

Import StorageManager StorageSpec StorageNotions Float64 Float64Facts StorageProofs.

(** *** [===] on ids *)

Lemma eqb_true_SF (x y : float) :
  PrimFloat.eqb x y = true
  <-> sf_same (Prim2SF x) (Prim2SF y) /\ sf_is_nan (Prim2SF x) = false.
Proof.
  rewrite FloatAxioms.eqb_spec. unfold SFeqb. split.
  - intros H. destruct (SFcompare _ _) as [[]|] eqn:E; try discriminate.
    split; [apply SFcompare_Eq, E|].
    destruct (Prim2SF x); try reflexivity. discriminate.
  - intros [[E|[H1 H2]] Hn].
    + rewrite <- E, SFcompare_refl, Hn. reflexivity.
    + destruct (Prim2SF x), (Prim2SF y); try discriminate. reflexivity.
Qed.

Lemma eqb_sym (x y : float) : PrimFloat.eqb x y = true -> PrimFloat.eqb y x = true.
Proof.
  rewrite !eqb_true_SF. unfold sf_same. intros [[E|[H1 H2]] Hn].
  - rewrite <- E. auto.
  - split; [auto|]. destruct (Prim2SF y); try discriminate. reflexivity.
Qed.

Lemma eqb_trans (x y z : float) :
  PrimFloat.eqb x y = true -> PrimFloat.eqb y z = true -> PrimFloat.eqb x z = true.
Proof.
  rewrite !eqb_true_SF. unfold sf_same. intros [H1 Hn] [H2 _]. split; [|exact Hn].
  destruct H1 as [E1|[A B]], H2 as [E2|[C D]].
  - left. congruence.
  - right. rewrite E1. auto.
  - right. rewrite <- E2. auto.
  - right. auto.
Qed.

Lemma strict_eq_sym (a b : option json) : strict_eq a b = true -> strict_eq b a = true.
Proof.
  destruct a as [[]|], b as [[]|]; cbn; try discriminate; try reflexivity.
  - intros H. apply Bool.eqb_prop in H. subst. apply Bool.eqb_reflx.
  - apply eqb_sym.
  - intros H. apply String.eqb_eq in H. subst. apply String.eqb_refl.
Qed.

Lemma strict_eq_trans (a b c : option json) :
  strict_eq a b = true -> strict_eq b c = true -> strict_eq a c = true.
Proof.
  destruct a as [[]|], b as [[]|]; cbn; try discriminate;
    destruct c as [[]|]; cbn; try discriminate; try reflexivity.
  - intros H1 H2. apply Bool.eqb_prop in H1, H2. subst. apply Bool.eqb_reflx.
  - apply eqb_trans.
  - intros H1 H2. apply String.eqb_eq in H1, H2. subst. apply String.eqb_refl.
Qed.

(** A truthy id that is not an array or an object is [===] to itself. *)
Lemma strict_eq_refl (a : option json) :
  falsy a = false -> comparable a = true -> strict_eq a a = true.
Proof.
  destruct a as [[]|]; cbn; try discriminate; intros H _.
  - apply Bool.eqb_reflx.
  - unfold truthy_num, isNaN, is_nan in H.
    destruct (PrimFloat.eqb x x); [reflexivity|].
    rewrite andb_false_r in H. discriminate.
  - apply String.eqb_refl.
Qed.

(** *** Saving a scenario and reading it back *)

Section WithEnv.

Variable env : Env.

Lemma generated_id_truthy (a b : string) : falsy (Some (JsStr (a ++ "-" ++ b))) = false.
Proof. cbn. destruct a; reflexivity. Qed.

Lemma findIndex_find {A : Type} (p : A -> bool) (l : list A) :
  match findIndex p l with
  | Some i => exists x, l !! i = Some x /\ find p l = Some x /\ p x = true
  | None => find p l = None
  end.
Proof.
  induction l as [|a r IH]; [reflexivity|].
  cbn [findIndex find]. destruct (p a) eqn:E.
  - exists a. auto.
  - destruct (findIndex p r) as [i|]; cbn; exact IH.
Qed.

Lemma upsert_cons (s e : obj) (r : list obj) :
  upsert s (e :: r)
  = if strict_eq (e !! "id") (s !! "id") then s :: r else e :: upsert s r.
Proof.
  unfold upsert. cbn [findIndex].
  destruct (strict_eq (e !! "id") (s !! "id")); [reflexivity|].
  destruct (findIndex _ r); reflexivity.
Qed.

Lemma find_upsert_same (s : obj) (l : list obj) :
  strict_eq (s !! "id") (s !! "id") = true ->
  find (fun e : obj => strict_eq (e !! "id") (s !! "id")) (upsert s l) = Some s.
Proof.
  intros Hs. induction l as [|e r IH].
  - cbn. rewrite Hs. reflexivity.
  - rewrite upsert_cons.
    destruct (strict_eq (e !! "id") (s !! "id")) eqn:E; cbn [find].
    + rewrite Hs. reflexivity.
    + rewrite E. exact IH.
Qed.

Lemma find_upsert_other (s : obj) (id' : option json) (l : list obj) :
  strict_eq (s !! "id") id' = false ->
  find (fun e : obj => strict_eq (e !! "id") id') (upsert s l)
  = find (fun e : obj => strict_eq (e !! "id") id') l.
Proof.
  intros Hs. induction l as [|e r IH].
  - cbn. rewrite Hs. reflexivity.
  - rewrite upsert_cons.
    destruct (strict_eq (e !! "id") (s !! "id")) eqn:E; cbn [find].
    + rewrite Hs.
      destruct (strict_eq (e !! "id") id') eqn:F; [|reflexivity].
      assert (strict_eq (s !! "id") id' = true)
        by (eapply strict_eq_trans; [apply strict_eq_sym, E | exact F]).
      congruence.
    + rewrite IH. reflexivity.
Qed.

Lemma saveScenario_stored (s : obj) (w : World) :
  available w = true -> scenarios w <> Corrupt ->
  fst (saveScenario env s w) = true
  /\ available (snd (saveScenario env s w)) = true
  /\ scenarios (snd (saveScenario env s w))
     = Stored (upsert (prepared env s w) (stored_scenarios w))
  /\ settings (snd (saveScenario env s w)) = settings w
  /\ lastCalculation (snd (saveScenario env s w)) = lastCalculation w.
Proof.
  intros Ha Hc. unfold saveScenario, isStorageAvailable, prepared, stored_scenarios, upsert.
  rewrite Ha. cbn [negb].
  assert (Hl : parse_list (scenarios w)
               = Returns (match scenarios w with Stored l => l | _ => [] end)).
  { destruct (scenarios w); [reflexivity | reflexivity | congruence]. }
  rewrite Hl.
  destruct (falsy (s !! "id")); cbn [generateId];
    match goal with |- context [falsy ?x] => destruct (falsy x) end;
    cbn [isoNow advance tick];
    match goal with |- context [addToHistory env ?c ?w'] =>
      pose proof (addToHistory_frame env c w') as F; cbv zeta in F;
      destruct (addToHistory env c w') as [b w'']
    end; cbn [fst snd] in *; destruct F as (F1 & F2 & F3 & F4);
    rewrite F1, F2, F3, F4; cbn; rewrite Ha; repeat split.
Qed.

Lemma getScenarios_stored (w : World) :
  available w = true -> getScenarios w = stored_scenarios w.
Proof.
  intros Ha. unfold getScenarios, isStorageAvailable, stored_scenarios.
  rewrite Ha. cbn [negb]. destruct (scenarios w); reflexivity.
Qed.

Lemma prepared_id (s : obj) (w : World) :
  falsy (prepared env s w !! "id") = false
  /\ (comparable (s !! "id") = true -> comparable (prepared env s w !! "id") = true).
Proof.
  unfold prepared. destruct (falsy (s !! "id")) eqn:E.
  - match goal with |- context [if ?b then _ else _] => destruct b end;
      rewrite ?(lookup_insert_ne _ "savedAt" "id") by discriminate;
      rewrite lookup_insert_eq; (split; [apply generated_id_truthy | reflexivity]).
  - match goal with |- context [if ?b then _ else _] => destruct b end;
      rewrite ?(lookup_insert_ne _ "savedAt" "id") by discriminate;
      (split; [exact E | intros H; exact H]).
Qed.

Lemma prepared_fields (s : obj) (w : World) :
  prepared env s w !! "id"
  = (if falsy (s !! "id")
     then Some (JsStr (stamp env (tick w) ++ "-" ++ random env (tick w)))
     else s !! "id")
  /\ prepared env s w !! "savedAt"
     = (if falsy (s !! "savedAt")
        then Some (JsStr (iso env (if falsy (s !! "id") then S (tick w) else tick w)))
        else s !! "savedAt").
Proof.
  unfold prepared. destruct (falsy (s !! "id")) eqn:E.
  - rewrite (lookup_insert_ne _ "id" "savedAt") by discriminate.
    destruct (falsy (s !! "savedAt")) eqn:F.
    + rewrite (lookup_insert_ne _ "savedAt" "id") by discriminate.
      rewrite !lookup_insert_eq. auto.
    + rewrite lookup_insert_eq, (lookup_insert_ne _ "id" "savedAt") by discriminate. auto.
  - destruct (falsy (s !! "savedAt")) eqn:F.
    + rewrite (lookup_insert_ne _ "savedAt" "id") by discriminate.
      rewrite lookup_insert_eq. auto.
    + auto.
Qed.

Lemma prepared_other (s : obj) (w : World) (k : string) :
  k <> "id" -> k <> "savedAt" -> prepared env s w !! k = s !! k.
Proof.
  intros H1 H2. unfold prepared. destruct (falsy (s !! "id")).
  - match goal with |- context [if ?b then _ else _] => destruct b end;
      rewrite ?(lookup_insert_ne _ "savedAt" k) by congruence;
      rewrite ?(lookup_insert_ne _ "id" k) by congruence; reflexivity.
  - match goal with |- context [if ?b then _ else _] => destruct b end;
      rewrite ?(lookup_insert_ne _ "savedAt" k) by congruence; reflexivity.
Qed.

(** *** What the medium hands back as it was *)

Lemma kept_insert_text (o : obj) (k text : string) :
  kept_by_json o -> kept_by_json (<[k := JsStr text]> o).
Proof.
  unfold kept_by_json. intros H. rewrite fmap_insert, H. reflexivity.
Qed.

Lemma kept_insert (o : obj) (k : string) (v : json) :
  carried v = v -> kept_by_json o -> kept_by_json (<[k := v]> o).
Proof.
  unfold kept_by_json. intros Hv H. rewrite fmap_insert, Hv, H. reflexivity.
Qed.

Lemma kept_singleton (k : string) (v : json) :
  carried v = v -> kept_by_json {[ k := v ]}.
Proof.
  unfold kept_by_json. intros Hv. rewrite map_fmap_singleton, Hv. reflexivity.
Qed.

Lemma kept_spread (a b : obj) :
  kept_by_json a -> kept_by_json b -> kept_by_json (spread a b).
Proof.
  unfold kept_by_json, spread. intros Ha Hb. rewrite map_fmap_union, Ha, Hb.
  reflexivity.
Qed.

Lemma kept_prepared (s : obj) (w : World) :
  kept_by_json s -> kept_by_json (prepared env s w).
Proof.
  intros H. unfold prepared.
  destruct (falsy (s !! "id"));
    match goal with |- context [if ?b then _ else _] => destruct b end;
    repeat apply kept_insert_text; exact H.
Qed.

Lemma kept_upsert (s : obj) (l : list obj) :
  kept_by_json s -> Forall kept_by_json l -> Forall kept_by_json (upsert s l).
Proof.
  intros Hs Hl. unfold upsert. destruct (findIndex _ l) as [i|].
  - apply Forall_insert; assumption.
  - apply Forall_app. split; [exact Hl | constructor; [exact Hs | constructor]].
Qed.

(** X6. Saving and reading back. On an available medium whose scenarios key
    parses, [saveScenario] returns true; the scenario it stores is the one
    handed over, with a generated id where the id was missing or falsy, and
    the time of the clock where the time of saving was; the id it is stored
    under is truthy; [getScenario] of that id returns it; [getScenario] of
    any other id returns what it returned before; and the number of
    scenarios stays when a scenario had that id, which is then replaced;
    otherwise the scenario is added at the end. The id must not be an array
    or an object, and the scenario and the scenarios in the store hold no
    [NaN], no infinity and no negative zero, which the medium would hand
    back as [null] and as [0]; the scenarios in the store are then such
    again. *)
Theorem save_then_get (s : obj) (w : World) :
  available w = true -> scenarios w <> Corrupt ->
  comparable (s !! "id") = true ->
  kept_by_json s ->
  Forall kept_by_json (getScenarios w) ->
  fst (saveScenario env s w) = true
  /\ prepared env s w !! "id"
     = (if falsy (s !! "id")
        then Some (JsStr (stamp env (tick w) ++ "-" ++ random env (tick w)))
        else s !! "id")
  /\ prepared env s w !! "savedAt"
     = (if falsy (s !! "savedAt")
        then Some (JsStr (iso env (if falsy (s !! "id") then S (tick w) else tick w)))
        else s !! "savedAt")
  /\ falsy (prepared env s w !! "id") = false
  /\ (forall k, k <> "id" -> k <> "savedAt" -> prepared env s w !! k = s !! k)
  /\ getScenario (prepared env s w !! "id") (snd (saveScenario env s w))
     = Some (prepared env s w)
  /\ (forall id', strict_eq (prepared env s w !! "id") id' = false ->
        getScenario id' (snd (saveScenario env s w)) = getScenario id' w)
  /\ match getScenario (prepared env s w !! "id") w with
     | None =>
         getScenarios (snd (saveScenario env s w)) = getScenarios w ++ [prepared env s w]
     | Some _ =>
         length (getScenarios (snd (saveScenario env s w))) = length (getScenarios w)
     end
  /\ Forall kept_by_json (getScenarios (snd (saveScenario env s w))).
Proof.
  intros Ha Hc Hcmp Hks Hkw.
  destruct (saveScenario_stored s w Ha Hc) as (Hr & Ha' & Hs' & _).
  destruct (prepared_id s w) as [Ht Hcmp'].
  assert (Hg : getScenarios (snd (saveScenario env s w))
               = upsert (prepared env s w) (stored_scenarios w)).
  { rewrite (getScenarios_stored _ Ha'). unfold stored_scenarios at 1.
    rewrite Hs'. reflexivity. }
  split; [exact Hr|]. split; [apply prepared_fields|]. split; [apply prepared_fields|].
  split; [exact Ht|]. split; [apply prepared_other|].
  rewrite (getScenarios_stored _ Ha) in Hkw.
  unfold getScenario. rewrite Hg, (getScenarios_stored _ Ha).
  split; [|split; [|split]].
  - apply find_upsert_same, strict_eq_refl; auto.
  - intros id' Hid. apply find_upsert_other, Hid.
  - unfold upsert.
    pose proof (findIndex_find
                  (fun e : obj => strict_eq (e !! "id") (prepared env s w !! "id"))
                  (stored_scenarios w)) as F.
    destruct (findIndex _ (stored_scenarios w)) as [i|].
    + destruct F as (x & _ & -> & _). apply length_insert.
    + rewrite F. reflexivity.
  - apply kept_upsert; [apply kept_prepared, Hks | exact Hkw].
Qed.

(** *** The ids of the scenarios stay unique *)

Lemma In_upsert (s e' : obj) (l : list obj) :
  In e' (upsert s l) -> e' = s \/ In e' l.
Proof.
  induction l as [|e r IH].
  - cbn. intros [<-|[]]. left. reflexivity.
  - rewrite upsert_cons. destruct (strict_eq (e !! "id") (s !! "id")).
    + intros [<-|H]; [left; reflexivity | right; right; exact H].
    + intros [<-|H]; [right; left; reflexivity|].
      destruct (IH H) as [->|H']; [left; reflexivity | right; right; exact H'].
Qed.

Lemma upsert_unique (s : obj) (l : list obj) :
  falsy (s !! "id") = false -> ids_unique l -> ids_unique (upsert s l).
Proof.
  intros Ht [Hd Hf]. split.
  - clear Hf. induction l as [|e r IH].
    + cbn. split; [intros s' []|exact I].
    + destruct Hd as [He Hr]. rewrite upsert_cons.
      destruct (strict_eq (e !! "id") (s !! "id")) eqn:E.
      * split; [|exact Hr]. intros e' He'.
        destruct (strict_eq (s !! "id") (e' !! "id")) eqn:F; [|reflexivity].
        rewrite <- (He e' He'). symmetry. eapply strict_eq_trans; eassumption.
      * split; [|apply IH, Hr]. intros e' He'.
        destruct (In_upsert _ _ _ He') as [->|Hin]; [exact E | apply He, Hin].
  - intros e' He'. destruct (In_upsert _ _ _ He') as [->|Hin]; [exact Ht | apply Hf, Hin].
Qed.

Lemma ids_unique_ext (l l' : list obj) :
  ids l = ids l' -> ids_unique l -> ids_unique l'.
Proof.
  unfold ids. revert l'.
  induction l as [|e r IH]; intros [|e' r'] H; try discriminate.
  - intros _. split; [exact I | intros s []].
  - cbn [map] in H. injection H as He Hr. intros [[Hd Hdr] Hf].
    destruct (IH r' Hr) as [Hd' Hf'].
    { split; [exact Hdr|]. intros s Hs. apply Hf. right. exact Hs. }
    split; [split; [|exact Hd']|].
    + intros s' Hs'. rewrite <- He.
      assert (Hs2 : In (s' !! "id") (map (fun o : obj => o !! "id") r)).
      { rewrite Hr. apply (in_map (fun o : obj => o !! "id")), Hs'. }
      apply in_map_iff in Hs2 as (s0 & <- & Hs0). apply Hd, Hs0.
    + intros s [<-|Hs]; [rewrite <- He; apply Hf; left; reflexivity | apply Hf', Hs].
Qed.

Lemma ids_unique_filter (p : obj -> bool) (l : list obj) :
  ids_unique l -> ids_unique (List.filter p l).
Proof.
  intros [Hd Hf]. split.
  - clear Hf. induction l as [|e r IH]; [exact I|].
    destruct Hd as [He Hr]. cbn [List.filter]. destruct (p e).
    + split; [|apply IH, Hr]. intros s' Hs'. apply He.
      apply filter_In in Hs'. apply Hs'.
    + apply IH, Hr.
  - intros s Hs. apply Hf. apply filter_In in Hs. apply Hs.
Qed.

Lemma ids_unique_nil : ids_unique [].
Proof. split; [exact I | intros s []]. Qed.

Lemma saveScenario_failed (s : obj) (w : World) :
  available w = false \/ scenarios w = Corrupt ->
  saveScenario env s w = (false, w).
Proof.
  unfold saveScenario, isStorageAvailable. intros [->| ->]; [reflexivity|].
  destruct (available w); reflexivity.
Qed.

Lemma saveScenario_unique (s : obj) (w : World) :
  ids_unique (stored_scenarios w) ->
  ids_unique (stored_scenarios (snd (saveScenario env s w))).
Proof.
  intros H.
  destruct (available w) eqn:Ha;
    [|rewrite saveScenario_failed by (left; exact Ha); exact H].
  destruct (scenarios w) eqn:Hs.
  1,2: destruct (saveScenario_stored s w Ha) as (_ & _ & Hs' & _);
       [rewrite Hs; discriminate|];
       unfold stored_scenarios at 1; rewrite Hs';
       apply upsert_unique; [apply prepared_id | exact H].
  rewrite saveScenario_failed by (right; exact Hs). exact H.
Qed.

Lemma getScenarios_cases (w : World) :
  getScenarios w = stored_scenarios w \/ getScenarios w = [].
Proof.
  unfold getScenarios, isStorageAvailable, stored_scenarios.
  destruct (available w); cbn [negb]; [|right; reflexivity].
  destruct (scenarios w); auto.
Qed.

Lemma updateScenario_unique (id : option json) (u : obj) (w : World) :
  u !! "id" = None ->
  ids_unique (stored_scenarios w) ->
  ids_unique (stored_scenarios (snd (updateScenario env id u w))).
Proof.
  intros Hu H. unfold updateScenario.
  destruct (findIndex _ (getScenarios w)) as [i|]; [|exact H].
  destruct (getScenarios w !! i) as [old|] eqn:Hold; [|exact H].
  cbn [isoNow snd set_scenarios stored_scenarios scenarios].
  assert (Hg : ids_unique (getScenarios w)).
  { destruct (getScenarios_cases w) as [-> | ->]; [exact H | apply ids_unique_nil]. }
  revert Hg. apply ids_unique_ext.
  unfold ids. rewrite list_fmap_insert.
  symmetry. apply list_insert_id. rewrite list_lookup_fmap, Hold. cbn.
  f_equal. rewrite lookup_insert_ne by discriminate.
  unfold spread. rewrite lookup_union_r by exact Hu. reflexivity.
Qed.

Lemma run_unique (c : command) (w : World) :
  keeps_ids c ->
  ids_unique (stored_scenarios w) ->
  ids_unique (stored_scenarios (run env c w)).
Proof.
  intros Hk H. destruct c; cbn [run keeps_ids] in *.
  - apply saveScenario_unique, H.
  - apply updateScenario_unique; assumption.
  - apply updateScenario_unique; [|exact H]. apply lookup_singleton_ne. discriminate.
  - unfold deleteScenario. destruct (negb _); [exact H|].
    cbn [snd set_scenarios stored_scenarios scenarios].
    apply ids_unique_filter.
    destruct (getScenarios_cases w) as [-> | ->]; [exact H | apply ids_unique_nil].
  - unfold deleteAllScenarios. destruct (negb _); [exact H | apply ids_unique_nil].
  - destruct (addToHistory_frame env calculation w) as (_ & Hs & _).
    unfold stored_scenarios. rewrite Hs. exact H.
  - unfold clearHistory. destruct (negb _); exact H.
  - unfold deleteHistoryItem. destruct (negb _); exact H.
  - unfold saveSettings. destruct (negb _); exact H.
  - unfold resetSettings. destruct (negb _); exact H.
  - unfold saveLastCalculation. destruct (negb _); exact H.
  - exact H.
  - unfold importData. destruct jsonString as [why|data]; [exact H|].
    destruct (doc_scenarios data) as [l|]; [|exact H].
    destruct (doc_settings data) as [o|]; [|exact H].
    destruct (has_version data && has_history data); [|exact H].
    cbn [snd].
    assert (B : ids_unique (stored_scenarios
                  (fold_left (fun w sc => snd (saveScenario env sc w)) l w))).
    { revert w H. induction l as [|sc l IH]; intros w H; [exact H|].
      cbn [fold_left]. apply IH, saveScenario_unique, H. }
    unfold saveSettings. destruct (negb _); exact B.
  - unfold clearAllData. destruct (negb _); [exact H | apply ids_unique_nil].
Qed.

Lemma saveScenario_kept (s : obj) (w : World) :
  kept_by_json s ->
  Forall kept_by_json (stored_scenarios w) ->
  Forall kept_by_json (stored_scenarios (snd (saveScenario env s w))).
Proof.
  intros Hs H.
  destruct (available w) eqn:Ha;
    [|rewrite saveScenario_failed by (left; exact Ha); exact H].
  destruct (scenarios w) eqn:Hsc.
  1,2: destruct (saveScenario_stored s w Ha) as (_ & _ & Hs' & _);
       [rewrite Hsc; discriminate|];
       unfold stored_scenarios at 1; rewrite Hs';
       apply kept_upsert; [apply kept_prepared, Hs | exact H].
  rewrite saveScenario_failed by (right; exact Hsc). exact H.
Qed.

Lemma save_all_kept (l : list obj) (w : World) :
  Forall kept_by_json l ->
  Forall kept_by_json (stored_scenarios w) ->
  Forall kept_by_json
    (stored_scenarios (fold_left (fun w s => snd (saveScenario env s w)) l w)).
Proof.
  intros Hl. revert w. induction Hl as [|s l Hs Hl IH]; intros w H; [exact H|].
  cbn [fold_left]. apply IH, saveScenario_kept; assumption.
Qed.

Lemma kept_filter (p : obj -> bool) (l : list obj) :
  Forall kept_by_json l -> Forall kept_by_json (List.filter p l).
Proof.
  intros H. induction H as [|e r He Hr IH]; [constructor|].
  cbn [List.filter]. destruct (p e); [constructor; assumption | exact IH].
Qed.

Lemma getScenarios_kept (w : World) :
  Forall kept_by_json (stored_scenarios w) -> Forall kept_by_json (getScenarios w).
Proof.
  intros H. destruct (getScenarios_cases w) as [-> | ->]; [exact H | constructor].
Qed.

Lemma updateScenario_kept (id : option json) (u : obj) (w : World) :
  kept_by_json u ->
  Forall kept_by_json (stored_scenarios w) ->
  Forall kept_by_json (stored_scenarios (snd (updateScenario env id u w))).
Proof.
  intros Hu H. unfold updateScenario.
  destruct (findIndex _ (getScenarios w)) as [i|]; [|exact H].
  destruct (getScenarios w !! i) as [old|] eqn:Hold; [|exact H].
  cbn [isoNow snd set_scenarios stored_scenarios scenarios].
  pose proof (getScenarios_kept w H) as Hg.
  apply Forall_insert; [exact Hg|].
  apply kept_insert_text, kept_spread; [|exact Hu].
  apply (Forall_lookup_1 _ _ _ _ Hg Hold).
Qed.

Lemma run_kept (c : command) (w : World) :
  sends_kept c ->
  Forall kept_by_json (stored_scenarios w) ->
  Forall kept_by_json (stored_scenarios (run env c w)).
Proof.
  intros Hk H. destruct c; cbn [run sends_kept] in *.
  - apply saveScenario_kept; assumption.
  - apply updateScenario_kept; assumption.
  - apply updateScenario_kept; [|exact H]. reflexivity.
  - unfold deleteScenario. destruct (negb _); [exact H|].
    cbn [snd set_scenarios stored_scenarios scenarios].
    apply kept_filter, getScenarios_kept, H.
  - unfold deleteAllScenarios. destruct (negb _); [exact H | constructor].
  - destruct (addToHistory_frame env calculation w) as (_ & Hs & _).
    unfold stored_scenarios. rewrite Hs. exact H.
  - unfold clearHistory. destruct (negb _); exact H.
  - unfold deleteHistoryItem. destruct (negb _); exact H.
  - unfold saveSettings. destruct (negb _); exact H.
  - unfold resetSettings. destruct (negb _); exact H.
  - unfold saveLastCalculation. destruct (negb _); exact H.
  - exact H.
  - unfold importData. destruct jsonString as [why|data]; [exact H|].
    destruct (doc_scenarios data) as [l|]; [|exact H].
    destruct (doc_settings data) as [o|]; [|exact H].
    destruct (has_version data && has_history data); [|exact H].
    cbn [snd]. cbn [default] in Hk.
    pose proof (save_all_kept l w Hk H) as B.
    unfold saveSettings. destruct (negb _); exact B.
  - unfold clearAllData. destruct (negb _); [exact H | constructor].
Qed.

(** X7. The ids of the scenarios stay unique. From a store in which every
    scenario has a truthy id and no two scenarios share an id, every sequence
    of commands leaves such a store, as long as no update patches the [id]
    itself. The scenarios of the store and those the commands hand over hold
    no [NaN], no infinity and no negative zero, which the medium would hand
    back as [null] and as [0]; the scenarios of the store it leaves are such
    again. *)
Theorem scenario_ids_stay_unique (cs : list command) (w : World) :
  Forall keeps_ids cs ->
  Forall sends_kept cs ->
  ids_unique (stored_scenarios w) ->
  Forall kept_by_json (stored_scenarios w) ->
  ids_unique (stored_scenarios (run_all env cs w))
  /\ Forall kept_by_json (stored_scenarios (run_all env cs w)).
Proof.
  intros Hk. revert w.
  induction Hk as [|c cs Hc Hcs IH]; intros w Hs H K; [split; assumption|].
  apply Forall_cons_1 in Hs as [Hs1 Hs].
  cbn [run_all fold_left]. apply IH; [exact Hs | apply run_unique | apply run_kept];
    assumption.
Qed.

(** *** Updating and renaming a scenario *)

Lemma find_insert_first {A : Type} (p : A -> bool) (l : list A) (i : nat) (new : A) :
  findIndex p l = Some i -> p new = true -> find p (<[i := new]> l) = Some new.
Proof.
  revert i. induction l as [|a r IH]; intros i; [discriminate|].
  cbn [findIndex]. destruct (p a) eqn:E.
  - intros [= <-] Hn. cbn. rewrite Hn. reflexivity.
  - destruct (findIndex p r) as [j|]; [|discriminate].
    intros [= <-] Hn. cbn. rewrite E. apply IH; auto.
Qed.

Lemma find_insert_other {A : Type} (q : A -> bool) (l : list A) (i : nat) (old new : A) :
  l !! i = Some old -> q old = false -> q new = false ->
  find q (<[i := new]> l) = find q l.
Proof.
  revert i. induction l as [|a r IH]; intros [|i]; try discriminate.
  - intros [= ->] Ho Hn. cbn. rewrite Ho, Hn. reflexivity.
  - intros Hl Ho Hn. cbn. destruct (q a); [reflexivity|]. apply (IH i); auto.
Qed.

Lemma found_available (id : option json) (w : World) (old : obj) :
  getScenario id w = Some old -> available w = true.
Proof.
  unfold getScenario, getScenarios, isStorageAvailable.
  destruct (available w); [reflexivity | discriminate].
Qed.

Lemma found_index (id : option json) (u : obj) (w : World) (old : obj) :
  getScenario id w = Some old ->
  exists i,
    findIndex (fun s : obj => strict_eq (s !! "id") id) (getScenarios w) = Some i
    /\ getScenarios w !! i = Some old
    /\ strict_eq (old !! "id") id = true
    /\ updateScenario env id u w
       = (true,
          set_scenarios
            (Stored (<[i := <["updatedAt" := JsStr (iso env (tick w))]> (spread old u)]>
                       (getScenarios w)))
            (advance w)).
Proof.
  intros H. unfold getScenario in H. unfold updateScenario.
  pose proof (findIndex_find (fun s : obj => strict_eq (s !! "id") id) (getScenarios w)) as F.
  destruct (findIndex _ (getScenarios w)) as [i|]; [|congruence].
  destruct F as (x & Hx & Hf & Hp). rewrite H in Hf. injection Hf as <-.
  exists i. rewrite Hx. auto.
Qed.

Lemma updated_id (old u : obj) (now : string) :
  u !! "id" = None ->
  (<["updatedAt" := JsStr now]> (spread old u)) !! "id" = old !! "id".
Proof.
  intros Hu. rewrite lookup_insert_ne by discriminate.
  unfold spread. apply lookup_union_r, Hu.
Qed.

Lemma updated_read (id : option json) (u : obj) (w : World) (old : obj) :
  getScenario id w = Some old ->
  u !! "id" = None ->
  fst (updateScenario env id u w) = true
  /\ getScenario id (snd (updateScenario env id u w))
     = Some (<["updatedAt" := JsStr (iso env (tick w))]> (spread old u)).
Proof.
  intros H Hu. pose proof (found_available _ _ _ H) as Ha.
  destruct (found_index id u w old H) as (i & Hi & Hold & Hid & ->).
  cbn [fst snd]. split; [reflexivity|].
  unfold getScenario, getScenarios at 1, isStorageAvailable.
  cbn [available set_scenarios advance scenarios parse_list]. rewrite Ha. cbn [negb].
  apply find_insert_first; [exact Hi|]. cbv beta. rewrite updated_id by exact Hu. exact Hid.
Qed.

Lemma renamed_fields (old : obj) (newName now : string) (k : string) :
  let new := <["updatedAt" := JsStr now]> (spread old {[ "name" := JsStr newName ]}) in
  new !! "name" = Some (JsStr newName)
  /\ new !! "updatedAt" = Some (JsStr now)
  /\ (k <> "name" -> k <> "updatedAt" -> new !! k = old !! k).
Proof.
  cbv zeta. unfold spread. split; [|split].
  - rewrite lookup_insert_ne by discriminate.
    apply lookup_union_Some_l, lookup_singleton_eq.
  - apply lookup_insert_eq.
  - intros Hn Hu. rewrite lookup_insert_ne by congruence.
    apply lookup_union_r, lookup_singleton_ne. congruence.
Qed.

(** X8. Updating a scenario that is there. When a scenario has the id, and the
    patch has no [id] of its own, [updateScenario] returns true;
    [getScenario] of the id then returns the old scenario overlaid by the
    patch, with the time of the clock as [updatedAt]; every other id reads as
    before; the number of scenarios is the same, and the history, the
    settings and the last calculation are not written. The patch and the
    scenarios in the store hold no [NaN], no infinity and no negative zero,
    which the medium would hand back as [null] and as [0]; the scenarios in
    the store are then such again. *)
Theorem updateScenario_found (id : option json) (u : obj) (w : World) (old : obj) :
  getScenario id w = Some old ->
  u !! "id" = None ->
  kept_by_json u ->
  Forall kept_by_json (getScenarios w) ->
  fst (updateScenario env id u w) = true
  /\ getScenario id (snd (updateScenario env id u w))
     = Some (<["updatedAt" := JsStr (iso env (tick w))]> (spread old u))
  /\ (forall id', strict_eq id id' = false ->
        getScenario id' (snd (updateScenario env id u w)) = getScenario id' w)
  /\ length (getScenarios (snd (updateScenario env id u w))) = length (getScenarios w)
  /\ history (snd (updateScenario env id u w)) = history w
  /\ settings (snd (updateScenario env id u w)) = settings w
  /\ lastCalculation (snd (updateScenario env id u w)) = lastCalculation w
  /\ Forall kept_by_json (getScenarios (snd (updateScenario env id u w))).
Proof.
  intros H Hu Hku Hkw. pose proof (found_available _ _ _ H) as Ha.
  destruct (found_index id u w old H) as (i & Hi & Hold & Hid & ->).
  cbn [fst snd].
  set (new := <["updatedAt" := JsStr (iso env (tick w))]> (spread old u)).
  assert (Hnew : new !! "id" = old !! "id") by apply updated_id, Hu.
  assert (Hg : getScenarios (set_scenarios (Stored (<[i := new]> (getScenarios w))) (advance w))
               = <[i := new]> (getScenarios w)).
  { unfold getScenarios at 1, isStorageAvailable. cbn. rewrite Ha. reflexivity. }
  split; [reflexivity|]. unfold getScenario. rewrite Hg.
  split; [|split; [|split; [|split; [|split; [|split]]]]].
  - apply find_insert_first; [exact Hi|]. cbv beta. rewrite Hnew. exact Hid.
  - intros id' Hid'.
    assert (Ho : strict_eq (old !! "id") id' = false).
    { destruct (strict_eq (old !! "id") id') eqn:E; [|reflexivity].
      assert (strict_eq id id' = true)
        by (eapply strict_eq_trans; [apply strict_eq_sym, Hid | exact E]).
      congruence. }
    apply (find_insert_other _ _ i old new Hold); cbv beta; [|rewrite Hnew]; exact Ho.
  - apply length_insert.
  - reflexivity.
  - reflexivity.
  - reflexivity.
  - apply Forall_insert; [exact Hkw|].
    apply kept_insert_text, kept_spread; [|exact Hku].
    apply (Forall_lookup_1 _ _ _ _ Hkw Hold).
Qed.

(** X9. Renaming a scenario that is there. [renameScenario] returns true, and
    the scenario then read under the id has the new name and the time of the
    clock as [updatedAt], and every other property as before. *)
Theorem renameScenario_found (id : option json) (newName : string) (w : World) (old : obj) :
  getScenario id w = Some old ->
  fst (renameScenario env id newName w) = true
  /\ exists new,
       getScenario id (snd (renameScenario env id newName w)) = Some new
       /\ new !! "name" = Some (JsStr newName)
       /\ new !! "updatedAt" = Some (JsStr (iso env (tick w)))
       /\ forall k, k <> "name" -> k <> "updatedAt" -> new !! k = old !! k.
Proof.
  intros H. unfold renameScenario.
  destruct (updated_read id {[ "name" := JsStr newName ]} w old H) as (Hr & Hg).
  { apply lookup_singleton_ne. discriminate. }
  split; [exact Hr|]. eexists. split; [exact Hg|].
  split; [|split].
  - apply (renamed_fields old newName (iso env (tick w)) "").
  - apply (renamed_fields old newName (iso env (tick w)) "").
  - intros k. apply (renamed_fields old newName (iso env (tick w)) k).
Qed.

(** X10. Updating a scenario that is not there. When no scenario has the id, be
    it that the medium is unavailable or the key does not parse,
    [updateScenario] and [renameScenario] return false and leave the
    store as it was, the clock not read. *)
Theorem updateScenario_missing (id : option json) (u : obj) (newName : string) (w : World) :
  getScenario id w = None ->
  updateScenario env id u w = (false, w)
  /\ renameScenario env id newName w = (false, w).
Proof.
  intros H. unfold renameScenario, updateScenario. unfold getScenario in H.
  pose proof (findIndex_find (fun s : obj => strict_eq (s !! "id") id) (getScenarios w)) as F.
  destruct (findIndex _ (getScenarios w)) as [i|]; [|split; reflexivity].
  destruct F as (x & _ & Hf & _). congruence.
Qed.

(** *** Deleting *)

Lemma find_filter_removed (id : option json) (l : list obj) :
  find (fun e : obj => strict_eq (e !! "id") id)
    (List.filter (fun e : obj => negb (strict_eq (e !! "id") id)) l) = None.
Proof.
  induction l as [|e r IH]; [reflexivity|].
  cbn [List.filter]. destruct (strict_eq (e !! "id") id) eqn:E; cbn [negb find];
    [|rewrite E]; exact IH.
Qed.

Lemma find_filter_other (id id' : option json) (l : list obj) :
  strict_eq id id' = false ->
  find (fun e : obj => strict_eq (e !! "id") id')
    (List.filter (fun e : obj => negb (strict_eq (e !! "id") id)) l)
  = find (fun e : obj => strict_eq (e !! "id") id') l.
Proof.
  intros H. induction l as [|e r IH]; [reflexivity|].
  cbn [List.filter find]. destruct (strict_eq (e !! "id") id) eqn:E; cbn [negb find].
  - destruct (strict_eq (e !! "id") id') eqn:F; [|exact IH].
    assert (strict_eq id id' = true)
      by (eapply strict_eq_trans; [apply strict_eq_sym, E | exact F]).
    congruence.
  - rewrite IH. reflexivity.
Qed.

Lemma filter_sublist_of {A : Type} (p : A -> bool) (l : list A) :
  sublist (List.filter p l) l.
Proof.
  induction l as [|a r IH]; [constructor|].
  cbn [List.filter]. destruct (p a); [apply sublist_skip | apply sublist_cons]; exact IH.
Qed.

Lemma getHistory_cases (w : World) :
  getHistory None w = history_entries w \/ getHistory None w = [].
Proof.
  unfold getHistory, isStorageAvailable, history_entries.
  destruct (available w); cbn [negb]; [|right; reflexivity].
  destruct (history w); auto.
Qed.

(** X11. Deleting a scenario. On an available medium [deleteScenario] returns
    true, whether or not a scenario had the id; afterwards no scenario is
    read under the id, every other id reads as before, and the scenarios key
    parses, also when it did not before. The history is not written: the
    entries of the deleted scenario stay. *)
Theorem deleteScenario_effect (id : option json) (w : World) :
  available w = true ->
  fst (deleteScenario id w) = true
  /\ getScenario id (snd (deleteScenario id w)) = None
  /\ (forall id', strict_eq id id' = false ->
        getScenario id' (snd (deleteScenario id w)) = getScenario id' w)
  /\ sublist (getScenarios (snd (deleteScenario id w))) (getScenarios w)
  /\ scenarios (snd (deleteScenario id w)) <> Corrupt
  /\ history (snd (deleteScenario id w)) = history w.
Proof.
  intros Ha. unfold deleteScenario, isStorageAvailable. rewrite Ha. cbn [negb fst snd].
  assert (Hg : forall l, getScenarios (set_scenarios (Stored l) w) = l).
  { intros l. unfold getScenarios, isStorageAvailable. cbn. rewrite Ha. reflexivity. }
  unfold getScenario. rewrite Hg.
  split; [reflexivity|]. split; [apply find_filter_removed|].
  split; [intros id' H; apply find_filter_other, H|].
  split; [apply filter_sublist_of|]. split; [discriminate | reflexivity].
Qed.


(** *** Reading and searching the history *)

(** X13. The limit of [getHistory]. A limit above 0 gives the first entries of
    the whole history, that many at most; a limit of 0 is falsy and limits
    nothing: it gives the whole history, not the empty list. *)
Theorem getHistory_limit (n : nat) (w : World) :
  getHistory (Some n) w
  = (if Nat.eqb n 0 then getHistory None w else take n (getHistory None w))
  /\ (n <> 0 -> length (getHistory (Some n) w) <= n)
  /\ getHistory (Some 0) w = getHistory None w
  /\ getHistory (Some n) w `prefix_of` getHistory None w.
Proof.
  assert (E : getHistory (Some n) w
              = if Nat.eqb n 0 then getHistory None w else take n (getHistory None w)).
  { unfold getHistory. destruct (negb _); [destruct n; reflexivity|].
    destruct (parse_list (history w)); destruct n; reflexivity. }
  split; [exact E|]. split; [|split].
  - intros Hn. rewrite E. destruct n; [congruence|]. cbn [Nat.eqb].
    rewrite length_take. lia.
  - unfold getHistory. destruct (negb _); [reflexivity|].
    destruct (parse_list (history w)); reflexivity.
  - rewrite E. destruct (Nat.eqb n 0); [reflexivity | apply prefix_take].
Qed.

Lemma lowered_readable (v : option json) :
  lowered v
  = if readable v then Returns (text_of v)
    else Throws "TypeError: toLowerCase is not a function".
Proof.
  destruct v as [[]|]; cbn; try reflexivity;
    match goal with |- context [if ?b then _ else _] => destruct b end; reflexivity.
Qed.

Lemma search_match_searchable (lowerQuery : string) (item : obj) :
  search_match lowerQuery item
  = if searchable item then Returns (matches lowerQuery item)
    else Throws "TypeError: toLowerCase is not a function".
Proof.
  unfold search_match, searchable, matches, searched_texts.
  cbn [forallb existsb]. rewrite !lowered_readable.
  destruct (readable (item !! "name")); cbn [bind andb]; [|reflexivity].
  destruct (readable (item !! "description")); cbn [bind andb]; [|reflexivity].
  destruct (readable _); cbn [bind andb]; [|reflexivity].
  rewrite orb_false_r, orb_assoc. reflexivity.
Qed.


Lemma filter_throwing_throws {A : Type} (p : A -> completion bool) (ok : A -> bool)
    (what : string) (l : list A) :
  (forall x, ok x = false -> p x = Throws what) ->
  (forall x, ok x = true -> exists b, p x = Returns b) ->
  forallb ok l = false ->
  filter_throwing p l = Throws what.
Proof.
  intros Hbad Hgood. induction l as [|a r IH]; [discriminate|].
  cbn [forallb filter_throwing]. destruct (ok a) eqn:E.
  - destruct (Hgood a E) as [b ->]. cbn [andb bind]. intros H.
    rewrite (IH H). reflexivity.
  - intros _. rewrite (Hbad a E). reflexivity.
Qed.




(** X15. Searching a history that cannot be read. When the name, the
    description or the crop type of some entry is neither a string nor
    falsy, a number as a name for one, [searchHistory] throws for every
    query: the call of [toLowerCase] is not guarded. *)
Theorem searchHistory_throws (query : string) (w : World) :
  forallb searchable (getHistory None w) = false ->
  exists what, searchHistory query w = Throws what.
Proof.
  intros H. unfold searchHistory. eexists.
  apply (filter_throwing_throws _ searchable); [| |exact H].
  - intros x Hx. rewrite search_match_searchable, Hx. reflexivity.
  - intros x Hx. rewrite search_match_searchable, Hx. eexists. reflexivity.
Qed.

(** *** Which key a command writes *)

Ltac frame_cases :=
  repeat match goal with |- _ /\ _ => split end;
  intros; try discriminate; try reflexivity; auto.

Lemma saveScenario_frame (s : obj) (w : World) :
  available (snd (saveScenario env s w)) = available w
  /\ settings (snd (saveScenario env s w)) = settings w
  /\ lastCalculation (snd (saveScenario env s w)) = lastCalculation w.
Proof.
  destruct (available w) eqn:Ha;
    [|rewrite saveScenario_failed by (left; exact Ha); auto].
  destruct (scenarios w) eqn:Hs.
  1,2: destruct (saveScenario_stored s w Ha) as (_ & Ha' & _ & H3 & H4);
       [rewrite Hs; discriminate | auto].
  rewrite saveScenario_failed by (right; exact Hs). auto.
Qed.

Lemma save_all_frame (l : list obj) (w : World) :
  let w' := fold_left (fun w s => snd (saveScenario env s w)) l w in
  available w' = available w /\ settings w' = settings w
  /\ lastCalculation w' = lastCalculation w.
Proof.
  revert w. induction l as [|s l IH]; intros w; [cbn; auto|].
  cbn [fold_left]. cbv zeta in *.
  destruct (IH (snd (saveScenario env s w))) as (A & B & C).
  destruct (saveScenario_frame s w) as (A' & B' & C').
  rewrite A, B, C. auto.
Qed.

Lemma run_frame (c : command) (w : World) :
  available (run env c w) = available w
  /\ (writes_scenarios c = false -> scenarios (run env c w) = scenarios w)
  /\ (writes_history c = false -> history (run env c w) = history w)
  /\ (writes_settings c = false -> settings (run env c w) = settings w)
  /\ (writes_lastCalculation c = false -> lastCalculation (run env c w) = lastCalculation w).
Proof.
  destruct c; cbn [run writes_scenarios writes_history writes_settings
                   writes_lastCalculation].
  - destruct (saveScenario_frame scenario w) as (A & B & C).
    frame_cases.
  - unfold updateScenario. destruct (findIndex _ _); [|frame_cases].
    destruct (_ !! _); frame_cases.
  - unfold renameScenario, updateScenario. destruct (findIndex _ _); [|frame_cases].
    destruct (_ !! _); frame_cases.
  - unfold deleteScenario. destruct (negb _); frame_cases.
  - unfold deleteAllScenarios. destruct (negb _); frame_cases.
  - destruct (addToHistory_frame env calculation w) as (A & B & C & D).
    frame_cases.
  - unfold clearHistory. destruct (negb _); frame_cases.
  - unfold deleteHistoryItem. destruct (negb _); frame_cases.
  - unfold saveSettings. destruct (negb _); frame_cases.
  - unfold resetSettings. destruct (negb _); frame_cases.
  - unfold saveLastCalculation. destruct (negb _); frame_cases.
  - frame_cases.
  - unfold importData. destruct jsonString as [why|data]; [frame_cases|].
    destruct (doc_scenarios data) as [l|]; [|frame_cases].
    destruct (doc_settings data) as [o|]; [|frame_cases].
    destruct (has_version data && has_history data); [|frame_cases].
    cbn [snd]. destruct (save_all_frame l w) as (A & B & C). cbv zeta in A, B, C.
    unfold saveSettings. destruct (negb _); cbn [snd set_settings available lastCalculation];
      frame_cases.
  - unfold clearAllData. destruct (negb _); frame_cases.
Qed.

Lemma run_all_keeps {A : Type} (key : World -> A) (writes : command -> bool) :
  (forall c w, writes c = false -> key (run env c w) = key w) ->
  forall cs w, existsb writes cs = false -> key (run_all env cs w) = key w.
Proof.
  intros H. induction cs as [|c cs IH]; intros w Hcs; [reflexivity|].
  cbn [existsb] in Hcs. apply orb_false_elim in Hcs as [Hc Hcs].
  cbn [run_all fold_left]. unfold run_all in IH. rewrite (IH _ Hcs). apply H, Hc.
Qed.

Lemma commands_frame_available (cs : list command) (w : World) :
  available (run_all env cs w) = available w.
Proof.
  revert w. induction cs as [|c cs IH]; intros w; [reflexivity|].
  cbn [run_all fold_left]. unfold run_all in IH. rewrite IH. apply run_frame.
Qed.

(** X16. Which key a command writes. A sequence of commands leaves a key as it
    was unless one of them is a command that writes the key: the scenarios
    are written by saving, updating, renaming, deleting, importing and
    clearing all; the history by saving a scenario, adding, clearing,
    deleting an entry, importing and clearing all; the settings by saving
    and resetting them, importing and clearing all; the last calculation by
    saving it and clearing all. *)
Theorem commands_write_their_keys (cs : list command) (w : World) :
  (existsb writes_scenarios cs = false ->
     scenarios (run_all env cs w) = scenarios w)
  /\ (existsb writes_history cs = false ->
        history (run_all env cs w) = history w)
  /\ (existsb writes_settings cs = false ->
        settings (run_all env cs w) = settings w)
  /\ (existsb writes_lastCalculation cs = false ->
        lastCalculation (run_all env cs w) = lastCalculation w).
Proof.
  repeat match goal with |- _ /\ _ => split end;
    apply run_all_keeps; intros c w0; apply (run_frame c w0).
Qed.

(** X17. The last calculation is kept. On an available medium, what
    [getLastCalculation] returns after [saveLastCalculation] is the
    calculation as JSON carries it, with [null] for [NaN] and the infinities
    and 0 for a negative zero, so the calculation itself when it holds none
    of these; and that also after any commands other than
    [saveLastCalculation] and [clearAllData]. *)
Theorem last_calculation_kept (c : json) (cs : list command) (w : World) :
  available w = true ->
  existsb writes_lastCalculation cs = false ->
  fst (saveLastCalculation c w) = true
  /\ getLastCalculation (run_all env cs (snd (saveLastCalculation c w)))
     = Some (carried c)
  /\ (carried c = c ->
      getLastCalculation (run_all env cs (snd (saveLastCalculation c w))) = Some c).
Proof.
  intros Ha Hcs.
  unfold getLastCalculation, isStorageAvailable.
  rewrite commands_frame_available.
  rewrite (run_all_keeps lastCalculation writes_lastCalculation) by
    (exact Hcs || (intros c0 w0; apply (run_frame c0 w0))).
  unfold saveLastCalculation, isStorageAvailable. rewrite Ha. cbn. rewrite Ha.
  split; [reflexivity|]. split; [reflexivity | intros ->; reflexivity].
Qed.

(** *** A medium that is not available *)

Lemma run_unavailable (c : command) (w : World) :
  available w = false ->
  scenarios (run env c w) = scenarios w /\ history (run env c w) = history w
  /\ settings (run env c w) = settings w
  /\ lastCalculation (run env c w) = lastCalculation w.
Proof.
  intros Ha.
  assert (Hsave : forall l, fold_left (fun w s => snd (saveScenario env s w)) l w = w).
  { induction l as [|s l IH]; [reflexivity|]. cbn [fold_left].
    rewrite saveScenario_failed by (left; exact Ha). exact IH. }
  destruct c; cbn [run];
    unfold renameScenario, updateScenario, getScenarios, deleteScenario,
      deleteAllScenarios, addToHistory, clearHistory, deleteHistoryItem, saveSettings,
      resetSettings, saveLastCalculation, exportData, clearAllData, isStorageAvailable;
    rewrite ?Ha; cbn [negb snd findIndex]; auto.
  - rewrite saveScenario_failed by (left; exact Ha). auto.
  - unfold importData. destruct jsonString as [why|data]; [auto|].
    destruct (doc_scenarios data) as [l|]; [|auto].
    destruct (doc_settings data) as [o|]; [|auto].
    destruct (has_version data && has_history data); [|auto].
    cbn [snd]. rewrite Hsave. unfold saveSettings, isStorageAvailable. rewrite Ha. auto.
Qed.

(** X18. A medium that is not available. Whatever commands run, nothing is
    written; the readers return their defaults, the empty list, the default
    settings and null, and the writers return false. *)
Theorem unavailable_medium (cs : list command) (w : World) :
  available w = false ->
  let w' := run_all env cs w in
  (scenarios w' = scenarios w /\ history w' = history w
   /\ settings w' = settings w /\ lastCalculation w' = lastCalculation w)
  /\ (getScenarios w' = [] /\ (forall limit, getHistory limit w' = [])
      /\ getSettings w' = DEFAULT_SETTINGS /\ getLastCalculation w' = None
      /\ forall id, getScenario id w' = None)
  /\ (forall s, fst (saveScenario env s w') = false)
  /\ (forall id u, fst (updateScenario env id u w') = false)
  /\ (forall id, fst (deleteScenario id w') = false)
  /\ (forall c, fst (addToHistory env c w') = false)
  /\ (forall p, fst (saveSettings p w') = false)
  /\ (forall c, fst (saveLastCalculation c w') = false)
  /\ fst (clearAllData w') = false.
Proof.
  intros Ha. cbv zeta.
  assert (Ha' : available (run_all env cs w) = false)
    by (rewrite commands_frame_available; exact Ha).
  split.
  { clear Ha'. revert w Ha. induction cs as [|c cs IH]; intros w Ha; [cbn; auto|].
    cbn [run_all fold_left].
    destruct (run_unavailable c w Ha) as (A & B & C & D).
    destruct (IH (run env c w)) as (A' & B' & C' & D').
    { rewrite (proj1 (run_frame c w)). exact Ha. }
    unfold run_all in *. repeat split; congruence. }
  set (w' := run_all env cs w) in *. clearbody w'.
  unfold getScenario, updateScenario, getScenarios, getHistory, getSettings,
    getLastCalculation, deleteScenario, addToHistory, saveSettings, saveLastCalculation,
    clearAllData, isStorageAvailable.
  rewrite Ha'. cbn [negb fst find findIndex].
  repeat split; auto.
  intros s. rewrite saveScenario_failed by (left; exact Ha'). reflexivity.
Qed.

(** *** Keys that do not parse *)

(** X19. A scenarios key that does not parse. On an available medium no
    scenario is read; [saveScenario] and [updateScenario] return false and
    write nothing, so that nothing can be saved; [deleteScenario], of any
    id, and [deleteAllScenarios] return true and leave a key that parses,
    after which saving works again. *)
Theorem unparseable_scenarios_key (w : World) :
  available w = true ->
  scenarios w = Corrupt ->
  getScenarios w = []
  /\ (forall s, saveScenario env s w = (false, w))
  /\ (forall id u, updateScenario env id u w = (false, w))
  /\ (forall id, deleteScenario id w = (true, set_scenarios (Stored []) w))
  /\ (forall id s, fst (saveScenario env s (snd (deleteScenario id w))) = true)
  /\ (forall s, fst (saveScenario env s (snd (deleteAllScenarios w))) = true).
Proof.
  intros Ha Hs.
  assert (Hg : getScenarios w = []).
  { unfold getScenarios, isStorageAvailable. rewrite Ha, Hs. reflexivity. }
  assert (Hsave : forall s, saveScenario env s w = (false, w)).
  { intros s. apply saveScenario_failed. right. exact Hs. }
  split; [exact Hg|]. split; [exact Hsave|]. split; [|split; [|split]].
  - intros id u. unfold updateScenario. rewrite Hg. reflexivity.
  - intros id. unfold deleteScenario, isStorageAvailable. rewrite Ha, Hg. reflexivity.
  - intros id s. apply saveScenario_stored.
    + unfold deleteScenario, isStorageAvailable. rewrite Ha. exact Ha.
    + unfold deleteScenario, isStorageAvailable. rewrite Ha. discriminate.
  - intros s. apply saveScenario_stored.
    + unfold deleteAllScenarios, isStorageAvailable. rewrite Ha. exact Ha.
    + unfold deleteAllScenarios, isStorageAvailable. rewrite Ha. discriminate.
Qed.

Lemma addToHistory_unparseable (c : obj) (w : World) :
  history w = Corrupt -> addToHistory env c w = (false, w).
Proof.
  intros H. unfold addToHistory. rewrite H. destruct (negb _); reflexivity.
Qed.



(** X21. A history key that does not parse. On an available medium the
    history reads as empty and [addToHistory] returns false and writes
    nothing; [deleteHistoryItem], of any id, and [clearHistory] return true
    and leave a key that parses, after which adding works again. *)
Theorem unparseable_history_key (w : World) :
  available w = true ->
  history w = Corrupt ->
  (forall limit, getHistory limit w = [])
  /\ (forall c, addToHistory env c w = (false, w))
  /\ (forall id, deleteHistoryItem id w = (true, set_history (Stored []) w))
  /\ (forall id c, fst (addToHistory env c (snd (deleteHistoryItem id w))) = true)
  /\ (forall c, fst (addToHistory env c (snd (clearHistory w))) = true).
Proof.
  intros Ha Hh.
  assert (Hg : forall limit, getHistory limit w = []).
  { intros limit. unfold getHistory, isStorageAvailable. rewrite Ha, Hh. reflexivity. }
  split; [exact Hg|]. split; [intros c; apply addToHistory_unparseable, Hh|].
  split; [|split].
  - intros id. unfold deleteHistoryItem, isStorageAvailable. rewrite Ha, Hg. reflexivity.
  - intros id c. rewrite addToHistory_ok; [reflexivity | |];
      unfold deleteHistoryItem, isStorageAvailable; rewrite Ha;
      [exact Ha | discriminate].
  - intros c. rewrite addToHistory_ok; [reflexivity | |];
      unfold clearHistory, isStorageAvailable; rewrite Ha;
      [exact Ha | discriminate].
Qed.

(** X22. Clearing all data. On an available medium [clearAllData] returns true
    and leaves the four keys empty, whatever they held, text that does not
    parse included: the readers return the empty list, the default settings
    and null, and saving a scenario and adding to the history work. *)
Theorem clearAllData_recovers (w : World) :
  available w = true ->
  let w' := snd (clearAllData w) in
  fst (clearAllData w) = true
  /\ getScenarios w' = []
  /\ (forall limit, getHistory limit w' = [])
  /\ getSettings w' = DEFAULT_SETTINGS
  /\ getLastCalculation w' = None
  /\ (forall s, fst (saveScenario env s w') = true)
  /\ (forall c, fst (addToHistory env c w') = true).
Proof.
  intros Ha. cbv zeta. unfold clearAllData, isStorageAvailable. rewrite Ha.
  cbn [negb fst snd].
  unfold getScenarios, getHistory, getSettings, getLastCalculation, isStorageAvailable.
  cbn [available scenarios history settings lastCalculation negb parse_list].
  repeat match goal with |- _ /\ _ => split end; try reflexivity.
  - intros [[|n]|]; reflexivity.
  - intros s. apply saveScenario_stored; [reflexivity | discriminate].
Qed.

(** *** Settings *)

Lemma saveSettings_read (patch : obj) (w : World) :
  available w = true ->
  getSettings (snd (saveSettings patch w)) = patch ∪ getSettings w
  /\ available (snd (saveSettings patch w)) = true
  /\ scenarios (snd (saveSettings patch w)) = scenarios w.
Proof.
  intros Ha. rewrite (saveSettings_available _ _ Ha). cbn [snd].
  rewrite !getSettings_over_defaults.
  cbn [available set_settings persisted_settings settings scenarios]. rewrite Ha.
  split; [|auto]. unfold over_defaults at 1. rewrite <- (assoc_L (∪)).
  f_equal. apply over_defaults_idem.
Qed.

Lemma getSettings_same (w w' : World) :
  available w' = available w -> settings w' = settings w ->
  getSettings w' = getSettings w.
Proof.
  intros Ha Hs. unfold getSettings, isStorageAvailable. rewrite Ha, Hs. reflexivity.
Qed.

(** X23. Two saves of settings are one. On an available medium
    [saveSettings(a)] followed by [saveSettings(b)] leaves the store that
    [saveSettings({...a, ...b})] leaves. *)
Theorem saveSettings_twice (a b : obj) (w : World) :
  available w = true ->
  snd (saveSettings b (snd (saveSettings a w))) = snd (saveSettings (spread a b) w).
Proof.
  intros Ha. rewrite (saveSettings_available a w Ha). cbn [snd].
  rewrite !saveSettings_available by exact Ha.
  cbn [snd]. unfold set_settings, persisted_settings, spread, over_defaults.
  cbn [available scenarios history settings lastCalculation tick].
  do 2 f_equal. rewrite <- !(assoc_L (∪)).
  rewrite (idemp_L (∪) DEFAULT_SETTINGS). reflexivity.
Qed.

(** X24. The seven settings are always defined. Whatever the medium holds,
    [getSetting] of a key that has a default is not undefined, and is the
    default unless an available medium persists a value for the key. *)
Theorem getSetting_defined (key : string) (w : World) :
  is_Some (DEFAULT_SETTINGS !! key) ->
  is_Some (getSetting key w)
  /\ (getSetting key w = DEFAULT_SETTINGS !! key
      \/ (available w = true /\ getSetting key w = persisted_settings w !! key)).
Proof.
  intros Hk. unfold getSetting. rewrite getSettings_over_defaults.
  destruct (available w); [|split; [exact Hk | left; reflexivity]].
  unfold over_defaults.
  destruct (persisted_settings w !! key) as [v|] eqn:E.
  - rewrite (lookup_union_Some_l _ _ _ _ E). split; [eexists; reflexivity | right; auto].
  - rewrite (lookup_union_r _ _ _ E). split; [exact Hk | left; reflexivity].
Qed.


(** *** Importing *)

Lemma importData_well_formed (d : Document) (w : World) :
  importData env (Parsed d) w
  = if well_formed d
    then ({| success := true;
             message := "Successfully imported " ++ pretty (brought d)
                        ++ " scenarios and settings" |},
          snd (saveSettings (default ∅ (doc_settings d))
                 (fold_left (fun w s => snd (saveScenario env s w))
                    (default [] (doc_scenarios d)) w)))
    else ({| success := false;
             message := "Error importing data: Invalid import format" |}, w).
Proof.
  unfold importData, well_formed, brought.
  destruct (doc_scenarios d), (doc_settings d), (has_version d), (has_history d);
    reflexivity.
Qed.

(** X26. A rejected import changes nothing. When [importData] reports no
    success, the store is as it was; and then either the text did not
    parse, and the message carries that of the parser, or the document lacks
    a version, the scenarios, the history or the settings, and the message
    says that the format is invalid. *)
Theorem importData_rejected_changes_nothing (j : parsed) (w : World) :
  success (fst (importData env j w)) = false ->
  snd (importData env j w) = w
  /\ match j with
     | Unparseable why =>
         message (fst (importData env j w)) = ("Error importing data: " ++ why)%string
     | Parsed d =>
         well_formed d = false
         /\ message (fst (importData env j w))
            = "Error importing data: Invalid import format"
     end.
Proof.
  destruct j as [why|d]; [intros _; split; reflexivity|].
  rewrite importData_well_formed. destruct (well_formed d); [discriminate|].
  intros _. repeat split.
Qed.

(** X27. An import that reports success and imports no scenario. On a medium
    that is not available, or whose scenarios key does not parse, the
    import of a well-formed document reports success and counts the
    scenarios of the document in its message, yet the scenarios and the
    history are as before and no scenario is read. *)
Theorem importData_reports_success_without_storing (d : Document) (w : World) :
  well_formed d = true ->
  available w = false \/ scenarios w = Corrupt ->
  fst (importData env (Parsed d) w)
  = {| success := true;
       message := "Successfully imported " ++ pretty (brought d)
                  ++ " scenarios and settings" |}
  /\ scenarios (snd (importData env (Parsed d) w)) = scenarios w
  /\ history (snd (importData env (Parsed d) w)) = history w
  /\ getScenarios (snd (importData env (Parsed d) w)) = [].
Proof.
  intros Hd Hw. rewrite importData_well_formed, Hd. cbn [fst snd].
  assert (Hsave : forall l, fold_left (fun w s => snd (saveScenario env s w)) l w = w).
  { induction l as [|s l IH]; [reflexivity|]. cbn [fold_left].
    rewrite saveScenario_failed by exact Hw. exact IH. }
  rewrite Hsave. split; [reflexivity|].
  unfold saveSettings, getScenarios, isStorageAvailable.
  destruct Hw as [Ha|Hs].
  - rewrite Ha. cbn. rewrite Ha. auto.
  - destruct (available w) eqn:Ha; cbn; rewrite Ha, ?Hs; auto.
Qed.

Lemma prepared_keyed (s : obj) (w : World) : keyed s -> prepared env s w = s.
Proof.
  intros [H1 H2]. unfold prepared. rewrite H1, H2. reflexivity.
Qed.

Lemma save_all_stored (l : list obj) (w : World) :
  available w = true -> scenarios w <> Corrupt ->
  (forall s, In s l -> keyed s) ->
  let w' := fold_left (fun w s => snd (saveScenario env s w)) l w in
  available w' = true
  /\ scenarios w' <> Corrupt
  /\ stored_scenarios w' = fold_left (fun L s => upsert s L) l (stored_scenarios w).
Proof.
  revert w. induction l as [|s l IH]; intros w Ha Hc Hk; [cbn; auto|].
  cbn [fold_left].
  destruct (saveScenario_stored s w Ha Hc) as (_ & Ha' & Hs' & _).
  rewrite (prepared_keyed s w) in Hs' by (apply Hk; left; reflexivity).
  destruct (IH (snd (saveScenario env s w)) Ha') as (A & B & C).
  - rewrite Hs'. discriminate.
  - intros x Hx. apply Hk. right. exact Hx.
  - split; [exact A|]. split; [exact B|]. cbv zeta in C. rewrite C.
    unfold stored_scenarios at 1. rewrite Hs'. reflexivity.
Qed.

Lemma stored_scenarios_same (w w' : World) :
  scenarios w' = scenarios w -> stored_scenarios w' = stored_scenarios w.
Proof. unfold stored_scenarios. intros ->. reflexivity. Qed.

Lemma upsert_fixed (s : obj) (M : list obj) :
  find (fun e : obj => strict_eq (e !! "id") (s !! "id")) M = Some s -> upsert s M = M.
Proof.
  intros H. unfold upsert.
  pose proof (findIndex_find (fun e : obj => strict_eq (e !! "id") (s !! "id")) M) as F.
  destruct (findIndex _ M) as [i|]; [|congruence].
  destruct F as (x & Hx & Hf & _). rewrite H in Hf. injection Hf as <-.
  apply list_insert_id, Hx.
Qed.

Lemma upsert_all_fixed (l M : list obj) :
  (forall s, In s l -> find (fun e : obj => strict_eq (e !! "id") (s !! "id")) M = Some s) ->
  fold_left (fun L s => upsert s L) l M = M.
Proof.
  induction l as [|s l IH]; intros H; [reflexivity|].
  cbn [fold_left]. rewrite upsert_fixed by (apply H; left; reflexivity).
  apply IH. intros x Hx. apply H. right. exact Hx.
Qed.

Lemma find_upsert_all_other (id : option json) (l M : list obj) :
  (forall s, In s l -> strict_eq (s !! "id") id = false) ->
  find (fun e : obj => strict_eq (e !! "id") id) (fold_left (fun L s => upsert s L) l M)
  = find (fun e : obj => strict_eq (e !! "id") id) M.
Proof.
  revert M. induction l as [|s l IH]; intros M H; [reflexivity|].
  cbn [fold_left]. rewrite IH by (intros x Hx; apply H; right; exact Hx).
  apply find_upsert_other, H. left. reflexivity.
Qed.

Lemma find_upsert_all (l M : list obj) :
  distinct_ids l ->
  (forall s, In s l -> strict_eq (s !! "id") (s !! "id") = true) ->
  forall s, In s l ->
    find (fun e : obj => strict_eq (e !! "id") (s !! "id"))
      (fold_left (fun L s => upsert s L) l M) = Some s.
Proof.
  revert M. induction l as [|s1 l IH]; intros M Hd Hr s Hs; [destruct Hs|].
  destruct Hd as [Hd1 Hd]. cbn [fold_left]. destruct Hs as [<-|Hs].
  - rewrite find_upsert_all_other.
    + apply find_upsert_same, Hr. left. reflexivity.
    + intros s' Hs'. destruct (strict_eq (s' !! "id") (s1 !! "id")) eqn:E; [|reflexivity].
      rewrite <- (Hd1 s' Hs'). symmetry. apply strict_eq_sym, E.
  - apply IH; [exact Hd | intros x Hx; apply Hr; right; exact Hx | exact Hs].
Qed.

(** X28. Importing a document again. On an available medium whose scenarios
    key parses, a second import of a well-formed document, of which every
    scenario has an id that is not an array or an object and a time of
    saving, and no two scenarios share an id, leaves the scenarios and the
    settings as the first import left them. The scenarios of the document
    and of the store hold no [NaN], no infinity and no negative zero, which
    the medium would hand back as [null] and as [0]; the scenarios in the
    store are then such again. *)
Theorem import_again (d : Document) (w : World) :
  available w = true ->
  scenarios w <> Corrupt ->
  well_formed d = true ->
  (forall s, In s (default [] (doc_scenarios d)) ->
     keyed s /\ comparable (s !! "id") = true) ->
  distinct_ids (default [] (doc_scenarios d)) ->
  Forall kept_by_json (default [] (doc_scenarios d)) ->
  Forall kept_by_json (getScenarios w) ->
  let once := snd (importData env (Parsed d) w) in
  let twice := snd (importData env (Parsed d) once) in
  getScenarios twice = getScenarios once
  /\ getSettings twice = getSettings once
  /\ Forall kept_by_json (getScenarios twice).
Proof.
  intros Ha Hc Hd Hk Hdist Hkd Hkw. cbv zeta.
  rewrite !importData_well_formed, Hd. cbn [snd].
  set (l := default [] (doc_scenarios d)) in *.
  set (o := default ∅ (doc_settings d)).
  set (save_all := fold_left (fun w s => snd (saveScenario env s w)) l).
  assert (Hkeyed : forall s, In s l -> keyed s) by (intros s Hs; apply Hk, Hs).
  destruct (save_all_frame l w) as (A1 & S1 & _). cbv zeta in A1, S1.
  fold save_all in A1, S1. rewrite Ha in A1.
  destruct (saveSettings_read o (save_all w) A1) as (G1 & A1' & Sc1).
  set (w1 := snd (saveSettings o (save_all w))) in *.
  destruct (save_all_frame l w1) as (A2 & S2 & _). cbv zeta in A2, S2.
  fold save_all in A2, S2. rewrite A1' in A2.
  destruct (saveSettings_read o (save_all w1) A2) as (G2 & A2' & Sc2).
  assert (Same : getScenarios (snd (saveSettings o (save_all w1)))
                 = getScenarios w1).
  { rewrite !getScenarios_stored by assumption.
    rewrite (stored_scenarios_same _ _ Sc2).
    destruct (save_all_stored l w Ha Hc Hkeyed) as (_ & B & C).
    cbv zeta in B, C. fold save_all in B, C.
    assert (Hc1 : scenarios w1 <> Corrupt) by (rewrite Sc1; exact B).
    destruct (save_all_stored l w1 A1' Hc1 Hkeyed) as (_ & _ & C').
    cbv zeta in C'. fold save_all in C'.
    rewrite C', (stored_scenarios_same _ _ Sc1), C.
    apply upsert_all_fixed. intros s Hs.
    apply find_upsert_all; [exact Hdist | | exact Hs].
    intros x Hx. destruct (Hk x Hx) as [[Ht _] Hcmp]. apply strict_eq_refl; assumption. }
  split; [exact Same|]. split.
  - rewrite G2, (getSettings_same w1 (save_all w1)) by (congruence || auto).
    rewrite G1, (assoc_L (∪)), (idemp_L (∪) o). reflexivity.
  - rewrite Same, (getScenarios_stored _ A1'), (stored_scenarios_same _ _ Sc1).
    apply save_all_kept; [exact Hkd|].
    rewrite <- (getScenarios_stored _ Ha). exact Hkw.
Qed.

(** *** Renaming an entry of the history, from the application *)

Lemma getHistory_same (limit : option nat) (w w' : World) :
  available w' = available w -> history w' = history w ->
  getHistory limit w' = getHistory limit w.
Proof.
  intros Ha Hh. unfold getHistory, isStorageAvailable. rewrite Ha, Hh. reflexivity.
Qed.

(** X29. Renaming an entry of the history does not rename it. Whatever the id
    and the answer to the prompt, [renameHistoryItem] leaves the history as
    it is; with no saved scenario of that id, as for a calculation that was
    added to the history but never saved, it leaves the whole store as it
    is; and where the history has an entry of the id, a scenario of the id is
    saved and the answer is not blank, it is the scenario that gets the
    answer, trimmed, as its name. *)
Theorem renameHistoryItem_leaves_history (id : option json) (answer : option string)
    (w : World) :
  (forall limit,
     getHistory limit (App.renameHistoryItem env id answer w) = getHistory limit w)
  /\ (getScenario id w = None -> App.renameHistoryItem env id answer w = w)
  /\ (forall item old newName,
        find (fun h : obj => strict_eq (h !! "id") id) (getHistory None w) = Some item ->
        getScenario id w = Some old ->
        answer = Some newName ->
        JSString.trim newName <> "" ->
        exists new,
          getScenario id (App.renameHistoryItem env id answer w) = Some new
          /\ new !! "name" = Some (JsStr (JSString.trim newName))
          /\ forall k, k <> "name" -> k <> "updatedAt" -> new !! k = old !! k).
Proof.
  unfold App.renameHistoryItem. split; [|split].
  - intros limit. destruct (find _ _); [|reflexivity].
    destruct answer as [newName|]; [|reflexivity].
    destruct (_ && _); [|reflexivity].
    destruct (run_frame (UpdateScenario id {[ "name" := JsStr (JSString.trim newName) ]}) w)
      as (A & _ & B & _).
    apply getHistory_same; [exact A | apply B; reflexivity].
  - intros H. destruct (find _ _); [|reflexivity].
    destruct answer as [newName|]; [|reflexivity].
    destruct (_ && _); [|reflexivity].
    unfold updateScenario. unfold getScenario in H.
    pose proof (findIndex_find (fun s : obj => strict_eq (s !! "id") id) (getScenarios w)) as F.
    destruct (findIndex _ (getScenarios w)) as [i|]; [|reflexivity].
    destruct F as (x & _ & Hf & _). congruence.
  - intros item old newName -> Hold -> Ht.
    assert (Hn : String.eqb newName "" = false).
    { destruct newName; [|reflexivity]. exfalso. apply Ht. reflexivity. }
    assert (Ht' : String.eqb (JSString.trim newName) "" = false).
    { destruct (String.eqb_spec (JSString.trim newName) ""); [contradiction | reflexivity]. }
    rewrite Hn, Ht'. cbn [negb andb].
    destruct (updated_read id {[ "name" := JsStr (JSString.trim newName) ]} w old Hold)
      as (_ & Hg).
    { apply lookup_singleton_ne. discriminate. }
    eexists. split; [exact Hg|]. split.
    + apply (renamed_fields old (JSString.trim newName) (iso env (tick w)) "").
    + intros k. apply (renamed_fields old (JSString.trim newName) (iso env (tick w)) k).
Qed.

End WithEnv.

(** *** The settings the application holds, and the defaults *)

(** With the defaults as they are written in the source, the operations
    that tell the objects apart are those of the storage module. *)
Lemma getSettings_of_defaults (w : World) :
  App.read DEFAULT_SETTINGS (App.getSettings_of DEFAULT_SETTINGS w) = getSettings w.
Proof.
  unfold App.getSettings_of, getSettings. destruct (negb _); [reflexivity|].
  destruct (settings w); reflexivity.
Qed.

Lemma saveSettings_of_defaults (patch : obj) (w : World) :
  App.saveSettings_of DEFAULT_SETTINGS patch w = saveSettings patch w.
Proof.
  unfold App.saveSettings_of, saveSettings. rewrite getSettings_of_defaults. reflexivity.
Qed.

Lemma read_after_save (d patch : obj) (w : World) (key : string) (value : json) :
  available w = true ->
  patch !! key = Some value ->
  App.read d (App.getSettings_of d (snd (App.saveSettings_of d patch w))) !! key
  = Some value.
Proof.
  intros Ha Hp. unfold App.saveSettings_of, App.getSettings_of, isStorageAvailable.
  rewrite Ha. cbn. rewrite Ha. cbn. unfold spread.
  rewrite <- !(assoc_L (∪)). apply lookup_union_Some_l, Hp.
Qed.

(** X30. Changing a setting, and the defaults. After the page has loaded,
    [updateSetting] of a key of the settings form makes [state.settings]
    and a following [getSettings()] hold the new value for the key, whatever
    the medium. On an available medium whose settings key parses or is empty
    that is because the value is persisted, and [DEFAULT_SETTINGS] is as it
    was. On a medium that is unavailable, or whose settings key does not
    parse, [state.settings] is the object [DEFAULT_SETTINGS] itself, and it
    is the defaults that are written: [DEFAULT_SETTINGS] then holds the new
    value; on the unavailable medium nothing is stored. *)
Theorem updateSetting_and_the_defaults (key : string) (value : json) (w : World) :
  is_Some (DEFAULT_SETTINGS !! key) ->
  let s := App.updateSetting key value (App.loadInitialData (App.loaded w)) in
  App.read (App.defaults s) (App.state_settings s) !! key = Some value
  /\ App.read (App.defaults s) (App.getSettings_of (App.defaults s) (App.medium s)) !! key
     = Some value
  /\ (available w = true -> settings w <> Corrupt ->
      App.defaults s = DEFAULT_SETTINGS
      /\ App.medium s = snd (saveSettings {[ key := value ]} w))
  /\ (available w = false \/ settings w = Corrupt ->
      App.state_settings s = App.TheDefaults
      /\ App.defaults s = <[key := value]> DEFAULT_SETTINGS)
  /\ (available w = false -> App.medium s = w).
Proof.
  intros _. cbv zeta.
  unfold App.updateSetting, App.loadInitialData, App.loaded.
  cbn [App.defaults App.state_settings App.medium].
  destruct (available w) eqn:Ha.
  - destruct (settings w) as [|stored|] eqn:Hs.
    + (* nothing persisted: an object of its own *)
      assert (E : App.getSettings_of DEFAULT_SETTINGS w = App.Own DEFAULT_SETTINGS).
      { unfold App.getSettings_of, isStorageAvailable. rewrite Ha, Hs. reflexivity. }
      rewrite E. cbn [App.defaults App.state_settings App.medium App.read].
      split; [apply lookup_insert_eq|].
      split; [apply read_after_save; [exact Ha | apply lookup_singleton_eq]|].
      split; [intros _ _; split; [reflexivity | rewrite saveSettings_of_defaults; reflexivity]|].
      split; [intros [H|H]; discriminate | discriminate].
    + assert (E : App.getSettings_of DEFAULT_SETTINGS w
                  = App.Own (spread DEFAULT_SETTINGS stored)).
      { unfold App.getSettings_of, isStorageAvailable. rewrite Ha, Hs. reflexivity. }
      rewrite E. cbn [App.defaults App.state_settings App.medium App.read].
      split; [apply lookup_insert_eq|].
      split; [apply read_after_save; [exact Ha | apply lookup_singleton_eq]|].
      split; [intros _ _; split; [reflexivity | rewrite saveSettings_of_defaults; reflexivity]|].
      split; [intros [H|H]; discriminate | discriminate].
    + (* the key does not parse: the defaults themselves *)
      assert (E : App.getSettings_of DEFAULT_SETTINGS w = App.TheDefaults).
      { unfold App.getSettings_of, isStorageAvailable. rewrite Ha, Hs. reflexivity. }
      rewrite E. cbn [App.defaults App.state_settings App.medium App.read].
      split; [apply lookup_insert_eq|].
      split; [apply read_after_save; [exact Ha | apply lookup_singleton_eq]|].
      split; [intros _ H; congruence|].
      split; [intros _; split; reflexivity | discriminate].
  - (* the medium is unavailable: the defaults themselves *)
    assert (E : App.getSettings_of DEFAULT_SETTINGS w = App.TheDefaults).
    { unfold App.getSettings_of, isStorageAvailable. rewrite Ha. reflexivity. }
    rewrite E. cbn [App.defaults App.state_settings App.medium App.read].
    assert (M : snd (App.saveSettings_of (<[key := value]> DEFAULT_SETTINGS)
                       {[ key := value ]} w) = w).
    { unfold App.saveSettings_of, isStorageAvailable. rewrite Ha. reflexivity. }
    rewrite M.
    assert (E' : App.getSettings_of (<[key := value]> DEFAULT_SETTINGS) w = App.TheDefaults).
    { unfold App.getSettings_of, isStorageAvailable. rewrite Ha. reflexivity. }
    rewrite E'. cbn [App.read].
    split; [apply lookup_insert_eq|]. split; [apply lookup_insert_eq|].
    split; [discriminate|]. split; [intros _; split; reflexivity | reflexivity].
Qed.

(** *** The properties on examples *)

Lemma sample_scenario_kept (name : string) : kept_by_json (sample_scenario name).
Proof.
  unfold sample_scenario.
  repeat (apply kept_insert; [reflexivity|]). apply (fmap_empty carried).
Qed.

Lemma scenario_s1_kept (name : string) : kept_by_json (scenario_s1 name).
Proof. apply kept_insert_text, sample_scenario_kept. Qed.

Lemma scenario_s2_kept (name : string) : kept_by_json (scenario_s2 name).
Proof. apply kept_insert_text, sample_scenario_kept. Qed.

Lemma saved_store_kept : Forall kept_by_json (getScenarios saved_store).
Proof.
  change (getScenarios saved_store)
    with [scenario_s1 "corn 2024"; scenario_s2 "soybeans 2024"].
  apply Forall_cons_2; [apply scenario_s1_kept|].
  apply Forall_cons_2; [apply scenario_s2_kept | apply Forall_nil_2].
Qed.

Lemma save_then_get_witness :
  getScenario (Some (JsStr "171456480-k3j9x0"))
    (snd (saveScenario sample_env (sample_scenario "corn 2024") (empty_store 0)))
  = Some (<["id" := JsStr "171456480-k3j9x0"]> (sample_scenario "corn 2024")).
Proof.
  destruct (save_then_get sample_env (sample_scenario "corn 2024") (empty_store 0)
              eq_refl ltac:(discriminate) eq_refl (sample_scenario_kept _)
              (Forall_nil_2 _)) as (_ & _ & _ & _ & _ & H & _).
  exact H.
Defined.

(** A yield that is not a number is stored as [null]: such a scenario is
    not one the medium hands back as it was. *)
Example scenario_without_NaN :
  carried <$> ({[ "id" := JsStr "s1"; "yieldPerAcre" := JsNum nan ]} : obj)
  = {[ "id" := JsStr "s1"; "yieldPerAcre" := JsNull ]}.
Proof. vm_compute. reflexivity. Qed.

Lemma scenario_ids_stay_unique_witness :
  ids_unique
    (stored_scenarios
       (run_all sample_env
          [SaveScenario (sample_scenario "corn 2024");
           SaveScenario (scenario_s1 "soybeans 2024");
           RenameScenario (Some (JsStr "s1")) "soybeans, north field";
           ImportData (Parsed {| has_version := true;
                                 doc_scenarios := Some [scenario_s1 "wheat 2024"];
                                 has_history := true;
                                 doc_settings := Some ∅ |})]
          (empty_store 0))).
Proof.
  apply scenario_ids_stay_unique.
  - repeat constructor.
  - apply Forall_cons_2; [exact (sample_scenario_kept _)|].
    apply Forall_cons_2; [exact (scenario_s1_kept _)|].
    apply Forall_cons_2; [exact I|].
    apply Forall_cons_2; [|apply Forall_nil_2].
    apply Forall_cons_2; [exact (scenario_s1_kept _) | apply Forall_nil_2].
  - split; [exact I | intros s []].
  - apply Forall_nil_2.
Defined.

(** Without the condition the ids do not stay unique: an update that
    patches the id can give two scenarios the same id. *)
Example update_can_repeat_an_id :
  ids (stored_scenarios
         (run_all sample_env
            [SaveScenario (scenario_s1 "corn 2024");
             SaveScenario (scenario_s2 "soybeans 2024");
             UpdateScenario (Some (JsStr "s2")) {[ "id" := JsStr "s1" ]}]
            (empty_store 0)))
  = [Some (JsStr "s1"); Some (JsStr "s1")].
Proof. vm_compute. reflexivity. Qed.

Lemma updateScenario_found_witness :
  getScenario (Some (JsStr "s1"))
    (snd (updateScenario sample_env (Some (JsStr "s1")) {[ "notes" := JsStr "north field" ]}
            saved_store))
  = Some (<["updatedAt" := JsStr (iso sample_env (tick saved_store))]>
            (spread (scenario_s1 "corn 2024") {[ "notes" := JsStr "north field" ]})).
Proof.
  refine (proj1 (proj2
            (updateScenario_found sample_env (Some (JsStr "s1"))
               {[ "notes" := JsStr "north field" ]} saved_store
               (scenario_s1 "corn 2024") eq_refl eq_refl _ _))).
  - apply kept_singleton. reflexivity.
  - exact saved_store_kept.
Defined.

Lemma renameScenario_found_witness :
  fst (renameScenario sample_env (Some (JsStr "s2")) "soybeans, north field" saved_store)
  = true.
Proof.
  exact (proj1 (renameScenario_found sample_env (Some (JsStr "s2"))
                  "soybeans, north field" saved_store
                  (scenario_s2 "soybeans 2024") eq_refl)).
Defined.

Lemma updateScenario_missing_witness :
  renameScenario sample_env (Some (JsStr "s9")) "wheat" saved_store = (false, saved_store).
Proof.
  exact (proj2 (updateScenario_missing sample_env (Some (JsStr "s9")) ∅ "wheat"
                  saved_store eq_refl)).
Defined.

Lemma deleteScenario_effect_witness :
  getScenario (Some (JsStr "s1")) (snd (deleteScenario (Some (JsStr "s1")) saved_store))
  = None.
Proof.
  exact (proj1 (proj2 (deleteScenario_effect (Some (JsStr "s1")) saved_store
                         eq_refl))).
Defined.


(** Two saves of the scenario ["s1"] leave two entries in the history; one
    [deleteHistoryItem] removes both. *)
Example one_delete_removes_two_entries :
  let w := run_all sample_env
             [SaveScenario (scenario_s1 "corn 2024");
              SaveScenario (scenario_s1 "corn 2025")]
             (empty_store 0) in
  length (getHistory None w) = 2
  /\ length (getHistory None (snd (deleteHistoryItem (Some (JsStr "s1")) w))) = 0.
Proof. split; vm_compute; reflexivity. Qed.

Lemma getHistory_limit_witness :
  length (getHistory (Some 1) saved_store) <= 1.
Proof.
  exact (proj1 (proj2 (getHistory_limit 1 saved_store)) ltac:(discriminate)).
Defined.


Example search_ignores_case :
  match searchHistory "SOY" saved_store with
  | Returns found => map (fun e : obj => e !! "name") found
  | Throws _ => []
  end = [Some (JsStr "soybeans 2024")].
Proof. vm_compute. reflexivity. Qed.

Lemma searchHistory_throws_witness :
  exists what,
    searchHistory "corn"
      (snd (saveScenario sample_env {[ "name" := JsNum 2024%float ]} (empty_store 0)))
    = Throws what.
Proof.
  exact (searchHistory_throws "corn"
           (snd (saveScenario sample_env {[ "name" := JsNum 2024%float ]} (empty_store 0)))
           eq_refl).
Defined.

Lemma last_calculation_kept_witness :
  getLastCalculation
    (run_all sample_env
       [SaveScenario (scenario_s1 "corn 2024"); ClearHistory; ResetSettings]
       (snd (saveLastCalculation (JsObj raw_calculation) saved_store)))
  = Some (JsObj raw_calculation).
Proof.
  exact (proj2 (proj2 (last_calculation_kept sample_env (JsObj raw_calculation)
                         [SaveScenario (scenario_s1 "corn 2024"); ClearHistory;
                          ResetSettings]
                         saved_store eq_refl eq_refl)) eq_refl).
Defined.

(** A net profit that is not a number is read back as [null]. *)
Example last_calculation_without_NaN :
  getLastCalculation
    (snd (saveLastCalculation
            (JsObj {[ "netProfit" := JsNum nan; "acres" := JsNum infinity;
                      "revenue" := JsNum 81000 ]})
            (empty_store 0)))
  = Some (JsObj {[ "netProfit" := JsNull; "acres" := JsNull;
                   "revenue" := JsNum 81000 ]}).
Proof. vm_compute. reflexivity. Qed.

Lemma unavailable_medium_witness :
  getSettings
    (run_all sample_env
       [SaveScenario (scenario_s1 "corn 2024"); SaveSettings {[ "currency" := JsStr "eur" ]}]
       {| available := false; scenarios := Absent; history := Absent;
          settings := Absent; lastCalculation := Absent; tick := 0 |})
  = DEFAULT_SETTINGS.
Proof.
  exact (proj1 (proj2 (proj2 (proj1 (proj2
           (unavailable_medium sample_env
              [SaveScenario (scenario_s1 "corn 2024");
               SaveSettings {[ "currency" := JsStr "eur" ]}]
              {| available := false; scenarios := Absent; history := Absent;
                 settings := Absent; lastCalculation := Absent; tick := 0 |}
              eq_refl)))))).
Defined.

Lemma unparseable_scenarios_key_witness :
  saveScenario sample_env (scenario_s1 "corn 2024")
    {| available := true; scenarios := Corrupt; history := Absent;
       settings := Absent; lastCalculation := Absent; tick := 0 |}
  = (false,
     {| available := true; scenarios := Corrupt; history := Absent;
        settings := Absent; lastCalculation := Absent; tick := 0 |}).
Proof.
  exact (proj1 (proj2
           (unparseable_scenarios_key sample_env
              {| available := true; scenarios := Corrupt; history := Absent;
                 settings := Absent; lastCalculation := Absent; tick := 0 |}
              eq_refl eq_refl))
           (scenario_s1 "corn 2024")).
Defined.


Lemma unparseable_history_key_witness :
  fst (addToHistory sample_env raw_calculation
         (snd (clearHistory
                 {| available := true; scenarios := Absent; history := Corrupt;
                    settings := Absent; lastCalculation := Absent; tick := 0 |})))
  = true.
Proof.
  exact (proj2 (proj2 (proj2 (proj2
           (unparseable_history_key sample_env
              {| available := true; scenarios := Absent; history := Corrupt;
                 settings := Absent; lastCalculation := Absent; tick := 0 |}
              eq_refl eq_refl))))
           raw_calculation).
Defined.

Lemma clearAllData_recovers_witness :
  getSettings
    (snd (clearAllData
            {| available := true; scenarios := Corrupt; history := Corrupt;
               settings := Corrupt; lastCalculation := Corrupt; tick := 7 |}))
  = DEFAULT_SETTINGS.
Proof.
  exact (proj1 (proj2 (proj2 (proj2
           (clearAllData_recovers sample_env
              {| available := true; scenarios := Corrupt; history := Corrupt;
                 settings := Corrupt; lastCalculation := Corrupt; tick := 7 |}
              eq_refl))))).
Defined.

Lemma saveSettings_twice_witness :
  snd (saveSettings {[ "currency" := JsStr "cad" ]}
         (snd (saveSettings {[ "decimalPlaces" := JsNum 4%float ]} saved_store)))
  = snd (saveSettings
           (spread {[ "decimalPlaces" := JsNum 4%float ]} {[ "currency" := JsStr "cad" ]})
           saved_store).
Proof.
  exact (saveSettings_twice {[ "decimalPlaces" := JsNum 4%float ]}
           {[ "currency" := JsStr "cad" ]} saved_store eq_refl).
Defined.

Lemma getSetting_defined_witness :
  is_Some (getSetting "currency" saved_store).
Proof.
  exact (proj1 (getSetting_defined "currency" saved_store
                  (ex_intro _ (JsStr "usd") eq_refl))).
Defined.


Lemma importData_rejected_changes_nothing_witness :
  snd (importData sample_env
         (Parsed {| has_version := false;
                    doc_scenarios := Some [scenario_s1 "wheat 2024"];
                    has_history := true;
                    doc_settings := Some ∅ |})
         saved_store)
  = saved_store.
Proof.
  exact (proj1
           (importData_rejected_changes_nothing sample_env
              (Parsed {| has_version := false;
                         doc_scenarios := Some [scenario_s1 "wheat 2024"];
                         has_history := true;
                         doc_settings := Some ∅ |})
              saved_store eq_refl)).
Defined.

Lemma importData_reports_success_without_storing_witness :
  getScenarios
    (snd (importData sample_env
            (Parsed {| has_version := true;
                       doc_scenarios := Some [scenario_s1 "wheat 2024"];
                       has_history := true;
                       doc_settings := Some ∅ |})
            {| available := false; scenarios := Absent; history := Absent;
               settings := Absent; lastCalculation := Absent; tick := 0 |}))
  = [].
Proof.
  exact (proj2 (proj2 (proj2
           (importData_reports_success_without_storing sample_env
              {| has_version := true;
                 doc_scenarios := Some [scenario_s1 "wheat 2024"];
                 has_history := true;
                 doc_settings := Some ∅ |}
              {| available := false; scenarios := Absent; history := Absent;
                 settings := Absent; lastCalculation := Absent; tick := 0 |}
              eq_refl (or_introl eq_refl))))).
Defined.

Lemma import_again_witness :
  let d := {| has_version := true;
              doc_scenarios := Some [scenario_s1 "wheat 2024"; scenario_s2 "oats 2024"];
              has_history := true;
              doc_settings := Some {[ "currency" := JsStr "cad" ]} |} in
  let once := snd (importData sample_env (Parsed d) saved_store) in
  getScenarios (snd (importData sample_env (Parsed d) once)) = getScenarios once.
Proof.
  intros d once.
  refine (proj1 (import_again sample_env d saved_store eq_refl _ eq_refl _ _ _ _)).
  - discriminate.
  - intros s [<-|[<-|[]]]; repeat split; vm_compute; reflexivity.
  - split; [|split; [intros s' []|exact I]].
    intros s' [<-|[]]. vm_compute. reflexivity.
  - apply Forall_cons_2; [apply scenario_s1_kept|].
    apply Forall_cons_2; [apply scenario_s2_kept | apply Forall_nil_2].
  - exact saved_store_kept.
Defined.

Lemma renameHistoryItem_leaves_history_witness :
  (exists new,
     getScenario (Some (JsStr "s1"))
       (App.renameHistoryItem sample_env (Some (JsStr "s1")) (Some "  corn, north field ")
          saved_store) = Some new
     /\ new !! "name" = Some (JsStr "corn, north field"))
  /\ getHistory None
       (App.renameHistoryItem sample_env (Some (JsStr "s1")) (Some "  corn, north field ")
          saved_store)
     = getHistory None saved_store.
Proof.
  destruct (renameHistoryItem_leaves_history sample_env (Some (JsStr "s1"))
              (Some "  corn, north field "%string) saved_store) as (Hh & _ & Hr).
  split; [|apply Hh].
  destruct (Hr (<["addedAt" := JsStr "2024-05-01T12:00:01.000Z"]> (scenario_s1 "corn 2024"))
              (scenario_s1 "corn 2024") "  corn, north field "%string
              eq_refl eq_refl eq_refl ltac:(discriminate)) as (new & Hg & Hn & _).
  exists new. split; [exact Hg | exact Hn].
Defined.

(** An answer of white space alone renames nothing, whichever white space
    of the language it is: here a no-break space and a line separator. *)
Example blank_answer_renames_nothing :
  App.renameHistoryItem sample_env (Some (JsStr "s1"))
    (Some (String (ascii_of_N 194) (String (ascii_of_N 160)
            (String (ascii_of_N 226) (String (ascii_of_N 128)
              (String (ascii_of_N 168) EmptyString))))))
    saved_store
  = saved_store.
Proof. vm_compute. reflexivity. Qed.

Lemma updateSetting_and_the_defaults_witness :
  App.defaults
    (App.updateSetting "currency" (JsStr "eur")
       (App.loadInitialData
          (App.loaded {| available := false; scenarios := Absent; history := Absent;
                         settings := Absent; lastCalculation := Absent; tick := 0 |})))
  = <["currency" := JsStr "eur"]> DEFAULT_SETTINGS.
Proof.
  exact (proj2 (proj1 (proj2 (proj2 (proj2
           (updateSetting_and_the_defaults "currency" (JsStr "eur")
              {| available := false; scenarios := Absent; history := Absent;
                 settings := Absent; lastCalculation := Absent; tick := 0 |}
              (ex_intro _ (JsStr "usd") eq_refl))))) (or_introl eq_refl))).
Defined.

End StorageFacts.
